(** * KnowledgeVault unified backend: ingestion and retrieval pipelines

    A shallow embedding of [knowledge_vault_backend.py]: the relational
    store, the lazily initialised agent global, and the request handlers
    [get_knowledge_item], [create_knowledge_item], [upload_file], [chat]
    and [health_check], followed by the properties the specification
    states about them.

    Conventions.
    - A Python [str] is a [string]; its characters are code points
      below 256.  [Optional[str]] is [option string].
    - A primary key ([str(uuid.uuid4())]) is the rank of the draw in the
      process-wide stream of UUIDs, a [nat]; [uuid_str] renders it.
    - [func.now()] and [datetime.now()] read a logical clock that every
      commit advances.
    - What the handlers receive from outside the repository (the agent
      framework, the SQL [ILIKE] operator, the UTF-8 codec, date
      formatting, what the database does with a string too long for its
      column, whether the operating system creates a file) is gathered
      in an environment record [Env].
    - Handlers run in a state monad over [World]; every database round
      trip and every agent call the source writes is also appended to a
      trace.  A handler that raises returns the exception, [inl], in
      the world it has reached: what was committed stays, what was only
      pending in the session is gone.
    - The session of a request is modelled where the handlers depend
      on it: [item.tags] is read from the store at the first access
      after a commit, each Tag once, and an appended Tag reaches the
      association table at the next commit. *)

From Stdlib Require Import List String Ascii Arith Bool Lia.
From Stdlib Require Import Sorting.Sorted Sorting.Permutation.
Import ListNotations.
Open Scope string_scope.
Open Scope list_scope.

(** ** Python string primitives used by the handlers *)

Module Py.

(** [s.startswith(p)] *)
Fixpoint startswith (p s : string) : bool :=
  match p with
  | EmptyString => true
  | String a p' =>
      match s with
      | EmptyString => false
      | String b s' => Ascii.eqb a b && startswith p' s'
      end
  end.

(** [sub in s] *)
Fixpoint contains (sub s : string) : bool :=
  match s with
  | EmptyString => startswith sub s
  | String _ s' => startswith sub s || contains sub s'
  end.

(** [s.split(sep)] for a non-empty separator.  [skip] counts the
    characters of a matched separator still to be dropped and [cur] is
    the piece being read. *)
Fixpoint split_aux (sep : string) (skip : nat) (cur s : string)
  : list string :=
  match s with
  | EmptyString => [cur]
  | String c s' =>
      match skip with
      | S k => split_aux sep k cur s'
      | O =>
          if startswith sep s
          then cur :: split_aux sep (String.length sep - 1) "" s'
          else split_aux sep 0 (cur ++ String c "") s'
      end
  end.

Definition split (sep s : string) : list string := split_aux sep 0 "" s.

(** [l[i]] on a list of strings; the handlers only index pieces that
    exist, the default is never reached there. *)
Definition index (l : list string) (i : nat) : string := nth i l "".

(** [str.isspace] on code points below 256 *)
Definition isspace (c : ascii) : bool :=
  let n := nat_of_ascii c in
  (((9 <=? n) && (n <=? 13)) || ((28 <=? n) && (n <=? 32))
   || (n =? 133) || (n =? 160))%nat.

Fixpoint lstrip (s : string) : string :=
  match s with
  | EmptyString => ""
  | String c s' => if isspace c then lstrip s' else s
  end.

Fixpoint rstrip (s : string) : string :=
  match s with
  | EmptyString => ""
  | String c s' =>
      match rstrip s' with
      | EmptyString => if isspace c then "" else String c ""
      | r => String c r
      end
  end.

(** [s.strip()] *)
Definition strip (s : string) : string := rstrip (lstrip s).

(** [s[:n]] *)
Fixpoint take (n : nat) (s : string) : string :=
  match n, s with
  | S k, String c s' => String c (take k s')
  | _, _ => ""
  end.

(** [sep.join(l)] *)
Fixpoint join (sep : string) (l : list string) : string :=
  match l with
  | [] => ""
  | [x] => x
  | x :: rest => x ++ sep ++ join sep rest
  end.

(** truth value of a [str] and of an [Optional[str]] *)
Definition nonempty (s : string) : bool :=
  match s with EmptyString => false | _ => true end.

Definition truthy (o : option string) : bool :=
  match o with Some s => nonempty s | None => false end.

(** how an f-string renders an [Optional[str]] *)
Definition fmt (o : option string) : string :=
  match o with Some s => s | None => "None" end.

(** the line break character *)
Definition nl : string := String (ascii_of_nat 10) "".

End Py.


(** ** Data model: the SQLAlchemy tables *)

Abbreviation uuid := nat (only parsing).
Abbreviation datetime := nat (only parsing).

(** a JSON column *)
Unset Elimination Schemes.
Inductive json : Type :=
| JNull
| JBool (b : bool)
| JNum (n : nat)
| JStr (s : string)
| JList (l : list json)
| JDict (d : list (string * json)).
Set Elimination Schemes.

Module User.
Record t := mk {
  id : uuid;
  email : option string;
  first_name : option string;
  last_name : option string;
  profile_image_url : option string;
  created_at : datetime;
  updated_at : datetime
}.
End User.

Module KnowledgeItem.
Record t := mk {
  id : uuid;
  user_id : uuid;
  title : string;
  summary : option string;
  content : option string;
  type : string;
  file_url : option string;
  file_name : option string;
  file_size : option nat;
  mime_type : option string;
  object_path : option string;
  item_metadata : list (string * json);
  is_processed : bool;
  processing_error : option string;
  created_at : datetime;
  updated_at : datetime
}.
End KnowledgeItem.

Module Tag.
Record t := mk {
  id : uuid;
  name : string;
  color : string;
  user_id : uuid;
  created_at : datetime
}.
End Tag.

Module Conversation.
Record t := mk {
  id : uuid;
  user_id : uuid;
  title : string;
  created_at : datetime;
  updated_at : datetime
}.
End Conversation.

(** one entry of the [sources] list built by [chat] *)
Module Source.
Record t := mk {
  id : uuid;
  title : string;
  summary : option string;
  type : string
}.
End Source.

Module ChatMessage.
(** [message_metadata] is either absent or the dictionary
    [{"sources": ..., "agent_used": ...}] *)
Record t := mk {
  id : uuid;
  conversation_id : uuid;
  role : string;
  content : string;
  message_metadata : option (list Source.t * string);
  created_at : datetime
}.
End ChatMessage.

(** The tables.  [knowledge_item_tags] is the association table: it has
    no key of its own, a row is a pair (knowledge_item_id, tag_id).
    Rows are kept in insertion order, which stands for the store's
    natural order. *)
Record Store := mkStore {
  users : list User.t;
  knowledge_items : list KnowledgeItem.t;
  tags : list Tag.t;
  knowledge_item_tags : list (uuid * uuid);
  conversations : list Conversation.t;
  chat_messages : list ChatMessage.t
}.

Definition empty_store : Store := mkStore [] [] [] [] [] [].

(** ** Request and response bodies *)

Module KnowledgeItemCreate.
Record t := mk {
  title : string;
  summary : option string;
  content : option string;
  type : string;
  tags : option (list string);
  metadata : option (list (string * json))
}.
End KnowledgeItemCreate.

Module ChatRequest.
(** [conversation_id] is [None] for an absent or empty id, the two cases
    in which [chat] skips the lookup *)
Record t := mk {
  message : string;
  conversation_id : option uuid;
  use_knowledge_base : bool
}.
End ChatRequest.

Module ChatResponse.
Record t := mk {
  message : string;
  conversation_id : uuid;
  sources : list Source.t;
  agent_used : string
}.
End ChatResponse.

Module UploadFile.
(** [data] is what [await file.read()] returns *)
Record t := mk {
  filename : string;
  content_type : option string;
  data : list Byte.byte
}.
End UploadFile.

(** the dictionary built by [serialize_knowledge_item] *)
Module ItemDict.
Record t := mk {
  id : uuid;
  title : string;
  summary : option string;
  content : option string;
  type : string;
  fileUrl : option string;
  fileName : option string;
  fileSize : option nat;
  mimeType : option string;
  objectPath : option string;
  metadata : list (string * json);
  isProcessed : bool;
  processingError : option string;
  createdAt : datetime;
  updatedAt : datetime;
  tags : option (list string)
}.
End ItemDict.

(** the dictionary returned by [health_check] *)
Module Health.
Record t := mk {
  status : string;
  version : string;
  agents_available : bool;
  database : string
}.
End Health.

(** exceptions the modelled code raises; the last two are not caught
    by the handlers and end the request with a 500 *)
Inductive exn : Type :=
| ValueError (msg : string)
| Exception (msg : string)
| HTTPException (status_code : nat) (detail : string)
| OSError (filename : string)       (* [open] failed, FileNotFoundError included *)
| DataError (value : string).       (* the database refused the value *)

(** ** Configuration and the outside world *)

Record Settings := mkSettings {
  database_url : string;
  openai_api_key : string;
  secret_key : string;
  algorithm : string;
  access_token_expire_minutes : nat;
  upload_dir : string;
  environment : string
}.

(** [agent.run(prompt).content]; [None] when the call raises *)
Definition Agent := string -> option string.

Record KnowledgeVaultAgents := mkAgents {
  document_processor : Agent;
  search_agent : Agent;
  conversation_agent : Agent;
  summarization_agent : Agent
}.

(** what a database does with a string of more than [n] characters
    put into a [String(n)] column: PostgreSQL refuses it, or cuts it to
    [n] characters when only spaces are lost; SQLite keeps it whole *)
Inductive Overlong : Type := Refuse | Truncate | Keep.

Record Env := mkEnv {
  settings : Settings;
  (** what [_setup_agents] builds, [None] when the framework raises *)
  agno : option KnowledgeVaultAgents;
  (** [column.ilike(pattern)], first the column value, then the pattern *)
  ilike : string -> string -> bool;
  (** reading a file back with [encoding='utf-8', errors='ignore'] *)
  decode_utf8 : list Byte.byte -> string;
  (** [strftime('%Y-%m-%d %H:%M')] *)
  strftime : datetime -> string;
  uuid_str : uuid -> string;
  (** the database behind [database_url], given the [n] of the column
      and a string longer than [n] *)
  overlong : nat -> string -> Overlong;
  (** whether the operating system creates a file of this path, its
      directory being there: length and characters of the name,
      permissions, room *)
  creates : string -> bool
}.

(** what a [String(n)] column keeps of a string, [None] when the
    database refuses the row; a string of at most [n] characters is
    kept as it is *)
Definition varchar (env : Env) (n : nat) (s : string) : option string :=
  if Nat.leb (String.length s) n then Some s
  else match overlong env n s with
       | Refuse => None
       | Truncate => Some (Py.take n s)
       | Keep => Some s
       end.

Inductive Table :=
| TUsers | TKnowledgeItems | TTags | TKnowledgeItemTags
| TConversations | TChatMessages.

(** what a handler does to the outside, in program order *)
Inductive Event : Type :=
| EvQuery (t : Table)                 (* db.query(...).first() / .all() *)
| EvCommit (t : Table) (row : uuid)   (* db.add(row); db.commit() *)
| EvRefresh (t : Table) (row : uuid)  (* db.refresh(row) *)
| EvFlush (item : uuid)               (* db.commit() of appended tags *)
| EvWrite (path : string)             (* the uploaded bytes written *)
| EvRun (agent : string) (prompt : string).  (* agent.run(prompt) *)

Record World := mkWorld {
  db : Store;
  files : list (string * list Byte.byte);
  uuid_supply : nat;
  clock : datetime;
  agents : option KnowledgeVaultAgents;   (* the module global *)
  trace : list Event
}.

(** ** The state monad of a request *)

Definition M (A : Type) : Type := World -> A * World.

Definition ret {A} (a : A) : M A := fun w => (a, w).

Definition bind {A B} (m : M A) (k : A -> M B) : M B :=
  fun w => let (a, w') := m w in k a w'.

Declare Scope req_scope.
Delimit Scope req_scope with req.
Notation "x <- m ;; k" := (bind m (fun x => k))
  (at level 100, m at next level, right associativity) : req_scope.
Notation "m ;;; k" := (bind m (fun _ => k))
  (at level 100, right associativity) : req_scope.
Open Scope req_scope.

(** [raise e], and the rest of a handler after a step that may raise *)
Definition raise {A} (e : exn) : M (exn + A) := ret (inl e).

Definition try_bind {A B} (m : M (exn + A)) (k : A -> M (exn + B))
  : M (exn + B) :=
  r <- m ;;
  match r with
  | inl e => ret (inl e)
  | inr a => k a
  end.

Notation "x <-? m ;; k" := (try_bind m (fun x => k))
  (at level 100, m at next level, right associativity) : req_scope.

Definition get_store : M Store := fun w => (db w, w).

Definition put_store (s : Store) : M unit :=
  fun w => (tt, mkWorld s (files w) (uuid_supply w) (clock w) (agents w)
                        (trace w)).

Definition log (e : Event) : M unit :=
  fun w => (tt, mkWorld (db w) (files w) (uuid_supply w) (clock w)
                        (agents w) (trace w ++ [e])).

(** [str(uuid.uuid4())] *)
Definition uuid4 : M uuid :=
  fun w => (uuid_supply w,
            mkWorld (db w) (files w) (S (uuid_supply w)) (clock w)
                    (agents w) (trace w)).

(** [func.now()] *)
Definition now : M datetime := fun w => (clock w, w).

(** [db.commit()]: the transaction ends, time has passed *)
Definition commit : M unit :=
  fun w => (tt, mkWorld (db w) (files w) (uuid_supply w) (S (clock w))
                        (agents w) (trace w)).

Definition set_agents (a : option KnowledgeVaultAgents) : M unit :=
  fun w => (tt, mkWorld (db w) (files w) (uuid_supply w) (clock w) a
                        (trace w)).

Definition write_file (path : string) (data : list Byte.byte) : M unit :=
  fun w => (tt, mkWorld (db w) ((path, data) :: files w) (uuid_supply w)
                        (clock w) (agents w) (trace w ++ [EvWrite path])).

(** ** Table operations *)

Definition add_knowledge_item (x : KnowledgeItem.t) : M unit :=
  s <- get_store ;;
  put_store (mkStore (users s) (knowledge_items s ++ [x]) (tags s)
                     (knowledge_item_tags s) (conversations s)
                     (chat_messages s)).

Definition add_tag (x : Tag.t) : M unit :=
  s <- get_store ;;
  put_store (mkStore (users s) (knowledge_items s) (tags s ++ [x])
                     (knowledge_item_tags s) (conversations s)
                     (chat_messages s)).

(** an association row reaches the table *)
Definition append_tag (item tag : uuid) : M unit :=
  s <- get_store ;;
  put_store (mkStore (users s) (knowledge_items s) (tags s)
                     (knowledge_item_tags s ++ [(item, tag)])
                     (conversations s) (chat_messages s)).

Definition add_conversation (x : Conversation.t) : M unit :=
  s <- get_store ;;
  put_store (mkStore (users s) (knowledge_items s) (tags s)
                     (knowledge_item_tags s) (conversations s ++ [x])
                     (chat_messages s)).

Definition add_chat_message (x : ChatMessage.t) : M unit :=
  s <- get_store ;;
  put_store (mkStore (users s) (knowledge_items s) (tags s)
                     (knowledge_item_tags s) (conversations s)
                     (chat_messages s ++ [x])).

(** [db.query(KnowledgeItem).filter(id == item_id, user_id == uid).first()] *)
Definition item_by_id (s : Store) (item_id uid : uuid)
  : option KnowledgeItem.t :=
  find (fun it => Nat.eqb (KnowledgeItem.id it) item_id
                  && Nat.eqb (KnowledgeItem.user_id it) uid)
       (knowledge_items s).

(** [db.query(Tag).filter(name == tag_name, user_id == uid).first()] *)
Definition tag_by_name (s : Store) (tag_name : string) (uid : uuid)
  : option Tag.t :=
  find (fun t => String.eqb (Tag.name t) tag_name
                 && Nat.eqb (Tag.user_id t) uid)
       (tags s).

(** [db.query(Conversation).filter(id == cid, user_id == uid).first()] *)
Definition conversation_by_id (s : Store) (cid uid : uuid)
  : option Conversation.t :=
  find (fun c => Nat.eqb (Conversation.id c) cid
                 && Nat.eqb (Conversation.user_id c) uid)
       (conversations s).

(** the SELECT behind [item.tags]: the association rows of an item
    joined with the tag table, one result row per association row *)
Definition join_tags (tgs : list Tag.t) (rows : list (uuid * uuid))
  (item_id : uuid) : list Tag.t :=
  flat_map
    (fun row =>
       if Nat.eqb (fst row) item_id
       then filter (fun t => Nat.eqb (Tag.id t) (snd row)) tgs
       else [])
    rows.

(** The session turns result rows into objects, one object per primary
    key: a Tag that the rows name more than once is in the collection
    once, at its first place. *)
Fixpoint unique_tags (seen : list uuid) (l : list Tag.t) : list Tag.t :=
  match l with
  | [] => []
  | t :: rest =>
      if existsb (Nat.eqb (Tag.id t)) seen
      then unique_tags seen rest
      else t :: unique_tags (Tag.id t :: seen) rest
  end.

(** [item.tags], loaded from the store *)
Definition item_tags (s : Store) (item_id : uuid) : list Tag.t :=
  unique_tags [] (join_tags (tags s) (knowledge_item_tags s) item_id).

(** ** The collection [db_item.tags] within a session

    [Expired] after a commit (and after [db.refresh], which leaves the
    relationship unloaded); otherwise the keys of the tags that were
    read from the store at the first access, and the keys appended
    since, in order. *)
Inductive Collection : Type :=
| Expired
| Loaded (original appended : list uuid).

(** [db_item.tags]: the first access after a commit reads the store *)
Definition access (s : Store) (item : uuid) (c : Collection)
  : list uuid * list uuid :=
  match c with
  | Loaded original appended => (original, appended)
  | Expired => (map Tag.id (item_tags s item), [])
  end.

(** [db_item.tags.append(tag)] *)
Definition append (s : Store) (item : uuid) (c : Collection) (tag : uuid)
  : Collection :=
  let (original, appended) := access s item c in
  Loaded original (appended ++ [tag]).

(** the rows a flush inserts: one for every appended element that was
    not read from the store, repeated elements included *)
Definition pending_rows (item : uuid) (c : Collection)
  : list (uuid * uuid) :=
  match c with
  | Expired => []
  | Loaded original appended =>
      map (pair item)
          (filter (fun x => negb (existsb (Nat.eqb x) original)) appended)
  end.

(** what [db.commit()] writes for the collection *)
Definition flush (item : uuid) (c : Collection) : M unit :=
  s <- get_store ;;
  put_store (mkStore (users s) (knowledge_items s) (tags s)
                     (knowledge_item_tags s ++ pending_rows item c)
                     (conversations s) (chat_messages s)).

(** ** Response serialization *)

Definition serialize_knowledge_item (s : Store) (item : KnowledgeItem.t)
  (include_tags : bool) : ItemDict.t :=
  ItemDict.mk
    (KnowledgeItem.id item)
    (KnowledgeItem.title item)
    (KnowledgeItem.summary item)
    (KnowledgeItem.content item)
    (KnowledgeItem.type item)
    (KnowledgeItem.file_url item)
    (KnowledgeItem.file_name item)
    (KnowledgeItem.file_size item)
    (KnowledgeItem.mime_type item)
    (KnowledgeItem.object_path item)
    (KnowledgeItem.item_metadata item)
    (KnowledgeItem.is_processed item)
    (KnowledgeItem.processing_error item)
    (KnowledgeItem.created_at item)
    (KnowledgeItem.updated_at item)
    (if include_tags
     then Some (map Tag.name (item_tags s (KnowledgeItem.id item)))
     else None).

(** ** The agent global *)

(** [KnowledgeVaultAgents.__init__] *)
Definition KnowledgeVaultAgents_init (env : Env)
  : exn + KnowledgeVaultAgents :=
  if negb (Py.nonempty (openai_api_key (settings env)))
  then inl (ValueError "OPENAI_API_KEY is required for agent system")
  else match agno env with
       | Some a => inr a
       | None => inl (Exception "agent framework")
       end.

Definition get_global_agents : M (option KnowledgeVaultAgents) :=
  fun w => (agents w, w).

Definition get_agents (env : Env) : M (option KnowledgeVaultAgents) :=
  g <- get_global_agents ;;
  match g with
  | Some a => ret (Some a)
  | None =>
      if Py.nonempty (openai_api_key (settings env))
      then match KnowledgeVaultAgents_init env with
           | inr a => set_agents (Some a) ;;; ret (Some a)
           | inl _ => set_agents None ;;; ret None
           end
      else ret None
  end.

(** ** Process start and [/health] *)

(** Import of the module: [Settings()], the engine, [agents = None], the
    application object, [create_all] and the upload directory.  Nothing
    here reads [openai_api_key].  [st], [disk], [drawn] and [t] are what
    earlier runs left behind. *)
Definition boot (env : Env) (st : Store)
  (disk : list (string * list Byte.byte)) (drawn : nat) (t : datetime)
  : exn + World :=
  inr (mkWorld st disk drawn t None []).

Definition health_check (env : Env) : M Health.t :=
  ag <- get_agents env ;;
  ret (Health.mk "healthy" "2.0.0"
                 (match ag with Some _ => true | None => false end)
                 "connected").

(** ** [GET /api/knowledge-items/{item_id}] *)

Definition get_knowledge_item (env : Env) (item_id : uuid)
  (current_user : User.t) : M (exn + ItemDict.t) :=
  log (EvQuery TKnowledgeItems) ;;;
  s <- get_store ;;
  match item_by_id s item_id (User.id current_user) with
  | None => ret (inl (HTTPException 404 "Knowledge item not found"))
  | Some item => ret (inr (serialize_knowledge_item s item true))
  end.

(** ** Tag attachment *)

(** a [for] loop whose body works on a local state and may raise *)
Fixpoint for_each {A S} (l : list A) (body : A -> S -> M (exn + S)) (st : S)
  : M (exn + S) :=
  match l with
  | [] => ret (inr st)
  | x :: rest => st' <-? body x st ;; for_each rest body st'
  end.

(** The body of the loop [for tag_name in ...], the same text in
    [create_knowledge_item] and in [upload_file]; [c] is the collection
    [db_item.tags] as the session holds it.  [Tag.name] is a
    [String(100)].  The commit of a new tag writes the rows pending for
    the collection as well and expires it; when the insert is refused
    the commit raises and nothing of it is written. *)
Definition get_or_create_tag (env : Env) (uid item : uuid)
  (tag_name : string) (c : Collection) : M (exn + Collection) :=
  log (EvQuery TTags) ;;;
  s <- get_store ;;
  match tag_by_name s tag_name uid with
  | None =>
      tid <- uuid4 ;;
      match varchar env 100 tag_name with
      | None => raise (DataError tag_name)
      | Some name =>
          t <- now ;;
          add_tag (Tag.mk tid name "#3B82F6" uid t) ;;;
          flush item c ;;;
          commit ;;;
          log (EvCommit TTags tid) ;;;
          log (EvRefresh TTags tid) ;;;
          s' <- get_store ;;
          ret (inr (append s' item Expired tid))
      end
  | Some existing_tag =>
      ret (inr (append s item c (Tag.id existing_tag)))
  end.

(** The loop with the [db.commit()] that follows it: "Handle tags" of
    [create_knowledge_item] when there are tags, "Add tags" of
    [upload_file]. *)
Definition attach_all (env : Env) (uid item : uuid) (names : list string)
  : M (exn + unit) :=
  c <-? for_each names (get_or_create_tag env uid item) Expired ;;
  flush item c ;;;
  commit ;;;
  log (EvFlush item) ;;;
  ret (inr tt).

(** "Create knowledge item": the row is built with the key and the time
    the store gives it, added, committed and refreshed.
    [KnowledgeItem.type] is a [String(50)], the other columns that the
    handlers fill take any text. *)
Definition store_item (env : Env) (type : string)
  (make : uuid -> datetime -> string -> KnowledgeItem.t)
  : M (exn + KnowledgeItem.t) :=
  item_id <- uuid4 ;;
  match varchar env 50 type with
  | None => raise (DataError type)
  | Some kept =>
      t <- now ;;
      let db_item := make item_id t kept in
      add_knowledge_item db_item ;;;
      commit ;;;
      log (EvCommit TKnowledgeItems item_id) ;;;
      log (EvRefresh TKnowledgeItems item_id) ;;;
      ret (inr db_item)
  end.

(** ** Reading labelled fields out of an agent response *)

(** [response.split(label)[1].split("\n")[0].strip()] *)
Definition after_label (label response : string) : string :=
  Py.strip (Py.index (Py.split Py.nl (Py.index (Py.split label response) 1)) 0).

(** ** [POST /api/knowledge-items] *)

Definition analysis_prompt (item_data : KnowledgeItemCreate.t) : string :=
  "Analyze this content and suggest improvements:" ++ Py.nl ++ Py.nl
  ++ "Title: " ++ KnowledgeItemCreate.title item_data ++ Py.nl
  ++ "Content: " ++ Py.fmt (KnowledgeItemCreate.content item_data)
  ++ Py.nl ++ Py.nl
  ++ "Provide: 1) Improved title if needed, 2) Summary, 3) Suggested tags".

(** the [try] block of [create_knowledge_item]; the result is the value
    of [item_data.summary] afterwards *)
Definition backfill_summary (env : Env) (item_data : KnowledgeItemCreate.t)
  : M (option string) :=
  let given := KnowledgeItemCreate.summary item_data in
  if Py.truthy (KnowledgeItemCreate.content item_data)
  then
    ag <- get_agents env ;;
    match ag with
    | None => ret given                       (* "AI unavailable", caught *)
    | Some a =>
        log (EvRun "DocumentProcessor" (analysis_prompt item_data)) ;;;
        match document_processor a (analysis_prompt item_data) with
        | None => ret given                   (* the call raised, caught *)
        | Some response =>
            if Py.contains "Summary:" response
            then if negb (Py.truthy given)
                 then ret (Some (after_label "Summary:" response))
                 else ret given
            else ret given
        end
    end
  else ret given.

Definition create_knowledge_item (env : Env)
  (item_data : KnowledgeItemCreate.t) (current_user : User.t)
  : M (exn + ItemDict.t) :=
  summary <- backfill_summary env item_data ;;
  db_item <-?
    store_item env (KnowledgeItemCreate.type item_data)
      (fun item_id t type =>
         KnowledgeItem.mk
           item_id
           (User.id current_user)
           (KnowledgeItemCreate.title item_data)
           summary
           (KnowledgeItemCreate.content item_data)
           type
           None None None None None
           (match KnowledgeItemCreate.metadata item_data with
            | Some d => d
            | None => []
            end)
           true
           None
           t t) ;;
  _ <-?
    match KnowledgeItemCreate.tags item_data with
    | Some (tag_name :: more) =>
        attach_all env (User.id current_user) (KnowledgeItem.id db_item)
                   (tag_name :: more)
    | _ => ret (inr tt)
    end ;;
  s <- get_store ;;
  ret (inr (serialize_knowledge_item s db_item true)).

(** ** [POST /api/upload] *)

Definition process_prompt (file : UploadFile.t) (file_content : string)
  : string :=
  "Process this uploaded file:" ++ Py.nl ++ Py.nl
  ++ "Filename: " ++ UploadFile.filename file ++ Py.nl
  ++ "Content Type: " ++ Py.fmt (UploadFile.content_type file) ++ Py.nl
  ++ "Content: " ++ Py.take 1000 file_content ++ "..." ++ Py.nl ++ Py.nl
  ++ "Provide: 1) Title, 2) Summary, 3) Key concepts, 4) Suggested tags (comma-separated)".

(** what the [try] block of [upload_file] leaves in [title], [summary]
    and [suggested_tags] when the agent answers *)
Definition parse_processing_response (filename response_content : string)
  : string * string * list string :=
  let title :=
    if Py.contains "Title:" response_content
    then match after_label "Title:" response_content with
         | EmptyString => filename
         | t => t
         end
    else filename in
  let summary :=
    if Py.contains "Summary:" response_content
    then after_label "Summary:" response_content
    else "File processed by AI agent" in
  let suggested_tags :=
    if Py.contains "Tags:" response_content
    then filter Py.nonempty
                (map Py.strip
                     (Py.split "," (after_label "Tags:" response_content)))
    else ["uploaded"] in
  (title, summary, suggested_tags).

(** the [try]/[except] of [upload_file] *)
Definition analyse_upload (env : Env) (file : UploadFile.t)
  (file_content : string) : M (string * string * list string) :=
  let fallback :=
    (UploadFile.filename file, "File uploaded successfully", ["uploaded"]) in
  ag <- get_agents env ;;
  match ag with
  | None => ret fallback
  | Some a =>
      log (EvRun "DocumentProcessor" (process_prompt file file_content)) ;;;
      match document_processor a (process_prompt file file_content) with
      | None => ret fallback
      | Some response_content =>
          ret (parse_processing_response (UploadFile.filename file)
                                         response_content)
      end
  end.

(** [pathlib] on POSIX: the parts of a path are the pieces between
    slashes, empty pieces and "." left out; the root is "/", or "//"
    for exactly two leading slashes; the string of a path is the root
    followed by the parts with "/" between them, "." when there is
    neither. *)
Definition path_parts (s : string) : list string :=
  filter (fun p => Py.nonempty p && negb (String.eqb p "."))
         (Py.split "/" s).

Definition path_root (s : string) : string :=
  if Py.startswith "//" s && negb (Py.startswith "///" s) then "//"
  else if Py.startswith "/" s then "/"
  else "".

Definition path_str (root : string) (parts : list string) : string :=
  match root, parts with
  | EmptyString, [] => "."
  | _, _ => root ++ Py.join "/" parts
  end.

(** [f"{uuid.uuid4()}_{file.filename}"] *)
Definition upload_name (env : Env) (path_id : uuid) (file : UploadFile.t)
  : string :=
  uuid_str env path_id ++ "_" ++ UploadFile.filename file.

(** where the upload is stored:
    [str(Path(settings.upload_dir) / f"{uuid}_{filename}")]; the name
    starts with the UUID, so it is never an absolute path *)
Definition upload_path (env : Env) (path_id : uuid) (file : UploadFile.t)
  : string :=
  path_str (path_root (upload_dir (settings env)))
           (path_parts (upload_dir (settings env))
            ++ path_parts (upload_name env path_id file)).

(** [aiofiles.open(file_path, 'wb')] succeeds: the upload directory is
    there since the module was imported and nothing makes a directory
    below it, so the name has to be a single part, and the operating
    system has to take it *)
Definition opens (env : Env) (path_id : uuid) (file : UploadFile.t)
  : bool :=
  Nat.eqb (List.length (path_parts (upload_name env path_id file))) 1
  && creates env (upload_path env path_id file).

(** "Read content for processing": the stored file read back as text
    when its content type starts with [text/], else the empty string *)
Definition read_text (env : Env) (file : UploadFile.t) : string :=
  match UploadFile.content_type file with
  | Some ct =>
      if Py.nonempty ct && Py.startswith "text/" ct
      then decode_utf8 env (UploadFile.data file)
      else ""
  | None => ""
  end.

Definition upload_file (env : Env) (file : UploadFile.t)
  (current_user : User.t) : M (exn + ItemDict.t) :=
  path_id <- uuid4 ;;
  let file_path := upload_path env path_id file in
  let content := UploadFile.data file in
  if negb (opens env path_id file)
  then raise (OSError file_path)          (* outside the [try] *)
  else
    write_file file_path content ;;;
    let file_content := read_text env file in
    r <- analyse_upload env file file_content ;;
    let '(title, summary, suggested_tags) := r in
    db_item <-?
      store_item env "document"
        (fun item_id t type =>
           KnowledgeItem.mk
             item_id
             (User.id current_user)
             title
             (Some summary)
             (Some file_content)
             type
             (Some file_path)
             (Some (UploadFile.filename file))
             (Some (List.length content))
             (UploadFile.content_type file)
             None
             [("original_filename", JStr (UploadFile.filename file))]
             true
             None
             t t) ;;
    _ <-?
      attach_all env (User.id current_user) (KnowledgeItem.id db_item)
                 suggested_tags ;;
    s <- get_store ;;
    ret (inr (serialize_knowledge_item s db_item true)).

(** ** [POST /api/chat] *)

Definition apology : string :=
  "I'm sorry, I'm having trouble processing your request right now. Please try again.".

Definition chat_prompt (message context : string) : string :=
  "User question: " ++ message ++ Py.nl ++ Py.nl
  ++ "Knowledge base context:" ++ Py.nl ++ context ++ Py.nl ++ Py.nl
  ++ "Provide a helpful response based on the available context.".

(** "Get or create conversation"; the result is [conversation.id] *)
Definition resolve_conversation (env : Env) (chat_request : ChatRequest.t)
  (current_user : User.t) : M uuid :=
  conversation <-
    match ChatRequest.conversation_id chat_request with
    | Some cid =>
        log (EvQuery TConversations) ;;;
        s <- get_store ;;
        ret (conversation_by_id s cid (User.id current_user))
    | None => ret None
    end ;;
  match conversation with
  | Some c => ret (Conversation.id c)
  | None =>
      cid <- uuid4 ;;
      t <- now ;;
      add_conversation
        (Conversation.mk cid (User.id current_user)
                         ("Chat " ++ strftime env t) t t) ;;;
      commit ;;;
      log (EvCommit TConversations cid) ;;;
      log (EvRefresh TConversations cid) ;;;
      ret cid
  end.

(** the filtered, limited query over the caller's items *)
Definition matching_items (env : Env) (s : Store) (uid : uuid)
  (message : string) : list KnowledgeItem.t :=
  firstn 5
    (filter
       (fun it =>
          Nat.eqb (KnowledgeItem.user_id it) uid
          && match KnowledgeItem.content it with
             | Some c => ilike env c ("%" ++ Py.take 50 message ++ "%")
             | None => false      (* NULL never matches *)
             end)
       (knowledge_items s)).

Definition source_of (item : KnowledgeItem.t) : Source.t :=
  Source.mk (KnowledgeItem.id item) (KnowledgeItem.title item)
            (KnowledgeItem.summary item) (KnowledgeItem.type item).

(** one block of the context; a matched item always has a content *)
Definition excerpt (item : KnowledgeItem.t) : string :=
  "[" ++ KnowledgeItem.title item ++ "]" ++ Py.nl
  ++ Py.fmt (KnowledgeItem.summary item) ++ Py.nl
  ++ Py.take 300 (match KnowledgeItem.content item with
                  | Some c => c
                  | None => ""
                  end)
  ++ "...".

Definition context_of (items : list KnowledgeItem.t) : string :=
  match items with
  | [] => ""
  | _ => Py.join (Py.nl ++ Py.nl) (map excerpt items)
  end.

(** "Search knowledge base if requested": [relevant_items] and [context] *)
Definition retrieve (env : Env) (chat_request : ChatRequest.t)
  (current_user : User.t) : M (list Source.t * string) :=
  if ChatRequest.use_knowledge_base chat_request
  then
    log (EvQuery TKnowledgeItems) ;;;
    s <- get_store ;;
    let items := matching_items env s (User.id current_user)
                                (ChatRequest.message chat_request) in
    ret (map source_of items, context_of items)
  else ret ([], "").

(** the [try]/[except] around the conversation agent *)
Definition generate (env : Env) (prompt : string) : M string :=
  ag <- get_agents env ;;
  match ag with
  | None => ret apology
  | Some a =>
      log (EvRun "ConversationAgent" prompt) ;;;
      match conversation_agent a prompt with
      | Some content => ret content
      | None => ret apology
      end
  end.

Definition chat (env : Env) (chat_request : ChatRequest.t)
  (current_user : User.t) : M ChatResponse.t :=
  cid <- resolve_conversation env chat_request current_user ;;
  (* Add user message *)
  um <- uuid4 ;;
  t <- now ;;
  add_chat_message
    (ChatMessage.mk um cid "user" (ChatRequest.message chat_request)
                    None t) ;;;
  commit ;;;
  log (EvCommit TChatMessages um) ;;;
  (* Search knowledge base if requested *)
  r <- retrieve env chat_request current_user ;;
  let '(relevant_items, context) := r in
  (* Generate response using conversation agent *)
  assistant_content <-
    generate env (chat_prompt (ChatRequest.message chat_request) context) ;;
  (* Add assistant message *)
  am <- uuid4 ;;
  t' <- now ;;
  add_chat_message
    (ChatMessage.mk am cid "assistant" assistant_content
                    (Some (relevant_items, "ConversationAgent")) t') ;;;
  commit ;;;
  log (EvCommit TChatMessages am) ;;;
  ret (ChatResponse.mk assistant_content cid relevant_items
                       "ConversationAgent").

(** ** Two sessions attaching a tag at the same time

    Each request works through its own database session; what the store
    sees of a request that attaches one name to a new item is three
    round trips: the lookup, the insert with its commit, and the
    association row, written by the commit that follows the loop.
    [step] performs the next round trip of one session, a schedule says
    which session moves.  The names are taken to fit the column. *)

Module Race.

Inductive pc : Type :=
| AtQuery
| AtInsert
| AtAppend (tag : uuid)
| Done.

Record Session := mkSession {
  user : uuid;
  item : uuid;
  tag_name : string;
  at_pc : pc
}.

Definition goto (th : Session) (p : pc) : Session :=
  mkSession (user th) (item th) (tag_name th) p.

Definition step (th : Session) : M Session :=
  match at_pc th with
  | AtQuery =>
      log (EvQuery TTags) ;;;
      s <- get_store ;;
      match tag_by_name s (tag_name th) (user th) with
      | None => ret (goto th AtInsert)
      | Some existing_tag => ret (goto th (AtAppend (Tag.id existing_tag)))
      end
  | AtInsert =>
      tid <- uuid4 ;;
      t <- now ;;
      add_tag (Tag.mk tid (tag_name th) "#3B82F6" (user th) t) ;;;
      commit ;;;
      log (EvCommit TTags tid) ;;;
      log (EvRefresh TTags tid) ;;;
      ret (goto th (AtAppend tid))
  | AtAppend tid =>
      append_tag (item th) tid ;;;
      ret (goto th Done)
  | Done => ret th
  end.

(** one session alone, run to its end *)
Definition run_alone (th : Session) : M Session :=
  th1 <- step th ;;
  th2 <- step th1 ;;
  step th2.

(** [false] moves the first session, [true] the second *)
Fixpoint run (schedule : list bool) (a b : Session)
  : M (Session * Session) :=
  match schedule with
  | [] => ret (a, b)
  | false :: rest => a' <- step a ;; run rest a' b
  | true :: rest => b' <- step b ;; run rest a b'
  end.

(** the Tag rows of a (user, name) pair *)
Definition rows_of (s : Store) (uid : uuid) (n : string) : list Tag.t :=
  filter (fun t => String.eqb (Tag.name t) n && Nat.eqb (Tag.user_id t) uid)
         (tags s).

(** the tag ids an item is associated with *)
Definition tags_of_item (s : Store) (i : uuid) : list uuid :=
  map snd (filter (fun row => Nat.eqb (fst row) i) (knowledge_item_tags s)).

End Race.

(** ** Store invariant

    Primary keys of tags are unique, and every key that occurs in the
    tables the tag association touches was drawn from the UUID stream. *)

Definition wf (w : World) : Prop :=
  NoDup (map Tag.id (tags (db w)))
  /\ (forall t, In t (tags (db w)) -> Tag.id t < uuid_supply w)
  /\ (forall it, In it (knowledge_items (db w)) ->
                 KnowledgeItem.id it < uuid_supply w)
  /\ (forall row, In row (knowledge_item_tags (db w)) ->
                  fst row < uuid_supply w /\ snd row < uuid_supply w).

(** what has been appended to a collection since it was read *)
Definition appended_of (c : Collection) : list uuid :=
  match c with
  | Loaded _ appended => appended
  | Expired => []
  end.

(** the loop invariant of the tag attachment: the store is well formed,
    the item has a key, a loaded collection shows what the store holds
    for the item, and the tags [chosen] so far are rows of the tag
    table, the very ones that the association rows of the item and the
    collection name *)
Definition attached (w : World) (i : uuid) (c : Collection)
  (chosen : list Tag.t) : Prop :=
  wf w /\ i < uuid_supply w
  /\ (forall o a, c = Loaded o a -> o = map Tag.id (item_tags (db w) i))
  /\ (forall t, In t chosen -> In t (tags (db w)))
  /\ (forall x, In x (Race.tags_of_item (db w) i ++ appended_of c)
                <-> In x (map Tag.id chosen)).

(** the tag the loop attaches for a name: a row of the user that carries
    the name, or what the column keeps of the name *)
Definition chosen_for (env : Env) (uid : uuid) (n : string) (t : Tag.t)
  : Prop :=
  Tag.user_id t = uid
  /\ (Tag.name t = n \/ varchar env 100 n = Some (Tag.name t)).

(** the database stores the name as it is, or not at all *)
Definition kept_whole (env : Env) (n : string) : Prop :=
  forall name, varchar env 100 n = Some name -> name = n.

(** the enrichment of an upload fails: no agents can be had, or the
    document processor raises on the prompt *)
Definition enrichment_fails (env : Env) (w : World) (prompt : string)
  : bool :=
  match fst (get_agents env w) with
  | None => true
  | Some a => match document_processor a prompt with
              | None => true
              | Some _ => false
              end
  end.

(** ** Names for the stages of the ingestion handlers *)

(** the tags that [create_knowledge_item] is asked to attach *)
Definition requested_tags (item_data : KnowledgeItemCreate.t)
  : list string :=
  match KnowledgeItemCreate.tags item_data with
  | Some l => l
  | None => []
  end.

(** the world in which [upload_file] analyses the file: the path has
    been drawn and the bytes are written *)
Definition stored (env : Env) (file : UploadFile.t) (w : World) : World :=
  snd (write_file (upload_path env (uuid_supply w) file)
                  (UploadFile.data file) (snd (uuid4 w))).

(** the world in which the tag loop starts: the row of the item has
    been added, committed and refreshed *)
Definition committed (item : KnowledgeItem.t) (w : World) : World :=
  mkWorld (mkStore (users (db w)) (knowledge_items (db w) ++ [item])
                   (tags (db w)) (knowledge_item_tags (db w))
                   (conversations (db w)) (chat_messages (db w)))
          (files w) (S (uuid_supply w)) (S (clock w)) (agents w)
          (trace w ++ [EvCommit TKnowledgeItems (uuid_supply w);
                       EvRefresh TKnowledgeItems (uuid_supply w)]).

(** the tag names that [upload_file] attaches: what the analysis of
    the stored file suggests *)
Definition suggested_tags (env : Env) (file : UploadFile.t) (w : World)
  : list string :=
  snd (fst (analyse_upload env file (read_text env file)
                           (stored env file w))).

(** what the examples look at in a response *)
Definition shown (r : exn + ItemDict.t)
  : exn + string * option string * option (list string) * bool :=
  match r with
  | inr d => inr (ItemDict.title d, ItemDict.summary d, ItemDict.tags d,
                  ItemDict.isProcessed d)
  | inl e => inl e
  end.

(** ** Reading traces *)

Definition is_run (e : Event) : bool :=
  match e with EvRun _ _ => true | _ => false end.

Definition is_message_commit (e : Event) : bool :=
  match e with EvCommit TChatMessages _ => true | _ => false end.

Definition is_item_query (e : Event) : bool :=
  match e with EvQuery TKnowledgeItems => true | _ => false end.

(** neither an agent call, nor a chat message, nor a look at the items *)
Definition quiet (e : Event) : bool :=
  negb (is_run e) && negb (is_message_commit e) && negb (is_item_query e).

(** the same world holding other knowledge items *)
Definition with_items (items : list KnowledgeItem.t) (w : World) : World :=
  mkWorld (mkStore (users (db w)) items (tags (db w))
                   (knowledge_item_tags (db w)) (conversations (db w))
                   (chat_messages (db w)))
          (files w) (uuid_supply w) (clock w) (agents w) (trace w).

(** ** The stand-alone agent services

    [src/agents/minimal_agents.py] and [src/agents/simple_agents.py]
    begin with the same check of the environment variable, before
    anything else of the module runs; [src/agents/main.py] checks
    [DATABASE_URL] as well. *)

Definition agent_service_import (OPENAI_API_KEY : option string)
  : exn + unit :=
  if negb (Py.truthy OPENAI_API_KEY)
  then inl (ValueError "OPENAI_API_KEY environment variable is required")
  else inr tt.

Definition main_service_import (OPENAI_API_KEY DATABASE_URL : option string)
  : exn + unit :=
  if negb (Py.truthy OPENAI_API_KEY)
  then inl (ValueError "OPENAI_API_KEY environment variable is required")
  else if negb (Py.truthy DATABASE_URL)
       then inl (ValueError "DATABASE_URL environment variable is required")
       else inr tt.

(** ** Sample inputs *)

Module Sample.

Local Open Scope string_scope.

Definition settings_without_key : Settings :=
  mkSettings "postgresql://localhost/knowledgevault" ""
             "dev-only-secret-key-not-for-production" "HS256" 30
             "/tmp/uploads" "development".

Definition settings_with_key : Settings :=
  mkSettings "postgresql://localhost/knowledgevault" "sk-test"
             "dev-only-secret-key-not-for-production" "HS256" 30
             "/tmp/uploads" "development".

(** an agent that always answers the same labelled text *)
Definition labelled : Agent :=
  fun _ => Some ("Title: Notes" ++ Py.nl ++ "Summary: short" ++ Py.nl
                 ++ "Tags: x, y" ++ Py.nl).

(** an agent whose call always raises *)
Definition raising : Agent := fun _ => None.

Definition answering_agents : KnowledgeVaultAgents :=
  mkAgents labelled labelled labelled labelled.

Definition raising_agents : KnowledgeVaultAgents :=
  mkAgents raising raising raising raising.

(** characters as bytes, enough for ASCII files *)
Definition latin1 (l : list Byte.byte) : string :=
  string_of_list_ascii (map ascii_of_byte l).

(** a pattern [%m%] matches the values that contain [m] *)
Definition contains_pattern (value pattern : string) : bool :=
  match pattern with
  | String _ rest => Py.contains (Py.take (String.length rest - 1) rest) value
  | EmptyString => false
  end.

(** [s[n:]] *)
Fixpoint drop (n : nat) (s : string) : string :=
  match n, s with
  | S k, String _ s' => drop k s'
  | _, _ => s
  end.

Fixpoint only_spaces (s : string) : bool :=
  match s with
  | EmptyString => true
  | String c s' => Ascii.eqb c " " && only_spaces s'
  end.

(** PostgreSQL, the database of the default [database_url] *)
Definition postgresql (n : nat) (s : string) : Overlong :=
  if only_spaces (drop n s) then Truncate else Refuse.

Definition env_of (st : Settings) (a : option KnowledgeVaultAgents) : Env :=
  mkEnv st a contains_pattern latin1 (fun _ => "2024-01-01 00:00")
        (fun n => String (ascii_of_nat (48 + n)) "")
        postgresql (fun _ => true).

Definition env_without_key : Env :=
  env_of settings_without_key (Some answering_agents).

Definition env_answering : Env :=
  env_of settings_with_key (Some answering_agents).

Definition env_raising : Env :=
  env_of settings_with_key (Some raising_agents).

Definition alice : User.t := User.mk 1 (Some "alice@example.com")
                                     None None None 0 0.
Definition bob : User.t := User.mk 2 (Some "bob@example.com")
                                   None None None 0 0.

(** a fresh deployment; ids 1 and 2 are the two users *)
Definition fresh_world : World :=
  mkWorld (mkStore [alice; bob] [] [] [] [] []) [] 3 1 None [].

Definition note (i owner : uuid) (text : string) : KnowledgeItem.t :=
  KnowledgeItem.mk i owner "note" None (Some text) "text"
                   None None None None None [] true None 0 0.

(** alice owns items 3 and 4, bob owns item 5 *)
Definition small_world : World :=
  mkWorld (mkStore [alice; bob]
                   [note 3 1 "rocq proofs"; note 4 1 "python code";
                    note 5 2 "rocq secrets"]
                   [] [] [] [])
          [] 6 1 None [].

Definition text_file : UploadFile.t :=
  UploadFile.mk "a.txt" (Some "text/plain")
                (map byte_of_ascii (list_ascii_of_string "hello")).

(** a file name with a directory in it *)
Definition nested_file : UploadFile.t :=
  UploadFile.mk "sub/a.txt" (Some "text/plain")
                (map byte_of_ascii (list_ascii_of_string "hello")).

(** 101 characters *)
Definition long_name : string :=
  "xxxxxxxxxxxxxxxxxxxxxxxxxxxxxxxxxxxxxxxxxxxxxxxxxxxxxxxxxxxxxxxxxxxxxxxxxxxxxxxxxxxxxxxxxxxxxxxxxxxxx".

Definition note_request (names : list string) : KnowledgeItemCreate.t :=
  KnowledgeItemCreate.mk "note" None (Some "some text") "text"
                         (Some names) None.

Definition question (use_knowledge_base : bool) : ChatRequest.t :=
  ChatRequest.mk "rocq" None use_knowledge_base.

(** two requests of alice, for her items 3 and 4, both about to
    attach the tag "a" that does not exist yet *)
Definition first_session : Race.Session :=
  Race.mkSession 1 3 "a" Race.AtQuery.
Definition second_session : Race.Session :=
  Race.mkSession 1 4 "a" Race.AtQuery.

(** both look the tag up before either has inserted it *)
Definition interleaved : list bool :=
  [false; true; false; true; false; true].

(** the first request finishes before the second starts *)
Definition serial : list bool :=
  [false; false; false; true; true; true].

End Sample.

(** ** More of the backend: listings, authentication, direct agent access

    The remaining handlers of [knowledge_vault_backend.py], over the
    same store and monad. *)

(** *** Python dictionaries and ORDER BY *)

(** [d.get(key)] on a dictionary kept as an association list *)
Fixpoint dict_get {V} (d : list (string * V)) (key : string) : option V :=
  match d with
  | [] => None
  | (k, v) :: rest => if String.eqb k key then Some v else dict_get rest key
  end.

(** [x] goes in front of the first row it is [before] *)
Fixpoint insert_by {A} (before : A -> A -> bool) (x : A) (l : list A)
  : list A :=
  match l with
  | [] => [x]
  | y :: rest =>
      if before x y then x :: y :: rest else y :: insert_by before x rest
  end.

(** [ORDER BY]: rows that compare equal stay in the order of the table.
    The database leaves the order of such rows open and may choose
    differently from one query to the next: [order_by] is one of the
    answers it may give, and [may_list] below describes all of them
    for the listing of items. *)
Definition order_by {A} (before : A -> A -> bool) (l : list A) : list A :=
  fold_right (insert_by before) [] l.

Definition asc {A} (key : A -> nat) (x y : A) : bool :=
  Nat.leb (key x) (key y).

Definition desc {A} (key : A -> nat) (x y : A) : bool :=
  Nat.leb (key y) (key x).

(** *** Serialized rows *)

Module UserDict.
Record t := mk {
  id : uuid;
  email : option string;
  firstName : option string;
  lastName : option string;
  profileImageUrl : option string;
  createdAt : datetime
}.
End UserDict.

Module MessageDict.
Record t := mk {
  id : uuid;
  role : string;
  content : string;
  metadata : option (list Source.t * string);
  createdAt : datetime
}.
End MessageDict.

Module ConversationDict.
Record t := mk {
  id : uuid;
  title : string;
  createdAt : datetime;
  updatedAt : datetime;
  message_count : option nat
}.
End ConversationDict.

Module TagDict.
Record t := mk {
  id : uuid;
  name : string;
  color : string;
  createdAt : datetime
}.
End TagDict.

(** the dictionary returned by the direct agent endpoints *)
Module AgentDict.
Record t := mk {
  response : string;
  agent : string
}.
End AgentDict.

Definition serialize_user (user : User.t) : UserDict.t :=
  UserDict.mk (User.id user) (User.email user) (User.first_name user)
              (User.last_name user) (User.profile_image_url user)
              (User.created_at user).

Definition serialize_chat_message (message : ChatMessage.t)
  : MessageDict.t :=
  MessageDict.mk (ChatMessage.id message) (ChatMessage.role message)
                 (ChatMessage.content message)
                 (ChatMessage.message_metadata message)
                 (ChatMessage.created_at message).

(** [conversation.messages] *)
Definition conversation_messages (s : Store) (cid : uuid)
  : list ChatMessage.t :=
  filter (fun m => Nat.eqb (ChatMessage.conversation_id m) cid)
         (chat_messages s).

Definition serialize_conversation (s : Store) (conversation : Conversation.t)
  (include_message_count : bool) : ConversationDict.t :=
  ConversationDict.mk
    (Conversation.id conversation)
    (Conversation.title conversation)
    (Conversation.created_at conversation)
    (Conversation.updated_at conversation)
    (if include_message_count
     then Some (List.length
                  (conversation_messages s (Conversation.id conversation)))
     else None).

(** *** Listings *)

(** the filtered, ordered, paged query of [get_knowledge_items];
    [offset] and [limit] are the non-negative values the database
    accepts *)
Definition page_of_items (s : Store) (uid : uuid) (limit offset : nat)
  : list KnowledgeItem.t :=
  firstn limit
    (skipn offset
       (order_by (desc KnowledgeItem.created_at)
          (filter (fun it => Nat.eqb (KnowledgeItem.user_id it) uid)
                  (knowledge_items s)))).

Definition get_knowledge_items (env : Env) (limit offset : nat)
  (current_user : User.t) : M (list ItemDict.t) :=
  log (EvQuery TKnowledgeItems) ;;;
  s <- get_store ;;
  ret (map (fun item => serialize_knowledge_item s item true)
           (page_of_items s (User.id current_user) limit offset)).

Definition get_conversations (env : Env) (current_user : User.t)
  : M (list ConversationDict.t) :=
  log (EvQuery TConversations) ;;;
  s <- get_store ;;
  ret (map (fun conv => serialize_conversation s conv true)
           (order_by (desc Conversation.updated_at)
              (filter (fun c => Nat.eqb (Conversation.user_id c)
                                        (User.id current_user))
                      (conversations s)))).

Definition get_conversation_messages (env : Env) (conversation_id : uuid)
  (current_user : User.t) : M (exn + list MessageDict.t) :=
  log (EvQuery TConversations) ;;;
  s <- get_store ;;
  match conversation_by_id s conversation_id (User.id current_user) with
  | None => ret (inl (HTTPException 404 "Conversation not found"))
  | Some _ =>
      log (EvQuery TChatMessages) ;;;
      ret (inr (map serialize_chat_message
                    (order_by (asc ChatMessage.created_at)
                              (conversation_messages s conversation_id))))
  end.

Definition get_tags (env : Env) (current_user : User.t)
  : M (list TagDict.t) :=
  log (EvQuery TTags) ;;;
  s <- get_store ;;
  ret (map (fun tag => TagDict.mk (Tag.id tag) (Tag.name tag)
                                  (Tag.color tag) (Tag.created_at tag))
           (filter (fun t => Nat.eqb (Tag.user_id t) (User.id current_user))
                   (tags s))).

(** *** Tokens

    What [jose.jwt] and [timedelta] contribute.  A payload that
    [jwt.decode] lets through has a string under "sub" and a time under
    "exp" when these keys are present; other keys play no part here. *)

Inductive subject : Type :=
| SubjectId (u : uuid)        (* the string of a key of the UUID stream *)
| SubjectText (s : string).   (* any other string *)

Record Payload := mkPayload {
  sub : option subject;
  exp : option datetime
}.

Record Jose (token : Type) := mkJose {
  (** [jwt.encode(claims, key, algorithm=alg)] *)
  jwt_encode : Payload -> string -> string -> token;
  (** [jwt.decode(token, key, algorithms=algs)] at a given time;
      [None] when it raises [JWTError] *)
  jwt_decode : token -> string -> list string -> datetime -> option Payload;
  (** [timedelta(minutes=n)] in units of the clock *)
  minutes : nat -> datetime
}.

Arguments jwt_encode {token}.
Arguments jwt_decode {token}.
Arguments minutes {token}.

(** what the handlers rely on: a token decodes, under the key and the
    algorithm it was made with, to its payload until the time in "exp"
    has passed, and to nothing afterwards *)
Definition jose_sound {token} (j : Jose token) : Prop :=
  forall p key alg t e,
    exp p = Some e ->
    jwt_decode j (jwt_encode j p key alg) key [alg] t
    = if Nat.leb t e then Some p else None.

Module LoginDict.
Record t (token : Type) := mk {
  access_token : token;
  token_type : string;
  user : UserDict.t
}.
Arguments access_token {token}.
Arguments token_type {token}.
Arguments user {token}.
End LoginDict.

Definition add_user (x : User.t) : M unit :=
  s <- get_store ;;
  put_store (mkStore (users s ++ [x]) (knowledge_items s) (tags s)
                     (knowledge_item_tags s) (conversations s)
                     (chat_messages s)).

(** [db.query(User).filter(User.email == email).first()] *)
Definition user_by_email (s : Store) (email : string) : option User.t :=
  find (fun u => match User.email u with
                 | Some e => String.eqb e email
                 | None => false
                 end)
       (users s).

(** [db.query(User).filter(User.id == user_id).first()] *)
Definition user_by_id (s : Store) (user_id : uuid) : option User.t :=
  find (fun u => Nat.eqb (User.id u) user_id) (users s).

(** [data] is the dictionary [{"sub": ...}]; a zero [expires_delta] is
    falsy like an absent one *)
Definition create_access_token {token} (j : Jose token) (env : Env)
  (data : Payload) (expires_delta : option datetime) : M token :=
  t <- now ;;
  let expire :=
    match expires_delta with
    | Some (S d) => t + S d
    | _ => t + minutes j 15
    end in
  let to_encode := mkPayload (sub data) (Some expire) in
  ret (jwt_encode j to_encode (secret_key (settings env))
                  (algorithm (settings env))).

Definition verify_token {token} (j : Jose token) (env : Env)
  (tok : token) : M (option Payload) :=
  t <- now ;;
  ret (jwt_decode j tok (secret_key (settings env))
                  [algorithm (settings env)] t).

Definition credentials_exception : exn :=
  HTTPException 401 "Invalid authentication credentials".

Definition get_current_user {token} (j : Jose token) (env : Env)
  (credentials : token) : M (exn + User.t) :=
  payload <- verify_token j env credentials ;;
  match payload with
  | None => ret (inl credentials_exception)
  | Some (mkPayload None None) => ret (inl credentials_exception)
  | Some p =>
      match sub p with
      | None => ret (inl credentials_exception)
      | Some (SubjectText EmptyString) => ret (inl credentials_exception)
      | Some who =>
          log (EvQuery TUsers) ;;;
          s <- get_store ;;
          match match who with
                | SubjectId user_id => user_by_id s user_id
                | SubjectText _ => None
                end with
          | None => ret (inl (HTTPException 401 "User not found"))
          | Some user => ret (inr user)
          end
      end
  end.

Definition login {token} (j : Jose token) (env : Env)
  (email password : string) : M (exn + LoginDict.t token) :=
  if negb (String.eqb (environment (settings env)) "development")
  then ret (inl (HTTPException
                   403 "Password/OAuth authentication required in production"))
  else
    log (EvQuery TUsers) ;;;
    s <- get_store ;;
    user <-
      match user_by_email s email with
      | Some user => ret user
      | None =>
          uid <- uuid4 ;;
          t <- now ;;
          let user := User.mk uid (Some email) (Some "Demo") (Some "User")
                              None t t in
          add_user user ;;;
          commit ;;;
          log (EvCommit TUsers uid) ;;;
          log (EvRefresh TUsers uid) ;;;
          ret user
      end ;;
    access_token <-
      create_access_token j env (mkPayload (Some (SubjectId (User.id user)))
                                           None) None ;;
    ret (inr (LoginDict.mk token access_token "bearer"
                           (serialize_user user))).

Definition get_current_user_info (current_user : User.t) : UserDict.t :=
  serialize_user current_user.

(** *** [POST /api/agents/process-document] *)

(** [content.get('text', content.get('content', ''))] inside an
    f-string: a string is printed as it is, [show] prints anything else *)
Definition text_of_content (show : json -> string)
  (content : list (string * json)) : string :=
  let printed v := match v with JStr s => s | other => show other end in
  match dict_get content "text" with
  | Some v => printed v
  | None => match dict_get content "content" with
            | Some v => printed v
            | None => ""
            end
  end.

(** [raised prompt] is [str(e)] for the exception the call raises *)
Definition agent_process_document (env : Env) (show : json -> string)
  (raised : string -> string) (content : list (string * json))
  (current_user : User.t) : M (exn + AgentDict.t) :=
  ag <- get_agents env ;;
  match ag with
  | None =>
      ret (inr (AgentDict.mk "AI processing unavailable" "DocumentProcessor"))
  | Some a =>
      let prompt :=
        ("Process this content: " ++ text_of_content show content)%string in
      log (EvRun "DocumentProcessor" prompt) ;;;
      match document_processor a prompt with
      | Some response =>
          ret (inr (AgentDict.mk response "DocumentProcessor"))
      | None =>
          ret (inl (HTTPException
                      500 ("Agent processing failed: " ++ raised prompt)%string))
      end
  end.

(** *** Names used in the statements about these handlers *)

(** newest first: every row is at least as recent as those after it *)
Definition newest_first {A} (key : A -> nat) : list A -> Prop :=
  StronglySorted (fun a b => key b <= key a).

(** What the query of [get_knowledge_items] may return: a page of some
    newest-first arrangement of the caller's rows.  [page_of_items] is
    the answer in which rows of the same [created_at] keep the order
    of the table. *)
Definition may_list (s : Store) (uid : uuid) (limit offset : nat)
  (page : list KnowledgeItem.t) : Prop :=
  exists arranged,
    Permutation arranged
      (filter (fun it => Nat.eqb (KnowledgeItem.user_id it) uid)
              (knowledge_items s))
    /\ newest_first KnowledgeItem.created_at arranged
    /\ page = firstn limit (skipn offset arranged).

(** the responses that go with these pages *)
Definition may_answer (s : Store) (uid : uuid) (limit offset : nat)
  (l : list ItemDict.t) : Prop :=
  exists page,
    may_list s uid limit offset page
    /\ l = map (fun item => serialize_knowledge_item s item true) page.

(** no two items of the user were created at the same time *)
Definition distinct_times (s : Store) (uid : uuid) : Prop :=
  NoDup (map KnowledgeItem.created_at
             (filter (fun it => Nat.eqb (KnowledgeItem.user_id it) uid)
                     (knowledge_items s))).

(** the conversation [chat] opens when it cannot reuse one *)
Definition opened_conversation (env : Env) (u : User.t) (w : World)
  : Conversation.t :=
  Conversation.mk (uuid_supply w) (User.id u)
                  ("Chat " ++ strftime env (clock w)) (clock w) (clock w).

(** the conversation of the caller that the request names, if any *)
Definition named_conversation (req : ChatRequest.t) (u : User.t) (w : World)
  : option Conversation.t :=
  match ChatRequest.conversation_id req with
  | Some cid => conversation_by_id (db w) cid (User.id u)
  | None => None
  end.

(** no stored message is dated after the clock *)
Definition messages_in_the_past (w : World) : Prop :=
  forall m, In m (chat_messages (db w)) -> ChatMessage.created_at m <= clock w.

(** the user a development login answers with *)
Definition demo_user (email : string) (w : World) : User.t :=
  match user_by_email (db w) email with
  | Some user => user
  | None => User.mk (uuid_supply w) (Some email) (Some "Demo") (Some "User")
                    None (clock w) (clock w)
  end.

(** at most one Tag row for every (user, name) *)
Definition names_unique (s : Store) : Prop :=
  forall uid n, List.length (Race.rows_of s uid n) <= 1.

(** the row the tag loop inserts when the name is new *)
Definition new_tag (uid : nat) (n : string) (w : World) : Tag.t :=
  Tag.mk (uuid_supply w) n "#3B82F6" uid (clock w).

(** no line break occurs in the string *)
Definition single_line (s : string) : Prop := Py.contains Py.nl s = false.

(** *** More sample inputs *)

Module Demo.

Local Open Scope string_scope.

Definition settings_production : Settings :=
  mkSettings "postgresql://localhost/knowledgevault" "sk-test"
             "a-long-random-secret" "HS256" 30 "/tmp/uploads" "production".

Definition env_production : Env :=
  Sample.env_of settings_production (Some Sample.answering_agents).

(** a token that shows what it was made from *)
Definition plain_token : Type := (Payload * string * string)%type.

Definition plain_jose : Jose plain_token :=
  mkJose plain_token
    (fun p key alg => (p, key, alg))
    (fun tok key algs t =>
       let '(p, k, a) := tok in
       if String.eqb k key && existsb (String.eqb a) algs
          && match exp p with
             | Some e => Nat.leb t e
             | None => true
             end
       then Some p
       else None)
    (fun n => 60 * n).

Definition talk (i owner : uuid) : Conversation.t :=
  Conversation.mk i owner "Chat 2024-01-01 00:00" 0 0.

Definition turn (i cid : uuid) (role content : string) (t : datetime)
  : ChatMessage.t :=
  ChatMessage.mk i cid role content None t.

(** alice owns conversation 6, with one exchange; bob owns
    conversation 7 *)
Definition talk_world : World :=
  mkWorld (mkStore [Sample.alice; Sample.bob]
                   [Sample.note 3 1 "rocq proofs"]
                   [] []
                   [talk 6 1; talk 7 2]
                   [turn 8 6 "user" "hello" 1;
                    turn 9 6 "assistant" "hi" 2])
          [] 10 3 None [].

Definition dated_note (i owner : uuid) (t : datetime) : KnowledgeItem.t :=
  KnowledgeItem.mk i owner "note" None (Some "text") "text"
                   None None None None None [] true None t t.

(** alice owns three items, made at different times *)
Definition dated_world : World :=
  mkWorld (mkStore [Sample.alice; Sample.bob]
                   [dated_note 3 1 5; dated_note 4 1 7; dated_note 5 1 6]
                   [] [] [] [])
          [] 6 8 None [].

Definition ask (cid : option uuid) : ChatRequest.t :=
  ChatRequest.mk "rocq" cid true.

Definition fifty : string :=
  "0123456789012345678901234567890123456789012345678 ".

Definition long_question (ending : string) : ChatRequest.t :=
  ChatRequest.mk (fifty ++ ending) None true.

Definition summarised_request : KnowledgeItemCreate.t :=
  KnowledgeItemCreate.mk "note" (Some "my own summary") (Some "some text")
                         "text" (Some ["a"]) None.

Definition empty_request : KnowledgeItemCreate.t :=
  KnowledgeItemCreate.mk "note" None (Some "") "text" (Some ["a"]) None.

End Demo.

(** * Properties *)

(** ** The Python primitives on examples *)

Example split_title :
  Py.split "Title:" ("x Title: A" ++ Py.nl ++ "Title: B")
  = ["x "; (" A" ++ Py.nl)%string; " B"].
Proof. reflexivity. Qed.

Example split_trailing : Py.split "," "a,,b," = ["a"; ""; "b"; ""].
Proof. reflexivity. Qed.

Example strip_both : Py.strip ("  a b " ++ Py.nl) = "a b".
Proof. reflexivity. Qed.

Example contains_label : Py.contains "Tags:" "1) Tags: x" = true.
Proof. reflexivity. Qed.

Example parse_full_response :
  parse_processing_response "f.txt"
    ("Title: Notes" ++ Py.nl ++ "Summary:  short " ++ Py.nl
     ++ "Tags: x, y,,x " ++ Py.nl)
  = ("Notes", "short", ["x"; "y"; "x"]).
Proof. reflexivity. Qed.

Example parse_blank_title :
  parse_processing_response "f.txt" ("Title:  " ++ Py.nl ++ "done")
  = ("f.txt", "File processed by AI agent", ["uploaded"]).
Proof. reflexivity. Qed.

(** ** Running the monad *)

Lemma bind_run {A B} (m : M A) (k : A -> M B) (w : World) :
  bind m k w = k (fst (m w)) (snd (m w)).
Proof. unfold bind. destruct (m w); reflexivity. Qed.

Lemma try_bind_run {A B} (m : M (exn + A)) (k : A -> M (exn + B))
  (w : World) :
  try_bind m k w
  = match fst (m w) with
    | inl e => (inl e, snd (m w))
    | inr a => k a (snd (m w))
    end.
Proof.
  unfold try_bind. rewrite bind_run. destruct (fst (m w)); reflexivity.
Qed.

(** ** What [get_agents] leaves untouched *)

Lemma get_agents_frame env w :
  let w' := snd (get_agents env w) in
  db w' = db w /\ files w' = files w /\ uuid_supply w' = uuid_supply w
  /\ clock w' = clock w /\ trace w' = trace w.
Proof.
  unfold get_agents, get_global_agents, bind, set_agents, ret; simpl.
  destruct (agents w); simpl; auto.
  destruct (Py.nonempty _); simpl; auto.
  destruct (KnowledgeVaultAgents_init env); simpl; auto.
Qed.

(** [get_agents] answers [None] exactly when the capability is absent:
    no agents built yet and either no key or a failing framework. *)
Lemma get_agents_no_key env w :
  agents w = None ->
  openai_api_key (settings env) = "" ->
  get_agents env w = (None, w).
Proof.
  intros Hg Hk.
  unfold get_agents, get_global_agents, bind, ret. rewrite Hg, Hk.
  reflexivity.
Qed.

(** ** Enrichment never writes to the store *)

Lemma analyse_upload_frame env file fc w :
  let w' := snd (analyse_upload env file fc w) in
  db w' = db w /\ files w' = files w /\ uuid_supply w' = uuid_supply w
  /\ clock w' = clock w.
Proof.
  unfold analyse_upload. rewrite bind_run.
  destruct (get_agents_frame env w) as (A & B & C & D & _).
  destruct (fst (get_agents env w)) as [a|]; simpl; auto.
  unfold bind, log; simpl.
  destruct (document_processor a _); simpl; auto.
Qed.

Lemma backfill_summary_frame env item_data w :
  let w' := snd (backfill_summary env item_data w) in
  db w' = db w /\ files w' = files w /\ uuid_supply w' = uuid_supply w
  /\ clock w' = clock w.
Proof.
  unfold backfill_summary.
  destruct (Py.truthy (KnowledgeItemCreate.content item_data)); simpl; auto.
  rewrite bind_run.
  destruct (get_agents_frame env w) as (A & B & C & D & _).
  destruct (fst (get_agents env w)) as [a|]; simpl; auto.
  unfold bind, log; simpl.
  destruct (document_processor a _) as [resp|]; simpl; auto.
  destruct (Py.contains _ resp); simpl; auto.
  destruct (negb _); simpl; auto.
Qed.


(** ** Lists *)

Lemma find_all_false {A} (f : A -> bool) (l : list A) :
  (forall x, In x l -> f x = false) -> find f l = None.
Proof.
  induction l as [|a l IH]; simpl; intros H; [reflexivity|].
  rewrite (H a (or_introl eq_refl)). apply IH. intros x Hx.
  apply H. right; exact Hx.
Qed.

(** ** Not found and not yours look the same (C8) *)

(** C8: when no knowledge item has the requested id, or the items that
    have it belong to somebody else, [get_knowledge_item] raises the
    same [HTTPException(404, "Knowledge item not found")] in both cases
    (never a 403), and leaves behind the same single query. *)
Theorem foreign_item_reported_as_missing (env : Env) (w : World)
  (current_user : User.t) (item_id : uuid) :
  (forall it, In it (knowledge_items (db w)) ->
              KnowledgeItem.id it <> item_id)
  \/ (forall it, In it (knowledge_items (db w)) ->
                 KnowledgeItem.id it = item_id ->
                 KnowledgeItem.user_id it <> User.id current_user) ->
  get_knowledge_item env item_id current_user w
  = (inl (HTTPException 404 "Knowledge item not found"),
     snd (log (EvQuery TKnowledgeItems) w)).
Proof.
  intros H. unfold get_knowledge_item.
  rewrite bind_run. cbn [fst snd]. rewrite bind_run. cbn [fst snd].
  unfold get_store at 1. cbn [fst].
  replace (item_by_id _ item_id (User.id current_user)) with
    (@None KnowledgeItem.t); [reflexivity|].
  symmetry. unfold item_by_id, log; cbn [snd db].
  apply find_all_false. intros it Hin.
  destruct (Nat.eqb_spec (KnowledgeItem.id it) item_id) as [Heq|Hne];
    [|reflexivity].
  destruct (Nat.eqb_spec (KnowledgeItem.user_id it) (User.id current_user))
    as [Hu|Hu]; [|reflexivity].
  exfalso. destruct H as [H|H].
  - exact (H it Hin Heq).
  - exact (H it Hin Heq Hu).
Qed.

Lemma foreign_item_reported_as_missing_witness :
  get_knowledge_item Sample.env_answering 5 Sample.alice Sample.small_world
  = (inl (HTTPException 404 "Knowledge item not found"),
     snd (log (EvQuery TKnowledgeItems) Sample.small_world)).
Proof.
  apply (foreign_item_reported_as_missing Sample.env_answering
           Sample.small_world Sample.alice 5).
  right. simpl. intros it [H|[H|[H|[]]]] Hid; subst it; simpl in *;
    discriminate.
Defined.

(** ** Starting without the credential (C5) *)

Lemma boot_ignores_the_key (env : Env) st disk drawn t :
  boot env st disk drawn t = inr (mkWorld st disk drawn t None []).
Proof. reflexivity. Qed.

(** C5, as stated, fails: with an empty [openai_api_key] the backend
    module still imports, and [/health] answers. *)
Lemma missing_key_does_not_stop_boot :
  ~ (forall env st disk drawn t,
        openai_api_key (settings env) = "" ->
        exists e, boot env st disk drawn t = inl e).
Proof.
  intros H.
  destruct (H Sample.env_without_key empty_store [] 0 0 eq_refl) as [e He].
  discriminate He.
Qed.

(** C5, amended: without the credential the backend starts with the agent
    global unset; [get_agents] then answers [None] and changes nothing,
    [/health] reports [agents_available = false], generation falls back
    to the apology, and only the constructor [KnowledgeVaultAgents()]
    raises [ValueError].  The stand-alone agent services do refuse to
    be imported when their key is unset or empty. *)
Theorem missing_key_degrades_backend (env : Env) st disk drawn t :
  openai_api_key (settings env) = "" ->
  (exists w,
      boot env st disk drawn t = inr w
      /\ get_agents env w = (None, w)
      /\ health_check env w
         = (Health.mk "healthy" "2.0.0" false "connected", w)
      /\ (forall prompt, generate env prompt w = (apology, w)))
  /\ KnowledgeVaultAgents_init env
     = inl (ValueError "OPENAI_API_KEY is required for agent system")
  /\ (forall key url,
        Py.truthy key = false ->
        agent_service_import key
        = inl (ValueError "OPENAI_API_KEY environment variable is required")
        /\ main_service_import key url
           = inl (ValueError
                    "OPENAI_API_KEY environment variable is required")).
Proof.
  intros Hk. split; [|split].
  - eexists. split; [reflexivity|].
    assert (G : forall w, agents w = None -> get_agents env w = (None, w))
      by (intros; apply get_agents_no_key; assumption).
    split; [apply G; reflexivity|]. split.
    + unfold health_check. rewrite bind_run, G by reflexivity. reflexivity.
    + intros prompt. unfold generate. rewrite bind_run, G by reflexivity.
      reflexivity.
  - unfold KnowledgeVaultAgents_init. rewrite Hk. reflexivity.
  - intros key url Hkey. unfold agent_service_import, main_service_import.
    rewrite Hkey. split; reflexivity.
Qed.

Lemma missing_key_degrades_backend_witness :
  exists w,
    boot Sample.env_without_key empty_store [] 0 0 = inr w
    /\ health_check Sample.env_without_key w
       = (Health.mk "healthy" "2.0.0" false "connected", w).
Proof.
  destruct (missing_key_degrades_backend Sample.env_without_key
              empty_store [] 0 0 eq_refl) as [[w (Hb & _ & Hh & _)] _].
  exists w. split; assumption.
Defined.

(** ** Overlapping get-or-create (C4) *)

(** When the requests do not overlap the second one finds the tag of
    the first: one row, shared by both items. *)
Lemma serial_requests_share_the_tag :
  let r := Race.run Sample.serial Sample.first_session Sample.second_session
                    Sample.small_world in
  List.length (Race.rows_of (db (snd r)) 1 "a") = 1
  /\ Race.tags_of_item (db (snd r)) 3 = [6]
  /\ Race.tags_of_item (db (snd r)) 4 = [6].
Proof. vm_compute. repeat split. Qed.

(** C4 fails on the code: two sessions of the same user attaching the
    same new name, with both lookups before either insert, both run to
    the end, leave two Tag rows for that (user, name), and the two items
    are associated with different rows. *)
Theorem overlapping_requests_duplicate_the_tag :
  let r := Race.run Sample.interleaved Sample.first_session
                    Sample.second_session Sample.small_world in
  Race.at_pc (fst (fst r)) = Race.Done
  /\ Race.at_pc (snd (fst r)) = Race.Done
  /\ map Tag.id (Race.rows_of (db (snd r)) 1 "a") = [6; 7]
  /\ Race.tags_of_item (db (snd r)) 3 = [6]
  /\ Race.tags_of_item (db (snd r)) 4 = [7].
Proof. vm_compute. repeat split. Qed.

(** ** The steps of [chat] *)

Ltac unmonad :=
  unfold bind, log, get_store, uuid4, now, commit, put_store, ret,
    add_chat_message, add_conversation, set_agents, get_global_agents.

Lemma forallb_weaken {A} (p q : A -> bool) (l : list A) :
  (forall x, p x = true -> q x = true) ->
  forallb p l = true -> forallb q l = true.
Proof.
  intros Hpq. rewrite !forallb_forall. intros H x Hx. auto.
Qed.

Lemma resolve_conversation_effect env req u w :
  let w1 := snd (resolve_conversation env req u w) in
  exists pre,
    trace w1 = trace w ++ pre
    /\ forallb quiet pre = true
    /\ chat_messages (db w1) = chat_messages (db w)
    /\ knowledge_items (db w1) = knowledge_items (db w)
    /\ clock w <= clock w1.
Proof.
  unfold resolve_conversation. unmonad.
  destruct (ChatRequest.conversation_id req) as [cid|]; simpl.
  - destruct (conversation_by_id (db w) cid (User.id u)); simpl.
    + exists [EvQuery TConversations]. repeat split; auto.
    + eexists. rewrite <- !app_assoc. split; [reflexivity|].
      repeat split; auto.
  - eexists. rewrite <- !app_assoc. split; [reflexivity|].
    repeat split; auto.
Qed.

Lemma retrieve_off env req u w :
  ChatRequest.use_knowledge_base req = false ->
  retrieve env req u w = (([], ""), w).
Proof. intros H. unfold retrieve. rewrite H. reflexivity. Qed.

Lemma retrieve_on env req u w :
  ChatRequest.use_knowledge_base req = true ->
  retrieve env req u w
  = (let items := matching_items env (db w) (User.id u)
                                 (ChatRequest.message req) in
     (map source_of items, context_of items),
     snd (log (EvQuery TKnowledgeItems) w)).
Proof. intros H. unfold retrieve. rewrite H. reflexivity. Qed.

Lemma retrieve_effect env req u w :
  let w' := snd (retrieve env req u w) in
  db w' = db w /\ clock w' = clock w /\ uuid_supply w' = uuid_supply w
  /\ trace w' = trace w ++ (if ChatRequest.use_knowledge_base req
                            then [EvQuery TKnowledgeItems] else []).
Proof.
  destruct (ChatRequest.use_knowledge_base req) eqn:E.
  - rewrite retrieve_on by assumption. simpl. repeat split; auto.
  - rewrite retrieve_off by assumption. simpl. repeat split; auto.
    rewrite app_nil_r. reflexivity.
Qed.

Lemma generate_effect env prompt w :
  let w' := snd (generate env prompt w) in
  db w' = db w /\ clock w' = clock w /\ uuid_supply w' = uuid_supply w
  /\ exists evs, trace w' = trace w ++ evs /\ forallb is_run evs = true.
Proof.
  unfold generate. rewrite bind_run.
  destruct (get_agents_frame env w) as (A & _ & C & D & E).
  destruct (fst (get_agents env w)) as [a|]; cbn [fst snd ret].
  - unmonad. simpl. destruct (conversation_agent a prompt); simpl;
      (repeat split; auto; exists [EvRun "ConversationAgent" prompt];
       rewrite E; auto).
  - repeat split; auto. exists []. rewrite app_nil_r. auto.
Qed.

(** The shape of every run of [chat]: two messages appended, and a trace
    made of the conversation lookup [pre], the commit of the user turn,
    the item query when the knowledge base is used, the agent call
    [calls] when one is made, and the commit of the assistant turn. *)
Lemma chat_shape (env : Env) (w : World) (u : User.t) (req : ChatRequest.t) :
  let r := fst (chat env req u w) in
  let w' := snd (chat env req u w) in
  exists um am pre calls,
    chat_messages (db w') = chat_messages (db w) ++ [um; am]
    /\ ChatMessage.role um = "user"
    /\ ChatMessage.content um = ChatRequest.message req
    /\ ChatMessage.role am = "assistant"
    /\ ChatMessage.content am = ChatResponse.message r
    /\ ChatMessage.conversation_id um = ChatResponse.conversation_id r
    /\ ChatMessage.conversation_id am = ChatResponse.conversation_id r
    /\ ChatMessage.created_at um < ChatMessage.created_at am
    /\ trace w' = trace w ++ pre
                  ++ [EvCommit TChatMessages (ChatMessage.id um)]
                  ++ ((if ChatRequest.use_knowledge_base req
                       then [EvQuery TKnowledgeItems] else []) ++ calls)
                  ++ [EvCommit TChatMessages (ChatMessage.id am)]
    /\ forallb quiet pre = true
    /\ forallb is_run calls = true.
Proof.
  cbv zeta. unfold chat.
  rewrite bind_run.
  destruct (resolve_conversation_effect env req u w)
    as (pre & Ht1 & Hpre & Hm1 & _ & Hc1).
  destruct (resolve_conversation env req u w) as [cid w1].
  cbn [fst snd] in *.
  do 6 (rewrite bind_run; cbn [fst snd]).
  match goal with
  | |- context [retrieve env req u ?w2] =>
      destruct (retrieve_effect env req u w2) as (Hd2 & Hc2 & Hs2 & Ht2);
      destruct (retrieve env req u w2) as [[srcs ctx] w3]
  end.
  cbn [fst snd] in *.
  rewrite bind_run.
  match goal with
  | |- context [generate env ?p w3] =>
      destruct (generate_effect env p w3)
        as (Hd3 & Hc3 & Hs3 & evg & Ht3 & Hg);
      destruct (generate env p w3) as [text w4]
  end.
  cbn [fst snd] in *.
  unmonad. simpl in *.
  do 2 eexists. exists pre, evg.
  rewrite Hd3, Hd2, Ht3, Ht2, Hc3, Hc2, Ht1, Hm1. simpl.
  rewrite <- !app_assoc. simpl.
  split; [reflexivity|]. simpl.
  repeat (split; [first [reflexivity | lia]|]).
  split; assumption.
Qed.

(** ** The user turn comes first (C2) *)

(** C2: [chat] appends exactly two messages to the conversation it
    answers in, the user turn and then the assistant turn, with
    [created_at] of the first strictly below that of the second.  In the
    trace of the request the commit of the user turn comes after a
    prefix [pre] that holds no agent call and no message commit, and
    before everything else, the agent call (if one is made) and the
    commit of the assistant turn included.  Nothing is assumed about
    the agents: they may answer, raise or be unavailable. *)
Theorem user_turn_precedes_assistant_turn (env : Env) (w : World)
  (u : User.t) (req : ChatRequest.t) :
  let r := fst (chat env req u w) in
  let w' := snd (chat env req u w) in
  exists um am pre mid,
    chat_messages (db w') = chat_messages (db w) ++ [um; am]
    /\ ChatMessage.role um = "user"
    /\ ChatMessage.content um = ChatRequest.message req
    /\ ChatMessage.role am = "assistant"
    /\ ChatMessage.content am = ChatResponse.message r
    /\ ChatMessage.conversation_id um = ChatResponse.conversation_id r
    /\ ChatMessage.conversation_id am = ChatResponse.conversation_id r
    /\ ChatMessage.created_at um < ChatMessage.created_at am
    /\ trace w' = trace w ++ pre
                  ++ [EvCommit TChatMessages (ChatMessage.id um)]
                  ++ mid
                  ++ [EvCommit TChatMessages (ChatMessage.id am)]
    /\ forallb (fun e => negb (is_run e) && negb (is_message_commit e)) pre
       = true
    /\ forallb (fun e => negb (is_message_commit e)) mid = true.
Proof.
  cbv zeta.
  destruct (chat_shape env w u req)
    as (um & am & pre & calls & H1 & H2 & H3 & H4 & H5 & H6 & H7 & H8 & H9
        & Hpre & Hcalls).
  exists um, am, pre,
    ((if ChatRequest.use_knowledge_base req
      then [EvQuery TKnowledgeItems] else []) ++ calls).
  repeat (split; [assumption|]). split.
  - revert Hpre. apply forallb_weaken. intros e. unfold quiet.
    rewrite !andb_true_iff. tauto.
  - rewrite forallb_app. apply andb_true_iff. split.
    + destruct (ChatRequest.use_knowledge_base req); reflexivity.
    + revert Hcalls. apply forallb_weaken.
      intros e. destruct e as [| [] | | | |]; simpl; congruence.
Qed.

(** ** What [chat] returns as sources *)

Lemma matching_items_ext env s1 s2 uid message :
  knowledge_items s1 = knowledge_items s2 ->
  matching_items env s1 uid message = matching_items env s2 uid message.
Proof. intros H. unfold matching_items. rewrite H. reflexivity. Qed.

Lemma chat_sources env req u w :
  ChatResponse.sources (fst (chat env req u w))
  = if ChatRequest.use_knowledge_base req
    then map source_of
             (matching_items env (db w) (User.id u)
                             (ChatRequest.message req))
    else [].
Proof.
  unfold chat. rewrite bind_run.
  destruct (resolve_conversation_effect env req u w)
    as (pre & _ & _ & _ & Hk1 & _).
  destruct (resolve_conversation env req u w) as [cid w1].
  cbn [fst snd] in *.
  do 6 (rewrite bind_run; cbn [fst snd]).
  destruct (ChatRequest.use_knowledge_base req) eqn:E.
  - rewrite retrieve_on by assumption. cbv zeta. cbn [fst snd].
    repeat (rewrite bind_run; cbn [fst snd]).
    cbn [ret fst ChatResponse.sources]. f_equal.
    apply matching_items_ext. unmonad. simpl. exact Hk1.
  - rewrite retrieve_off by assumption. cbn [fst snd].
    repeat (rewrite bind_run; cbn [fst snd]).
    reflexivity.
Qed.

Lemma firstn_subset {A} (n : nat) (l : list A) (x : A) :
  In x (firstn n l) -> In x l.
Proof.
  intros H. rewrite <- (firstn_skipn n l). apply in_or_app. left. exact H.
Qed.

Lemma matching_items_sound env s uid message it :
  In it (matching_items env s uid message) ->
  In it (knowledge_items s) /\ KnowledgeItem.user_id it = uid.
Proof.
  unfold matching_items. intros H.
  apply firstn_subset in H. apply filter_In in H. destruct H as [Hin Hf].
  apply andb_true_iff in Hf. destruct Hf as [Hu _].
  apply Nat.eqb_eq in Hu. auto.
Qed.

(** ** Sources of a grounded answer (C6) *)

(** C6: a chat request with [use_knowledge_base = true] returns at most
    five sources, and each of them is the (id, title, summary, type) of
    a knowledge item of the store whose owner is the requesting user. *)
Theorem sources_are_own_items_at_most_five (env : Env) (w : World)
  (u : User.t) (req : ChatRequest.t) :
  ChatRequest.use_knowledge_base req = true ->
  let r := fst (chat env req u w) in
  List.length (ChatResponse.sources r) <= 5
  /\ forall s, In s (ChatResponse.sources r) ->
       exists it, In it (knowledge_items (db w))
                  /\ KnowledgeItem.user_id it = User.id u
                  /\ s = source_of it
                  /\ Source.id s = KnowledgeItem.id it.
Proof.
  intros Hkb. cbv zeta. rewrite chat_sources, Hkb. split.
  - rewrite length_map. unfold matching_items. apply firstn_le_length.
  - intros s Hs. apply in_map_iff in Hs. destruct Hs as (it & <- & Hit).
    apply matching_items_sound in Hit. destruct Hit as [Hin Hu].
    exists it. repeat split; assumption.
Qed.

(** ** Chat without the knowledge base (C7) *)

Ltac answer_cases env w :=
  destruct (agents w) as [?a|]; simpl;
  [ destruct (conversation_agent _ _); reflexivity
  | destruct (Py.nonempty _); simpl; [|reflexivity];
    destruct (KnowledgeVaultAgents_init env) as [?e|?a]; simpl;
    [reflexivity|];
    destruct (conversation_agent _ _); reflexivity ].

(** With the knowledge base switched off, [chat] run on a world that
    holds other knowledge items gives the same response and the same
    final world, up to those items. *)
Lemma chat_ignores_items env req u w items :
  ChatRequest.use_knowledge_base req = false ->
  chat env req u (with_items items w)
  = (fst (chat env req u w), with_items items (snd (chat env req u w))).
Proof.
  intros Hkb.
  unfold chat, resolve_conversation, retrieve, generate, get_agents.
  rewrite Hkb. unmonad. unfold with_items. simpl.
  destruct (ChatRequest.conversation_id req) as [cid|]; simpl.
  - unfold conversation_by_id; simpl.
    destruct (find _ (conversations (db w))) as [c|]; simpl;
      answer_cases env w.
  - answer_cases env w.
Qed.

(** C7: a chat request with [use_knowledge_base = false] performs no
    query over the knowledge items, returns an empty [sources] list, and
    is blind to the stored items: the same request on a world that
    differs only in its knowledge items gives the same response
    (assistant text, conversation id, sources) and the same trace, so
    the same prompt reached the agent. *)
Theorem chat_without_knowledge_base (env : Env) (w : World) (u : User.t)
  (req : ChatRequest.t) :
  ChatRequest.use_knowledge_base req = false ->
  let r := fst (chat env req u w) in
  let w' := snd (chat env req u w) in
  (exists evs, trace w' = trace w ++ evs
               /\ forallb (fun e => negb (is_item_query e)) evs = true)
  /\ ChatResponse.sources r = []
  /\ forall items,
      fst (chat env req u (with_items items w)) = r
      /\ trace (snd (chat env req u (with_items items w))) = trace w'
      /\ snd (chat env req u (with_items items w)) = with_items items w'.
Proof.
  intros Hkb. cbv zeta. split; [|split].
  - destruct (chat_shape env w u req)
      as (um & am & pre & calls & _ & _ & _ & _ & _ & _ & _ & _ & Ht
          & Hpre & Hcalls).
    rewrite Hkb in Ht. eexists. split; [exact Ht|].
    rewrite !forallb_app. simpl.
    rewrite !andb_true_iff. repeat split.
    + revert Hpre. apply forallb_weaken. intros e. unfold quiet.
      rewrite !andb_true_iff. tauto.
    + revert Hcalls. apply forallb_weaken.
      intros e. destruct e as [[]| | | | |]; simpl; congruence.
  - rewrite chat_sources, Hkb. reflexivity.
  - intros items. rewrite chat_ignores_items by assumption.
    repeat split; reflexivity.
Qed.

(** ** The collection of an item *)

Lemma existsb_eqb_In (x : nat) (l : list nat) :
  existsb (Nat.eqb x) l = true <-> In x l.
Proof.
  rewrite existsb_exists. split.
  - intros (y & Hy & E). apply Nat.eqb_eq in E. subst. exact Hy.
  - intros H. exists x. split; [exact H|apply Nat.eqb_refl].
Qed.

Lemma unique_tags_In seen l t :
  In t (unique_tags seen l) -> In t l /\ ~ In (Tag.id t) seen.
Proof.
  revert seen. induction l as [|a l IH]; simpl; intros seen H; [contradiction|].
  destruct (existsb (Nat.eqb (Tag.id a)) seen) eqn:E.
  - destruct (IH _ H). auto.
  - destruct H as [<-|H].
    + split; [auto|]. rewrite <- existsb_eqb_In, E. discriminate.
    + destruct (IH _ H) as [Hin Hs]. split; [auto|].
      intros Hc. apply Hs. right. exact Hc.
Qed.

Lemma unique_tags_complete seen l t :
  In t l -> ~ In (Tag.id t) seen ->
  exists t', In t' (unique_tags seen l) /\ Tag.id t' = Tag.id t.
Proof.
  revert seen. induction l as [|a l IH]; simpl; intros seen H Hs;
    [contradiction|].
  destruct (existsb (Nat.eqb (Tag.id a)) seen) eqn:E.
  - destruct H as [->|H].
    + apply existsb_eqb_In in E. contradiction.
    + apply IH; assumption.
  - destruct H as [->|H].
    + exists t. split; [left; reflexivity|reflexivity].
    + destruct (Nat.eq_dec (Tag.id a) (Tag.id t)) as [Eq|Ne].
      * exists a. split; [left; reflexivity|exact Eq].
      * destruct (IH (Tag.id a :: seen) H) as (t' & Ht' & Hid).
        { intros [Hc|Hc]; [contradiction|contradiction]. }
        exists t'. split; [right; exact Ht'|exact Hid].
Qed.

Lemma unique_tags_NoDup seen l : NoDup (map Tag.id (unique_tags seen l)).
Proof.
  revert seen. induction l as [|a l IH]; simpl; intros seen; [constructor|].
  destruct (existsb (Nat.eqb (Tag.id a)) seen) eqn:E; [apply IH|].
  simpl. constructor; [|apply IH].
  intros H. apply in_map_iff in H. destruct H as (t & Hid & Ht).
  apply unique_tags_In in Ht. destruct Ht as [_ Hs].
  apply Hs. left. symmetry. exact Hid.
Qed.

Lemma NoDup_map_eq {A} (f : A -> nat) (l : list A) (a b : A) :
  NoDup (map f l) -> In a l -> In b l -> f a = f b -> a = b.
Proof.
  induction l as [|x l IH]; simpl; intros Hnd Ha Hb E; [contradiction|].
  inversion Hnd as [|? ? Hnotin Hnd']; subst.
  destruct Ha as [->|Ha], Hb as [->|Hb]; auto.
  - exfalso. apply Hnotin. rewrite E. apply in_map. exact Hb.
  - exfalso. apply Hnotin. rewrite <- E. apply in_map. exact Ha.
Qed.

Lemma join_tags_In tgs rows i t :
  In t (join_tags tgs rows i) <-> In t tgs /\ In (i, Tag.id t) rows.
Proof.
  unfold join_tags. rewrite in_flat_map. split.
  - intros (row & Hrow & H).
    destruct (Nat.eqb_spec (fst row) i) as [E|E]; [|destruct H].
    apply filter_In in H. destruct H as [Hin Hid]. apply Nat.eqb_eq in Hid.
    split; [exact Hin|]. destruct row as [a b]. simpl in *. subst. exact Hrow.
  - intros [Hin Hrow]. exists (i, Tag.id t). split; [exact Hrow|].
    simpl. rewrite Nat.eqb_refl. apply filter_In. split; [exact Hin|].
    apply Nat.eqb_refl.
Qed.

Lemma tags_of_item_In s i x :
  In x (Race.tags_of_item s i) <-> In (i, x) (knowledge_item_tags s).
Proof.
  unfold Race.tags_of_item. rewrite in_map_iff. split.
  - intros ([a b] & E & H). apply filter_In in H. destruct H as [H Hi].
    apply Nat.eqb_eq in Hi. simpl in *. subst. exact H.
  - intros H. exists (i, x). split; [reflexivity|].
    apply filter_In. split; [exact H|apply Nat.eqb_refl].
Qed.

Lemma item_tags_In s i t :
  NoDup (map Tag.id (tags s)) ->
  (In t (item_tags s i)
   <-> In t (tags s) /\ In (Tag.id t) (Race.tags_of_item s i)).
Proof.
  intros Hnd. unfold item_tags. rewrite tags_of_item_In. split.
  - intros H. apply unique_tags_In in H. destruct H as [H _].
    apply join_tags_In. exact H.
  - intros H. apply join_tags_In in H.
    destruct (unique_tags_complete [] _ t H) as (t' & Ht' & Hid);
      [intros []|].
    replace t with t'; [exact Ht'|].
    apply unique_tags_In in Ht'. destruct Ht' as [Ht' _].
    apply join_tags_In in Ht'. apply join_tags_In in H.
    apply (NoDup_map_eq Tag.id (tags s)); tauto.
Qed.

Lemma item_tags_ids s i x :
  In x (map Tag.id (item_tags s i)) -> In x (Race.tags_of_item s i).
Proof.
  intros H. apply in_map_iff in H. destruct H as (t & <- & Ht).
  unfold item_tags in Ht. apply unique_tags_In in Ht. destruct Ht as [Ht _].
  apply join_tags_In in Ht. apply tags_of_item_In. apply Ht.
Qed.

Lemma item_tags_NoDup s i : NoDup (map Tag.id (item_tags s i)).
Proof. apply unique_tags_NoDup. Qed.

Lemma pending_rows_item i c row :
  In row (pending_rows i c) -> fst row = i /\ In (snd row) (appended_of c).
Proof.
  destruct c as [|o a]; simpl; [intros []|].
  intros H. apply in_map_iff in H. destruct H as (x & <- & Hx).
  apply filter_In in Hx. simpl. tauto.
Qed.

Lemma pending_rows_In i c x :
  In (i, x) (pending_rows i c)
  <-> match c with
      | Expired => False
      | Loaded o a => In x a /\ ~ In x o
      end.
Proof.
  destruct c as [|o a]; simpl; [tauto|].
  rewrite in_map_iff. split.
  - intros (y & E & Hy). injection E as <-. apply filter_In in Hy.
    destruct Hy as [Hy Hn]. split; [exact Hy|].
    rewrite <- existsb_eqb_In. destruct (existsb _ o); [discriminate|].
    discriminate.
  - intros [Hy Hn]. exists x. split; [reflexivity|].
    apply filter_In. split; [exact Hy|].
    destruct (existsb (Nat.eqb x) o) eqn:E; [|reflexivity].
    apply existsb_eqb_In in E. contradiction.
Qed.

(** ** One pass of the tag loop, table by table *)

Lemma get_or_create_tag_tables env uid i n c w :
  let r := fst (get_or_create_tag env uid i n c w) in
  let w' := snd (get_or_create_tag env uid i n c w) in
  knowledge_items (db w') = knowledge_items (db w)
  /\ users (db w') = users (db w)
  /\ conversations (db w') = conversations (db w)
  /\ chat_messages (db w') = chat_messages (db w)
  /\ agents w' = agents w
  /\ files w' = files w
  /\ match tag_by_name (db w) n uid with
     | Some t =>
         r = inr (append (db w) i c (Tag.id t))
         /\ db w' = db w
         /\ uuid_supply w' = uuid_supply w
     | None =>
         uuid_supply w' = S (uuid_supply w)
         /\ match varchar env 100 n with
            | None => r = inl (DataError n) /\ db w' = db w
            | Some k =>
                tags (db w') = tags (db w) ++ [new_tag uid k w]
                /\ knowledge_item_tags (db w')
                   = knowledge_item_tags (db w) ++ pending_rows i c
                /\ r = inr (Loaded (map Tag.id (item_tags (db w') i))
                                   [uuid_supply w])
            end
     end.
Proof.
  cbv zeta. unfold get_or_create_tag, raise, flush, add_tag. unmonad. simpl.
  destruct (tag_by_name (db w) n uid) as [t|]; simpl.
  - repeat split; reflexivity.
  - destruct (varchar env 100 n) as [k|]; simpl; repeat split; reflexivity.
Qed.

Lemma NoDup_snoc_fresh (l : list nat) (n : nat) :
  NoDup l -> (forall x, In x l -> x < n) -> NoDup (l ++ [n]).
Proof.
  induction l as [|a l IH]; simpl; intros Hnd H.
  - constructor; [intros []|constructor].
  - inversion Hnd as [|? ? Hnotin Hnd']; subst. constructor.
    + intros Hin. apply in_app_or in Hin. destruct Hin as [Hin|[<-|[]]].
      * contradiction.
      * specialize (H n (or_introl eq_refl)). lia.
    + apply IH; auto.
Qed.

Lemma tags_of_item_app s rows' i :
  map snd (filter (fun row => Nat.eqb (fst row) i)
                  (knowledge_item_tags s ++ rows'))
  = Race.tags_of_item s i
    ++ map snd (filter (fun row => Nat.eqb (fst row) i) rows').
Proof. unfold Race.tags_of_item. rewrite filter_app, map_app. reflexivity. Qed.

Lemma wf_supply w w' :
  wf w -> db w' = db w -> uuid_supply w <= uuid_supply w' -> wf w'.
Proof.
  intros (A & B & C & D) Hdb Hs. unfold wf. rewrite Hdb.
  split; [exact A|split; [|split]].
  - intros t Ht. specialize (B t Ht). lia.
  - intros it Hit. specialize (C it Hit). lia.
  - intros row Hr. destruct (D row Hr). lia.
Qed.

(** One pass keeps the invariant and adds the tag it chose. *)
Lemma get_or_create_tag_step env uid i n c w chosen :
  attached w i c chosen ->
  let w' := snd (get_or_create_tag env uid i n c w) in
  match fst (get_or_create_tag env uid i n c w) with
  | inr c' =>
      exists t, attached w' i c' (chosen ++ [t]) /\ chosen_for env uid n t
  | inl e => wf w' /\ varchar env 100 n = None /\ e = DataError n
  end.
Proof.
  intros (Hwf & Hi & Hc & Hch & Hset). cbv zeta.
  destruct (get_or_create_tag_tables env uid i n c w)
    as (Hk & _ & _ & _ & _ & _ & H).
  cbv zeta in H. unfold tag_by_name in H.
  destruct (find _ (tags (db w))) as [t|] eqn:Hf.
  - (* the tag exists: the collection grows, the store does not *)
    destruct H as (-> & Hdb & Hs).
    apply find_some in Hf. destruct Hf as [Hin Hf].
    apply andb_true_iff in Hf. destruct Hf as [Hn Hu].
    apply String.eqb_eq in Hn. apply Nat.eqb_eq in Hu.
    exists t. split; [|split; [exact Hu|left; exact Hn]].
    unfold attached. rewrite Hdb, Hs.
    split; [apply (wf_supply w); auto; lia|]. split; [exact Hi|].
    split; [|split].
    + intros o a E. destruct c as [|o0 a0]; simpl in E; injection E as <- _.
      * reflexivity.
      * apply (Hc o0 a0 eq_refl).
    + intros x Hx. apply in_app_or in Hx. destruct Hx as [Hx|[<-|[]]]; auto.
    + intros x. rewrite map_app. simpl.
      assert (E : appended_of (append (db w) i c (Tag.id t))
                  = appended_of c ++ [Tag.id t])
        by (destruct c; reflexivity).
      rewrite E, app_assoc, in_app_iff, Hset, in_app_iff. reflexivity.
  - destruct H as (Hs & H).
    destruct (varchar env 100 n) as [k|] eqn:Hv.
    + (* a new tag row takes the next key; what was pending is written *)
      destruct H as (Ht & Hr & ->).
      destruct Hwf as (Hnd & Hts & His & Hrs).
      assert (Hpend : forall x, In x (appended_of c) -> x < uuid_supply w).
      { intros x Hx.
        assert (Hin : In x (map Tag.id chosen))
          by (apply Hset, in_or_app; right; exact Hx).
        apply in_map_iff in Hin. destruct Hin as (t & <- & Ht').
        apply Hts, Hch, Ht'. }
      exists (new_tag uid k w).
      split; [|split; [reflexivity|right; exact Hv]].
      unfold attached, wf. rewrite Ht, Hr, Hk, Hs.
      split; [split; [|split; [|split]]|split; [lia|split; [|split]]].
      * rewrite map_app. simpl. apply NoDup_snoc_fresh; [exact Hnd|].
        intros x Hx. apply in_map_iff in Hx. destruct Hx as (t & <- & Hx).
        auto.
      * intros t Hx. apply in_app_or in Hx. destruct Hx as [Hx|[<-|[]]].
        -- specialize (Hts t Hx). lia.
        -- simpl. lia.
      * intros it Hit. specialize (His it Hit). lia.
      * intros row Hx. apply in_app_or in Hx. destruct Hx as [Hx|Hx].
        -- destruct (Hrs row Hx). lia.
        -- apply pending_rows_item in Hx. destruct Hx as [-> Hx].
           specialize (Hpend _ Hx). lia.
      * intros o a E. injection E as <- _. reflexivity.
      * intros t Hx. apply in_or_app.
        apply in_app_or in Hx. destruct Hx as [Hx|[<-|[]]]; auto.
        right. left. reflexivity.
      * intros x. cbn [appended_of]. rewrite map_app. simpl.
        unfold Race.tags_of_item at 1. rewrite Hr.
        rewrite tags_of_item_app, !in_app_iff, <- Hset, in_app_iff.
        assert (E : In x (map snd (filter (fun row => Nat.eqb (fst row) i)
                                          (pending_rows i c)))
                    <-> In (i, x) (pending_rows i c)).
        { rewrite in_map_iff. split.
          - intros ([a b] & E & H). apply filter_In in H.
            destruct H as [H Hi']. apply Nat.eqb_eq in Hi'. simpl in *.
            subst. exact H.
          - intros H. exists (i, x). split; [reflexivity|].
            apply filter_In. split; [exact H|apply Nat.eqb_refl]. }
        rewrite E, pending_rows_In. clear E.
        destruct c as [|o a]; simpl; [tauto|].
        specialize (Hc o a eq_refl). split.
        -- intros [[H|[H _]]|H]; auto.
        -- intros [[H|H]|H]; auto.
           destruct (in_dec Nat.eq_dec x o) as [Ho|Ho]; [|auto].
           left. left. rewrite Hc in Ho. apply item_tags_ids. exact Ho.
    + destruct H as (-> & Hdb). split; [|auto].
      apply (wf_supply w); auto; lia.
Qed.

Lemma for_each_tags_step env uid i names : forall c w chosen,
  attached w i c chosen ->
  let w' := snd (for_each names (get_or_create_tag env uid i) c w) in
  match fst (for_each names (get_or_create_tag env uid i) c w) with
  | inr c' =>
      exists more,
        attached w' i c' (chosen ++ more)
        /\ Forall2 (chosen_for env uid) names more
  | inl e => wf w'
  end.
Proof.
  induction names as [|n names IH]; intros c w chosen H; simpl.
  - exists []. rewrite app_nil_r. split; [exact H|constructor].
  - rewrite try_bind_run.
    pose proof (get_or_create_tag_step env uid i n c w chosen H) as Hstep.
    cbv zeta in Hstep.
    destruct (fst (get_or_create_tag env uid i n c w)) as [e|c1].
    + cbn [fst snd]. apply Hstep.
    + destruct Hstep as (t & Hatt & Hfor).
      specialize (IH c1 _ _ Hatt). cbv zeta in IH.
      destruct (fst (for_each names _ c1 _)) as [e|c2]; [exact IH|].
      destruct IH as (more & Hatt' & Hall).
      exists (t :: more). rewrite <- app_assoc in Hatt'.
      split; [exact Hatt'|constructor; assumption].
Qed.

(** the loop raises only when the database refuses a name *)
Lemma for_each_tags_succeeds env uid i names : forall c w,
  (forall n, In n names -> varchar env 100 n <> None) ->
  exists c', fst (for_each names (get_or_create_tag env uid i) c w) = inr c'.
Proof.
  induction names as [|n names IH]; intros c w H; simpl.
  - eexists. reflexivity.
  - rewrite try_bind_run.
    destruct (get_or_create_tag_tables env uid i n c w)
      as (_ & _ & _ & _ & _ & _ & Hr).
    cbv zeta in Hr.
    assert (Hn : varchar env 100 n <> None) by (apply H; left; reflexivity).
    destruct (tag_by_name (db w) n uid).
    + destruct Hr as (-> & _). apply IH. intros m Hm. apply H. right. exact Hm.
    + destruct Hr as (_ & Hr). destruct (varchar env 100 n); [|contradiction].
      destruct Hr as (_ & _ & ->). apply IH. intros m Hm. apply H. right.
      exact Hm.
Qed.

Lemma attach_all_run env uid i names w :
  let L := for_each names (get_or_create_tag env uid i) Expired w in
  let A := attach_all env uid i names w in
  match fst L with
  | inl e => A = (inl e, snd L)
  | inr c =>
      fst A = inr tt
      /\ tags (db (snd A)) = tags (db (snd L))
      /\ knowledge_item_tags (db (snd A))
         = knowledge_item_tags (db (snd L)) ++ pending_rows i c
      /\ knowledge_items (db (snd A)) = knowledge_items (db (snd L))
      /\ users (db (snd A)) = users (db (snd L))
      /\ conversations (db (snd A)) = conversations (db (snd L))
      /\ chat_messages (db (snd A)) = chat_messages (db (snd L))
      /\ agents (snd A) = agents (snd L)
      /\ files (snd A) = files (snd L)
      /\ uuid_supply (snd A) = uuid_supply (snd L)
      /\ trace (snd A) = trace (snd L) ++ [EvFlush i]
  end.
Proof.
  cbv zeta. unfold attach_all. rewrite try_bind_run.
  destruct (for_each names (get_or_create_tag env uid i) Expired w)
    as [[e|c] w1]; cbn [fst snd]; [reflexivity|].
  unfold flush. unmonad. simpl. repeat split; reflexivity.
Qed.

(** The loop and its commit, started on an item without tags: when they
    succeed, the tags of the item are the chosen ones. *)
Lemma attach_all_attached env uid i names w :
  attached w i Expired [] ->
  let A := attach_all env uid i names w in
  match fst A with
  | inr _ =>
      exists chosen,
        attached (snd A) i Expired chosen
        /\ Forall2 (chosen_for env uid) names chosen
  | inl e => wf (snd A)
  end.
Proof.
  intros H. cbv zeta.
  pose proof (for_each_tags_step env uid i names Expired w [] H) as HL.
  pose proof (attach_all_run env uid i names w) as HA.
  cbv zeta in HL, HA.
  destruct (fst (for_each names (get_or_create_tag env uid i) Expired w))
    as [e|c].
  - rewrite HA. exact HL.
  - destruct HL as (chosen & (Hwf & Hi & Hc & Hch & Hset) & Hall).
    destruct HA as (-> & Ht & Hr & Hk & _ & _ & _ & _ & _ & Hs & _).
    exists chosen. split; [|exact Hall]. simpl in Hset.
    destruct Hwf as (Hnd & Hts & His & Hrs).
    unfold attached, wf. rewrite Ht, Hr, Hk, Hs.
    split; [split; [exact Hnd|split; [exact Hts|split; [exact His|]]]
           |split; [exact Hi|split; [discriminate|split; [exact Hch|]]]].
    + intros row Hx. apply in_app_or in Hx. destruct Hx as [Hx|Hx]; [auto|].
      apply pending_rows_item in Hx. destruct Hx as [-> Hx]. split; [exact Hi|].
      assert (Hin : In (snd row) (map Tag.id chosen))
        by (apply Hset, in_or_app; right; exact Hx).
      apply in_map_iff in Hin. destruct Hin as (t & <- & Ht').
      apply Hts, Hch, Ht'.
    + intros x. simpl. rewrite app_nil_r, <- Hset.
      unfold Race.tags_of_item at 1. rewrite Hr.
      rewrite tags_of_item_app, !in_app_iff.
      assert (E : In x (map snd (filter (fun row => Nat.eqb (fst row) i)
                                        (pending_rows i c)))
                  <-> In (i, x) (pending_rows i c)).
      { rewrite in_map_iff. split.
        - intros ([a b] & E & H'). apply filter_In in H'.
          destruct H' as [H' Hi']. apply Nat.eqb_eq in Hi'. simpl in *.
          subst. exact H'.
        - intros H'. exists (i, x). split; [reflexivity|].
          apply filter_In. split; [exact H'|apply Nat.eqb_refl]. }
      rewrite E, pending_rows_In. clear E.
      destruct c as [|o a]; simpl; [tauto|].
      specialize (Hc o a eq_refl). split.
      * intros [H'|[H' _]]; auto.
      * intros [H'|H']; auto.
        destruct (in_dec Nat.eq_dec x o) as [Ho|Ho]; [|auto].
        left. rewrite Hc in Ho. apply item_tags_ids. exact Ho.
Qed.

(** with the collection expired, the invariant says what [item.tags]
    reads: the chosen tags, each once *)
Lemma attached_item_tags w i chosen t :
  attached w i Expired chosen ->
  (In t (item_tags (db w) i) <-> In t chosen).
Proof.
  intros ((Hnd & _) & _ & _ & Hch & Hset). simpl in Hset.
  rewrite item_tags_In by exact Hnd. split.
  - intros [Hin Hid]. rewrite <- (app_nil_r (Race.tags_of_item _ _)) in Hid.
    apply Hset in Hid. apply in_map_iff in Hid.
    destruct Hid as (t' & E & Ht'). replace t with t'; [exact Ht'|].
    apply (NoDup_map_eq Tag.id (tags (db w))); auto.
  - intros H. split; [auto|].
    assert (Hin : In (Tag.id t) (Race.tags_of_item (db w) i ++ []))
      by (apply Hset, in_map, H).
    rewrite app_nil_r in Hin. exact Hin.
Qed.

(** ** What the loop does to the tables, whether it ends or raises *)

Lemma for_each_tags_grow env uid i names : forall c w,
  let w' := snd (for_each names (get_or_create_tag env uid i) c w) in
  exists news added,
    tags (db w') = tags (db w) ++ news
    /\ knowledge_item_tags (db w') = knowledge_item_tags (db w) ++ added
    /\ Forall (fun t => Tag.user_id t = uid /\ uuid_supply w <= Tag.id t) news
    /\ Forall (fun row => fst row = i) added
    /\ knowledge_items (db w') = knowledge_items (db w)
    /\ users (db w') = users (db w)
    /\ conversations (db w') = conversations (db w)
    /\ chat_messages (db w') = chat_messages (db w)
    /\ agents w' = agents w
    /\ files w' = files w
    /\ uuid_supply w <= uuid_supply w'.
Proof.
  induction names as [|n names IH]; intros c w; simpl.
  - exists [], []. rewrite !app_nil_r. repeat split; auto.
  - rewrite try_bind_run.
    destruct (get_or_create_tag_tables env uid i n c w)
      as (Hk & Hu & Hcv & Hm & Ha & Hf & H).
    cbv zeta in H.
    assert (Hstop : forall e,
      fst (get_or_create_tag env uid i n c w) = inl e ->
      db (snd (get_or_create_tag env uid i n c w)) = db w
      /\ uuid_supply w <= uuid_supply (snd (get_or_create_tag env uid i n c w))).
    { intros e He. destruct (tag_by_name (db w) n uid).
      - destruct H as (H & _). rewrite H in He. discriminate.
      - destruct H as (Hs & H). destruct (varchar env 100 n).
        + destruct H as (_ & _ & H). rewrite H in He. discriminate.
        + destruct H as (_ & Hdb). split; [exact Hdb|lia]. }
    destruct (fst (get_or_create_tag env uid i n c w)) as [e|c1] eqn:Er.
    + cbn [fst snd]. destruct (Hstop e eq_refl) as [Hdb Hs].
      exists [], []. rewrite !app_nil_r, Hdb. repeat split; auto.
    + clear Hstop.
      destruct (IH c1 (snd (get_or_create_tag env uid i n c w)))
        as (news & added & Ht' & Hr' & Hn' & Ha' & Hk' & Hu' & Hcv' & Hm'
            & Hag' & Hf' & Hs').
      cbv zeta in *.
      rewrite Hk', Hu', Hcv', Hm', Hag', Hf', Ht', Hr'.
      destruct (tag_by_name (db w) n uid).
      * destruct H as (_ & Hdb & Hs). rewrite Hdb, Hs in *.
        exists news, added. repeat split; auto.
      * destruct H as (Hs & H). destruct (varchar env 100 n) as [k|].
        -- destruct H as (Ht & Hr & _). rewrite Ht, Hr, <- !app_assoc.
           exists (new_tag uid k w :: news), (pending_rows i c ++ added).
           repeat split; auto; try lia.
           ++ constructor; [simpl; split; [reflexivity|lia]|].
              revert Hn'. apply Forall_impl. intros t [? ?]. split; [auto|lia].
           ++ apply Forall_app. split; [|exact Ha'].
              apply Forall_forall. intros row Hrow.
              apply pending_rows_item in Hrow. apply Hrow.
        -- destruct H as (H & _). discriminate H.
Qed.

Lemma attach_all_grow env uid i names w :
  let w' := snd (attach_all env uid i names w) in
  exists news added,
    tags (db w') = tags (db w) ++ news
    /\ knowledge_item_tags (db w') = knowledge_item_tags (db w) ++ added
    /\ Forall (fun t => Tag.user_id t = uid /\ uuid_supply w <= Tag.id t) news
    /\ Forall (fun row => fst row = i) added
    /\ knowledge_items (db w') = knowledge_items (db w)
    /\ users (db w') = users (db w)
    /\ conversations (db w') = conversations (db w)
    /\ chat_messages (db w') = chat_messages (db w)
    /\ agents w' = agents w
    /\ files w' = files w
    /\ uuid_supply w <= uuid_supply w'.
Proof.
  cbv zeta.
  destruct (for_each_tags_grow env uid i names Expired w)
    as (news & added & Ht & Hr & Hn & Ha & Hk & Hu & Hcv & Hm & Hag & Hf & Hs).
  pose proof (attach_all_run env uid i names w) as HA. cbv zeta in *.
  destruct (fst (for_each names (get_or_create_tag env uid i) Expired w))
    as [e|c].
  - rewrite HA. cbn [snd]. exists news, added. repeat split; auto.
  - destruct HA as (_ & Ht' & Hr' & Hk' & Hu' & Hcv' & Hm' & Hag' & Hf' & Hs'
                    & _).
    rewrite Ht', Hr', Hk', Hu', Hcv', Hm', Hag', Hf', Hs', Hr, <- app_assoc.
    exists news, (added ++ pending_rows i c). repeat split; auto.
    apply Forall_app. split; [exact Ha|].
    apply Forall_forall. intros row Hrow.
    apply pending_rows_item in Hrow. apply Hrow.
Qed.

(** ** Tag names stay unique *)

Lemma tag_by_name_rows s n uid :
  tag_by_name s n uid = hd_error (Race.rows_of s uid n).
Proof.
  unfold tag_by_name, Race.rows_of.
  induction (tags s) as [|a l IH]; simpl; [reflexivity|].
  destruct (_ && _); simpl; auto.
Qed.

Lemma get_or_create_tag_unique env uid i n c w :
  kept_whole env n ->
  names_unique (db w) ->
  names_unique (db (snd (get_or_create_tag env uid i n c w))).
Proof.
  intros Hkept Hu uid' n'.
  destruct (get_or_create_tag_tables env uid i n c w)
    as (_ & _ & _ & _ & _ & _ & H).
  cbv zeta in H. pose proof (tag_by_name_rows (db w) n uid) as Hrows.
  destruct (tag_by_name (db w) n uid) as [t|].
  - destruct H as (_ & -> & _). apply Hu.
  - destruct H as (_ & H). destruct (varchar env 100 n) as [k|] eqn:Hv.
    + destruct H as (Ht & _). rewrite (Hkept k Hv) in Ht.
      unfold Race.rows_of. rewrite Ht, filter_app, length_app. simpl.
      destruct (String.eqb_spec n n') as [<-|Hn]; simpl.
      * destruct (Nat.eqb_spec uid uid') as [<-|Hid]; simpl.
        -- fold (Race.rows_of (db w) uid n).
           destruct (Race.rows_of (db w) uid n); [simpl; lia|discriminate].
        -- specialize (Hu uid' n). unfold Race.rows_of in Hu. lia.
      * specialize (Hu uid' n'). unfold Race.rows_of in Hu. lia.
    + destruct H as (_ & ->). apply Hu.
Qed.

Lemma for_each_tags_unique env uid i names : forall c w,
  Forall (kept_whole env) names ->
  names_unique (db w) ->
  names_unique
    (db (snd (for_each names (get_or_create_tag env uid i) c w))).
Proof.
  induction names as [|n names IH]; intros c w Hall H; simpl; [exact H|].
  inversion Hall as [|? ? Hn Hrest]; subst.
  rewrite try_bind_run.
  pose proof (get_or_create_tag_unique env uid i n c w Hn H) as H1.
  destruct (fst (get_or_create_tag env uid i n c w)); cbn [snd]; [exact H1|].
  apply IH; assumption.
Qed.

Lemma names_unique_tags s s' :
  tags s' = tags s -> names_unique s -> names_unique s'.
Proof. intros E H uid n. unfold Race.rows_of. rewrite E. apply H. Qed.

Lemma attach_all_unique env uid i names w :
  Forall (kept_whole env) names ->
  names_unique (db w) ->
  names_unique (db (snd (attach_all env uid i names w))).
Proof.
  intros Hall H.
  pose proof (for_each_tags_unique env uid i names Expired w Hall H) as HL.
  pose proof (attach_all_run env uid i names w) as HA. cbv zeta in HA.
  destruct (fst (for_each names (get_or_create_tag env uid i) Expired w)).
  - rewrite HA. exact HL.
  - destruct HA as (_ & Ht & _). revert HL. apply names_unique_tags. exact Ht.
Qed.

Lemma short_name_kept env n : String.length n <= 100 -> kept_whole env n.
Proof.
  intros H k. unfold varchar.
  destruct (Nat.leb_spec (String.length n) 100); [|lia].
  congruence.
Qed.

Lemma short_name_stored env n :
  String.length n <= 100 -> varchar env 100 n = Some n.
Proof.
  intros H. unfold varchar.
  destruct (Nat.leb_spec (String.length n) 100); [reflexivity|lia].
Qed.

(** ** The loop calls no agent *)

Lemma for_each_tags_trace env uid i names : forall c w,
  exists evs,
    trace (snd (for_each names (get_or_create_tag env uid i) c w))
    = trace w ++ evs
    /\ forallb (fun e => negb (is_run e)) evs = true.
Proof.
  induction names as [|n names IH]; intros c w; simpl.
  - exists []. rewrite app_nil_r. auto.
  - rewrite try_bind_run.
    assert (H1 : exists evs,
      trace (snd (get_or_create_tag env uid i n c w)) = trace w ++ evs
      /\ forallb (fun e => negb (is_run e)) evs = true).
    { unfold get_or_create_tag, raise, flush, add_tag. unmonad. simpl.
      destruct (tag_by_name (db w) n uid); simpl.
      - exists [EvQuery TTags]. auto.
      - destruct (varchar env 100 n); simpl.
        + eexists. rewrite <- !app_assoc. simpl. split; reflexivity.
        + exists [EvQuery TTags]. auto. }
    destruct H1 as (evs1 & E1 & H1).
    destruct (fst (get_or_create_tag env uid i n c w)) as [e|c1];
      cbn [snd]; [exists evs1; auto|].
    destruct (IH c1 (snd (get_or_create_tag env uid i n c w)))
      as (evs & -> & Hevs).
    rewrite E1, <- app_assoc. exists (evs1 ++ evs).
    rewrite forallb_app, H1, Hevs. auto.
Qed.

Lemma attach_all_trace env uid i names w :
  exists evs,
    trace (snd (attach_all env uid i names w)) = trace w ++ evs
    /\ forallb (fun e => negb (is_run e)) evs = true.
Proof.
  destruct (for_each_tags_trace env uid i names Expired w) as (evs & E & H).
  pose proof (attach_all_run env uid i names w) as HA. cbv zeta in HA.
  destruct (fst (for_each names (get_or_create_tag env uid i) Expired w)).
  - rewrite HA. exists evs. auto.
  - destruct HA as (_ & _ & _ & _ & _ & _ & _ & _ & _ & _ & ->).
    rewrite E, <- app_assoc. exists (evs ++ [EvFlush i]).
    rewrite forallb_app, H. auto.
Qed.

Lemma attach_all_succeeds env uid i names w :
  (forall n, In n names -> varchar env 100 n <> None) ->
  fst (attach_all env uid i names w) = inr tt.
Proof.
  intros H.
  destruct (for_each_tags_succeeds env uid i names Expired w H) as (c & Hc).
  pose proof (attach_all_run env uid i names w) as HA. cbv zeta in HA.
  rewrite Hc in HA. apply HA.
Qed.


(** ** The ingestion handlers, stage by stage *)

Lemma store_item_run env type make w :
  store_item env type make w
  = match varchar env 50 type with
    | None => (inl (DataError type), snd (uuid4 w))
    | Some kept =>
        (inr (make (uuid_supply w) (clock w) kept),
         committed (make (uuid_supply w) (clock w) kept) w)
    end.
Proof.
  unfold store_item, add_knowledge_item, raise, committed. unmonad. simpl.
  destruct (varchar env 50 type); simpl; [|reflexivity].
  rewrite <- app_assoc. reflexivity.
Qed.

Lemma committed_attached w w1 (item : KnowledgeItem.t) :
  wf w ->
  db w1 = db w -> uuid_supply w1 = uuid_supply w ->
  KnowledgeItem.id item = uuid_supply w ->
  attached (committed item w1) (uuid_supply w) Expired [].
Proof.
  intros (Hnd & Hts & His & Hrs) Hdb Hs Hid.
  unfold attached, wf, committed. simpl. rewrite Hdb, Hs.
  split; [split; [exact Hnd|split; [|split]]
         |split; [lia|split; [discriminate|split; [intros ? []|]]]].
  - intros t Ht. specialize (Hts t Ht). lia.
  - intros it Hit. apply in_app_or in Hit. destruct Hit as [Hit|[<-|[]]].
    + specialize (His it Hit). lia.
    + lia.
  - intros row Hr. destruct (Hrs row Hr). lia.
  - intros x. rewrite app_nil_r. split; [|intros []].
    intros H. apply tags_of_item_In in H. simpl in H.
    destruct (Hrs _ H) as [H1 _]. simpl in H1. lia.
Qed.

Lemma attach_nothing env uid i w :
  fst (attach_all env uid i [] w) = inr tt
  /\ db (snd (attach_all env uid i [] w)) = db w
  /\ uuid_supply (snd (attach_all env uid i [] w)) = uuid_supply w.
Proof.
  unfold attach_all, flush. rewrite try_bind_run. simpl. unmonad. simpl.
  split; [reflexivity|]. split; [|reflexivity].
  rewrite app_nil_r. destruct (db w); reflexivity.
Qed.

(** the row that [create_knowledge_item] stores *)
Lemma create_knowledge_item_stages env item_data u w :
  let C := create_knowledge_item env item_data u w in
  let w1 := snd (backfill_summary env item_data w) in
  match varchar env 50 (KnowledgeItemCreate.type item_data) with
  | None =>
      C = (inl (DataError (KnowledgeItemCreate.type item_data)),
           snd (uuid4 w1))
  | Some kept =>
      let item :=
        KnowledgeItem.mk
          (uuid_supply w) (User.id u)
          (KnowledgeItemCreate.title item_data)
          (fst (backfill_summary env item_data w))
          (KnowledgeItemCreate.content item_data)
          kept None None None None None
          (match KnowledgeItemCreate.metadata item_data with
           | Some d => d
           | None => []
           end)
          true None (clock w) (clock w) in
      let A := attach_all env (User.id u) (uuid_supply w)
                          (requested_tags item_data) (committed item w1) in
      db (snd C) = db (snd A)
      /\ uuid_supply (snd C) = uuid_supply (snd A)
      /\ agents (snd C) = agents w1
      /\ files (snd C) = files w
      /\ (exists evs, trace (snd C) = trace (committed item w1) ++ evs
                      /\ forallb (fun e => negb (is_run e)) evs = true)
      /\ fst C = match fst A with
                 | inl e => inl e
                 | inr _ =>
                     inr (serialize_knowledge_item (db (snd A)) item true)
                 end
  end.
Proof.
  cbv zeta. unfold create_knowledge_item. rewrite bind_run.
  destruct (backfill_summary_frame env item_data w) as (Hdb & Hf & Hs & Hc).
  destruct (backfill_summary env item_data w) as [summary w1].
  cbn [fst snd] in *.
  rewrite try_bind_run, store_item_run.
  destruct (varchar env 50 (KnowledgeItemCreate.type item_data)) as [kept|];
    [|reflexivity].
  cbn [fst snd]. rewrite Hs, Hc.
  rewrite try_bind_run.
  unfold requested_tags.
  destruct (KnowledgeItemCreate.tags item_data) as [[|n l]|].
  - (* an empty list: the loop is skipped *)
    cbn [fst snd ret]. unfold get_store. cbn [fst snd ret].
    match goal with
    | |- context [attach_all env ?a ?b [] ?w0] =>
        destruct (attach_nothing env a b w0) as (-> & -> & ->)
    end.
    cbn [db agents files trace committed].
    split; [reflexivity|split; [reflexivity|split; [reflexivity|split;
      [exact Hf|split; [exists []; rewrite app_nil_r; auto|reflexivity]]]]].
  - cbn [KnowledgeItem.id].
    match goal with
    | |- context [attach_all env ?a ?b ?names ?w0] =>
        destruct (attach_all_grow env a b names w0)
          as (_ & _ & _ & _ & _ & _ & _ & _ & _ & _ & Hag & Hfl & _);
        destruct (attach_all_trace env a b names w0) as (evs & Ht & Hevs);
        destruct (attach_all env a b names w0) as [[e|[]] w4]
    end; cbn [fst snd ret agents files trace committed] in *;
      unfold bind, get_store; cbn [fst snd ret];
      (split; [reflexivity|split; [reflexivity|split; [exact Hag|split;
         [rewrite Hfl; exact Hf|split;
         [exists evs; split; [exact Ht|exact Hevs]|reflexivity]]]]]).
  - cbn [fst snd ret]. unfold get_store. cbn [fst snd ret].
    match goal with
    | |- context [attach_all env ?a ?b [] ?w0] =>
        destruct (attach_nothing env a b w0) as (-> & -> & ->)
    end.
    cbn [db agents files trace committed].
    split; [reflexivity|split; [reflexivity|split; [reflexivity|split;
      [exact Hf|split; [exists []; rewrite app_nil_r; auto|reflexivity]]]]].
Qed.

Lemma stored_frame env file w :
  db (stored env file w) = db w
  /\ uuid_supply (stored env file w) = S (uuid_supply w)
  /\ agents (stored env file w) = agents w
  /\ clock (stored env file w) = clock w
  /\ files (stored env file w)
     = (upload_path env (uuid_supply w) file, UploadFile.data file) :: files w.
Proof. repeat split. Qed.

(** the row that [upload_file] stores, when the file could be written *)
Lemma upload_file_stages env file u w :
  let U := upload_file env file u w in
  if opens env (uuid_supply w) file
  then
    let a := fst (analyse_upload env file (read_text env file)
                                 (stored env file w)) in
    let w1 := snd (analyse_upload env file (read_text env file)
                                  (stored env file w)) in
    let item :=
      KnowledgeItem.mk
        (S (uuid_supply w)) (User.id u)
        (fst (fst a)) (Some (snd (fst a))) (Some (read_text env file))
        "document"
        (Some (upload_path env (uuid_supply w) file))
        (Some (UploadFile.filename file))
        (Some (List.length (UploadFile.data file)))
        (UploadFile.content_type file)
        None
        [("original_filename", JStr (UploadFile.filename file))]
        true None (clock w) (clock w) in
    let A := attach_all env (User.id u) (S (uuid_supply w)) (snd a)
                        (committed item w1) in
    snd U = snd A
    /\ fst U = match fst A with
               | inl e => inl e
               | inr _ => inr (serialize_knowledge_item (db (snd A)) item true)
               end
  else U = (inl (OSError (upload_path env (uuid_supply w) file)),
            snd (uuid4 w)).
Proof.
  cbv zeta. unfold upload_file.
  rewrite bind_run. change (fst (uuid4 w)) with (uuid_supply w).
  cbv zeta.
  destruct (opens env (uuid_supply w) file); cbn [negb]; [|reflexivity].
  rewrite bind_run. cbn [fst snd]. rewrite bind_run.
  change (snd (write_file _ _ _)) with (stored env file w).
  destruct (stored_frame env file w) as (_ & Hs0 & _ & Hc0 & _).
  destruct (analyse_upload_frame env file (read_text env file)
              (stored env file w)) as (_ & _ & Hs & Hc).
  destruct (analyse_upload env file (read_text env file) (stored env file w))
    as [[[title summary] tgs] w1].
  cbn [fst snd] in *. rewrite Hs0 in Hs. rewrite Hc0 in Hc.
  rewrite try_bind_run, store_item_run.
  change (varchar env 50 "document") with (Some "document").
  cbn [fst snd]. rewrite Hs, Hc. rewrite try_bind_run.
  cbn [KnowledgeItem.id].
  match goal with
  | |- context [attach_all env ?a ?b ?names ?w0] =>
      destruct (attach_all env a b names w0) as [[e|[]] w4]
  end; cbn [fst snd]; unfold bind, get_store; cbn [fst snd ret];
    split; reflexivity.
Qed.

(** ** Reading the stages *)

Lemma wf_committed w w1 item :
  wf w -> db w1 = db w -> uuid_supply w1 = uuid_supply w ->
  KnowledgeItem.id item = uuid_supply w ->
  wf (committed item w1).
Proof. intros. eapply committed_attached; eauto. Qed.

Lemma singleton_by_id (l : list Tag.t) (t : Tag.t) :
  NoDup (map Tag.id l) -> (forall x, In x l <-> x = t) -> l = [t].
Proof.
  intros Hnd H. destruct l as [|a l].
  - exfalso. apply (proj2 (H t) eq_refl).
  - assert (a = t) by (apply H; left; reflexivity). subst a.
    destruct l as [|b l]; [reflexivity|].
    assert (b = t) by (apply H; right; left; reflexivity). subst b.
    inversion Hnd as [|? ? Hn _]. exfalso. apply Hn. left. reflexivity.
Qed.

Lemma Forall2_chosen_l {A B} (R : A -> B -> Prop) l1 l2 a :
  Forall2 R l1 l2 -> In a l1 -> exists b, In b l2 /\ R a b.
Proof.
  induction 1 as [|x y l1 l2 Hxy _ IH]; simpl; [intros []|].
  intros [<-|Ha]; [exists y; auto|].
  destruct (IH Ha) as (b & Hb & Hr). exists b. auto.
Qed.

Lemma Forall2_chosen_r {A B} (R : A -> B -> Prop) l1 l2 b :
  Forall2 R l1 l2 -> In b l2 -> exists a, In a l1 /\ R a b.
Proof.
  induction 1 as [|x y l1 l2 Hxy _ IH]; simpl; [intros []|].
  intros [<-|Hb]; [exists x; auto|].
  destruct (IH Hb) as (a & Ha & Hr). exists a. auto.
Qed.

(** ** Created items are processed (C1) *)

(** C1: every upload and every manual creation that completes has
    stored exactly one new KnowledgeItem row, that row has
    [is_processed = true] and so has the response, whatever the agents
    do: answer, raise, or be unavailable.  A request that raises after
    its row was committed (the database refused a tag) leaves a
    processed row as well: every row a request adds is processed. *)
Theorem created_item_is_processed (env : Env) (u : User.t) (w : World) :
  (forall file r,
      fst (upload_file env file u w) = inr r ->
      let w' := snd (upload_file env file u w) in
      ItemDict.isProcessed r = true
      /\ exists item,
          knowledge_items (db w') = knowledge_items (db w) ++ [item]
          /\ KnowledgeItem.id item = ItemDict.id r
          /\ KnowledgeItem.is_processed item = true)
  /\ (forall item_data r,
      fst (create_knowledge_item env item_data u w) = inr r ->
      let w' := snd (create_knowledge_item env item_data u w) in
      ItemDict.isProcessed r = true
      /\ exists item,
          knowledge_items (db w') = knowledge_items (db w) ++ [item]
          /\ KnowledgeItem.id item = ItemDict.id r
          /\ KnowledgeItem.is_processed item = true)
  /\ (forall file it,
      In it (knowledge_items (db (snd (upload_file env file u w)))) ->
      In it (knowledge_items (db w)) \/ KnowledgeItem.is_processed it = true)
  /\ (forall item_data it,
      In it (knowledge_items
               (db (snd (create_knowledge_item env item_data u w)))) ->
      In it (knowledge_items (db w)) \/ KnowledgeItem.is_processed it = true).
Proof.
  split; [|split; [|split]].
  - intros file r Hr. cbv zeta.
    pose proof (upload_file_stages env file u w) as H. cbv zeta in H.
    destruct (opens env (uuid_supply w) file);
      [|rewrite H in Hr; discriminate].
    destruct H as (Hw & Hf). rewrite Hf in Hr. rewrite Hw.
    match type of Hr with
    | context [attach_all env ?a ?b ?names ?w0] =>
        destruct (attach_all_grow env a b names w0)
          as (_ & _ & _ & _ & _ & _ & Hk & _);
        destruct (fst (attach_all env a b names w0)); [discriminate|]
    end.
    injection Hr as <-. split; [reflexivity|].
    eexists. split.
    { cbv zeta in Hk. rewrite Hk. cbn [committed db knowledge_items].
      destruct (analyse_upload_frame env file (read_text env file)
                  (stored env file w)) as (-> & _).
      reflexivity. }
    split; reflexivity.
  - intros item_data r Hr. cbv zeta.
    pose proof (create_knowledge_item_stages env item_data u w) as H.
    cbv zeta in H.
    destruct (varchar env 50 (KnowledgeItemCreate.type item_data));
      [|rewrite H in Hr; discriminate].
    destruct H as (Hdb & _ & _ & _ & _ & Hf). rewrite Hf in Hr. rewrite Hdb.
    match type of Hr with
    | context [attach_all env ?a ?b ?names ?w0] =>
        destruct (attach_all_grow env a b names w0)
          as (_ & _ & _ & _ & _ & _ & Hk & _);
        destruct (fst (attach_all env a b names w0)); [discriminate|]
    end.
    injection Hr as <-. split; [reflexivity|].
    eexists. split.
    { cbv zeta in Hk. rewrite Hk. cbn [committed db knowledge_items].
      destruct (backfill_summary_frame env item_data w) as (-> & _).
      reflexivity. }
    split; reflexivity.
  - intros file it Hit.
    pose proof (upload_file_stages env file u w) as H. cbv zeta in H.
    destruct (opens env (uuid_supply w) file).
    + destruct H as (Hw & _). rewrite Hw in Hit.
      match type of Hit with
      | context [attach_all env ?a ?b ?names ?w0] =>
          destruct (attach_all_grow env a b names w0)
            as (_ & _ & _ & _ & _ & _ & Hk & _)
      end.
      cbv zeta in Hk. rewrite Hk in Hit.
      cbn [committed db knowledge_items] in Hit.
      destruct (analyse_upload_frame env file (read_text env file)
                  (stored env file w)) as (Hdb & _).
      rewrite Hdb in Hit. apply in_app_or in Hit.
      destruct Hit as [Hit|[<-|[]]]; [left; exact Hit|right; reflexivity].
    + rewrite H in Hit. left. exact Hit.
  - intros item_data it Hit.
    pose proof (create_knowledge_item_stages env item_data u w) as H.
    cbv zeta in H.
    destruct (backfill_summary_frame env item_data w) as (Hdb1 & _).
    destruct (varchar env 50 (KnowledgeItemCreate.type item_data)).
    + destruct H as (Hdb & _). rewrite Hdb in Hit.
      match type of Hit with
      | context [attach_all env ?a ?b ?names ?w0] =>
          destruct (attach_all_grow env a b names w0)
            as (_ & _ & _ & _ & _ & _ & Hk & _)
      end.
      cbv zeta in Hk. rewrite Hk in Hit.
      cbn [committed db knowledge_items] in Hit.
      rewrite Hdb1 in Hit. apply in_app_or in Hit.
      destruct Hit as [Hit|[<-|[]]]; [left; exact Hit|right; reflexivity].
    + rewrite H in Hit. cbn [snd uuid4 db] in Hit. rewrite Hdb1 in Hit.
      left. exact Hit.
Qed.

Lemma get_agents_answer env w :
  fst (get_agents env w)
  = match agents w with
    | Some a => Some a
    | None =>
        if Py.nonempty (openai_api_key (settings env))
        then match KnowledgeVaultAgents_init env with
             | inr a => Some a
             | inl _ => None
             end
        else None
    end.
Proof.
  unfold get_agents, get_global_agents, bind, set_agents, ret; simpl.
  destruct (agents w); simpl; auto.
  destruct (Py.nonempty _); simpl; auto.
  destruct (KnowledgeVaultAgents_init env); reflexivity.
Qed.

Lemma analyse_upload_fallback env file fc w w1 :
  agents w1 = agents w ->
  enrichment_fails env w (process_prompt file fc) = true ->
  fst (analyse_upload env file fc w1)
  = (UploadFile.filename file, "File uploaded successfully", ["uploaded"]).
Proof.
  intros Ha. unfold enrichment_fails, analyse_upload.
  rewrite bind_run, !get_agents_answer, Ha.
  destruct (match agents w with Some a => Some a | None => _ end) as [a|];
    [|reflexivity].
  rewrite bind_run. cbn [fst snd].
  destruct (document_processor a _); [discriminate|reflexivity].
Qed.

(** what a completed attachment leaves in [item.tags] *)
Lemma attach_all_tags env uid i names w :
  attached w i Expired [] ->
  fst (attach_all env uid i names w) = inr tt ->
  let w' := snd (attach_all env uid i names w) in
  wf w'
  /\ exists chosen,
      Forall2 (chosen_for env uid) names chosen
      /\ (forall t, In t chosen -> In t (tags (db w')))
      /\ forall t, In t (item_tags (db w') i) <-> In t chosen.
Proof.
  intros Hatt Hok. cbv zeta.
  pose proof (attach_all_attached env uid i names w Hatt) as H.
  cbv zeta in H. rewrite Hok in H. destruct H as (chosen & Hatt' & Hall).
  split; [apply Hatt'|]. exists chosen. split; [exact Hall|].
  split; [apply Hatt'|].
  intros t. apply attached_item_tags. exact Hatt'.
Qed.

(** ** Fallback values of an upload (C3) *)

(** C3: when the enrichment of an upload fails (no agents can be had, or
    the document processor raises) and the file could be written,
    [upload_file] returns its item: the title is the original file
    name, the summary is the fixed text "File uploaded successfully",
    the tag list is exactly ["uploaded"], and the stored row carries the
    same title and summary.  This holds for every content type, text
    files included.  The file is written before the enrichment and
    outside its [try]: only that step, not the enrichment, can fail
    such a request. *)
Theorem failed_enrichment_falls_back (env : Env) (u : User.t) (w : World)
  (file : UploadFile.t) :
  wf w ->
  enrichment_fails env w (process_prompt file (read_text env file)) = true ->
  opens env (uuid_supply w) file = true ->
  let w' := snd (upload_file env file u w) in
  exists r,
    fst (upload_file env file u w) = inr r
    /\ ItemDict.title r = UploadFile.filename file
    /\ ItemDict.summary r = Some "File uploaded successfully"
    /\ ItemDict.tags r = Some ["uploaded"]
    /\ exists item,
        knowledge_items (db w') = knowledge_items (db w) ++ [item]
        /\ KnowledgeItem.id item = ItemDict.id r
        /\ KnowledgeItem.title item = UploadFile.filename file
        /\ KnowledgeItem.summary item = Some "File uploaded successfully".
Proof.
  intros Hwf Hfail Hopen. cbv zeta.
  pose proof (upload_file_stages env file u w) as H. cbv zeta in H.
  rewrite Hopen in H. destruct H as (Hw & Hf).
  rewrite (analyse_upload_fallback env file (read_text env file) w
             (stored env file w)) in Hw, Hf
    by (try apply stored_frame; assumption).
  cbn [fst snd] in Hw, Hf.
  destruct (analyse_upload_frame env file (read_text env file)
              (stored env file w)) as (Hdb & _ & Hs & _).
  destruct (stored_frame env file w) as (Hdb0 & Hs0 & _).
  rewrite Hdb0 in Hdb. rewrite Hs0 in Hs.
  set (w1 := snd (analyse_upload env file (read_text env file)
                                 (stored env file w))) in *.
  match type of Hw with
  | context [committed ?it w1] => set (item := it) in *
  end.
  assert (Hatt : attached (committed item w1) (S (uuid_supply w)) Expired []).
  { apply (committed_attached (stored env file w) w1 item).
    - apply (wf_supply w); auto. rewrite Hs0. lia.
    - rewrite Hdb. symmetry. exact Hdb0.
    - rewrite Hs. symmetry. exact Hs0.
    - reflexivity. }
  assert (Hok : fst (attach_all env (User.id u) (S (uuid_supply w))
                                ["uploaded"] (committed item w1)) = inr tt).
  { apply attach_all_succeeds. intros n [<-|[]]. discriminate. }
  destruct (attach_all_tags env _ _ _ _ Hatt Hok)
    as (Hwf' & chosen & Hall & Hin & Htags).
  destruct (attach_all_grow env (User.id u) (S (uuid_supply w)) ["uploaded"]
              (committed item w1))
    as (_ & _ & _ & _ & _ & _ & Hk & _).
  cbv zeta in Hk. rewrite Hok in Hf.
  inversion Hall as [|n t ? ? Hnt Hrest]; subst.
  inversion Hrest; subst. destruct Hnt as (_ & Hname).
  assert (Hn : Tag.name t = "uploaded").
  { destruct Hname as [E|E]; [exact E|].
    rewrite short_name_stored in E by (simpl; lia). congruence. }
  eexists. split; [exact Hf|].
  cbn [ItemDict.title ItemDict.summary ItemDict.tags ItemDict.id
         serialize_knowledge_item].
  change (KnowledgeItem.id item) with (S (uuid_supply w)).
  split; [reflexivity|]. split; [reflexivity|]. split.
  - rewrite (singleton_by_id _ t).
    + simpl. rewrite Hn. reflexivity.
    + apply item_tags_NoDup.
    + intros x. rewrite Htags. simpl. intuition congruence.
  - exists item. rewrite Hw, Hk. cbn [committed db knowledge_items].
    rewrite Hdb. repeat split; reflexivity.
Qed.

(** what a completed creation leaves in the tables *)
Lemma create_knowledge_item_tags env item_data u w r :
  wf w ->
  fst (create_knowledge_item env item_data u w) = inr r ->
  let w' := snd (create_knowledge_item env item_data u w) in
  ItemDict.id r = uuid_supply w
  /\ ItemDict.tags r
     = Some (map Tag.name (item_tags (db w') (uuid_supply w)))
  /\ exists chosen,
      Forall2 (chosen_for env (User.id u)) (requested_tags item_data) chosen
      /\ (forall t, In t chosen -> In t (tags (db w')))
      /\ forall t, In t (item_tags (db w') (uuid_supply w)) <-> In t chosen.
Proof.
  intros Hwf Hr. cbv zeta.
  pose proof (create_knowledge_item_stages env item_data u w) as H.
  cbv zeta in H.
  destruct (varchar env 50 (KnowledgeItemCreate.type item_data)) as [kept|];
    [|rewrite H in Hr; discriminate].
  destruct H as (Hdb & _ & _ & _ & _ & Hf). rewrite Hf in Hr. rewrite Hdb.
  destruct (backfill_summary_frame env item_data w) as (Hdb1 & _ & Hs1 & _).
  match type of Hr with
  | context [attach_all env ?a ?b ?names (committed ?it ?w1)] =>
      assert (Hatt : attached (committed it w1) (uuid_supply w) Expired [])
        by (apply (committed_attached w); auto);
      pose proof (attach_all_tags env a b names _ Hatt) as Ht;
      destruct (fst (attach_all env a b names (committed it w1))) as [e|[]];
        [discriminate|]
  end.
  injection Hr as <-. cbv zeta in Ht.
  destruct (Ht eq_refl) as (_ & chosen & Hall & Hin & Htags).
  split; [reflexivity|]. split; [reflexivity|].
  exists chosen. auto.
Qed.

Lemma chosen_name env uid n t :
  chosen_for env uid n t -> kept_whole env n -> Tag.name t = n.
Proof. intros (_ & [E|E]) Hk; [exact E|]. apply Hk. exact E. Qed.

(** a creation is refused only by the database: for the type, or for
    the name of a tag *)
Lemma create_knowledge_item_succeeds env item_data u w :
  varchar env 50 (KnowledgeItemCreate.type item_data) <> None ->
  (forall n, In n (requested_tags item_data) -> varchar env 100 n <> None) ->
  exists r, fst (create_knowledge_item env item_data u w) = inr r.
Proof.
  intros Htype Hnames.
  pose proof (create_knowledge_item_stages env item_data u w) as H.
  cbv zeta in H.
  destruct (varchar env 50 (KnowledgeItemCreate.type item_data)) as [kept|];
    [|contradiction].
  destruct H as (_ & _ & _ & _ & _ & ->).
  rewrite attach_all_succeeds by exact Hnames. eexists. reflexivity.
Qed.

(** ** Tags survive the round trip (C9) *)

Lemma find_last {A} (f : A -> bool) (l : list A) (x : A) :
  (forall y, In y l -> f y = false) -> f x = true ->
  find f (l ++ [x]) = Some x.
Proof.
  induction l as [|a l IH]; simpl; intros H Hx.
  - rewrite Hx. reflexivity.
  - rewrite (H a (or_introl eq_refl)). apply IH; auto.
Qed.

(** Fetching the item that [create_knowledge_item] has just returned
    gives back the same dictionary. *)
Lemma create_then_get env w u item_data r :
  wf w ->
  fst (create_knowledge_item env item_data u w) = inr r ->
  let w' := snd (create_knowledge_item env item_data u w) in
  fst (get_knowledge_item env (ItemDict.id r) u w') = inr r.
Proof.
  intros Hwf Hr. cbv zeta.
  pose proof (create_knowledge_item_stages env item_data u w) as H.
  cbv zeta in H.
  destruct (varchar env 50 (KnowledgeItemCreate.type item_data)) as [kept|];
    [|rewrite H in Hr; discriminate].
  destruct H as (Hdb & _ & _ & _ & _ & Hf). rewrite Hf in Hr.
  destruct (backfill_summary_frame env item_data w) as (Hdb1 & _ & _ & _).
  match type of Hr with
  | context [attach_all env ?a ?b ?names ?w0] =>
      destruct (attach_all_grow env a b names w0)
        as (_ & _ & _ & _ & _ & _ & Hk & _);
      destruct (fst (attach_all env a b names w0)) as [e|[]]; [discriminate|]
  end.
  cbv zeta in Hk. cbn [committed db knowledge_items] in Hk.
  rewrite Hdb1 in Hk. rewrite <- Hdb in Hk.
  injection Hr as <-.
  unfold get_knowledge_item. rewrite bind_run. cbn [fst snd].
  rewrite bind_run. unfold get_store, log. cbn [fst snd db].
  cbn [ItemDict.id serialize_knowledge_item KnowledgeItem.id].
  unfold item_by_id. rewrite Hk, find_last.
  - cbn [ret fst]. rewrite Hdb. reflexivity.
  - intros it Hit. destruct Hwf as (_ & _ & His & _).
    specialize (His it Hit).
    destruct (Nat.eqb_spec (KnowledgeItem.id it) (uuid_supply w));
      [lia|reflexivity].
  - cbn [KnowledgeItem.id KnowledgeItem.user_id].
    rewrite !Nat.eqb_refl. reflexivity.
Qed.

(** C9: an item created with tags ["a", "b"] and then fetched by its id
    comes back with a tag list whose members are exactly "a" and "b".
    The creation completes whenever the database takes the type of the
    item. *)
Theorem created_tags_round_trip (env : Env) (w : World) (u : User.t)
  (item_data : KnowledgeItemCreate.t) :
  wf w ->
  KnowledgeItemCreate.tags item_data = Some ["a"; "b"] ->
  let w' := snd (create_knowledge_item env item_data u w) in
  (varchar env 50 (KnowledgeItemCreate.type item_data) <> None ->
   exists r, fst (create_knowledge_item env item_data u w) = inr r)
  /\ forall r,
      fst (create_knowledge_item env item_data u w) = inr r ->
      exists d l,
        fst (get_knowledge_item env (ItemDict.id r) u w') = inr d
        /\ ItemDict.tags d = Some l
        /\ forall x, In x l <-> x = "a" \/ x = "b".
Proof.
  intros Hwf Htags. cbv zeta. split.
  - intros Htype. apply create_knowledge_item_succeeds; [exact Htype|].
    unfold requested_tags. rewrite Htags.
    intros n [<-|[<-|[]]]; discriminate.
  - intros r Hr.
    destruct (create_knowledge_item_tags env item_data u w r Hwf Hr)
      as (_ & Hl & chosen & Hall & _ & Hin).
    cbv zeta in *. unfold requested_tags in Hall. rewrite Htags in Hall.
    exists r. eexists. split; [apply create_then_get; assumption|].
    split; [exact Hl|].
    assert (Hshort : forall n, n = "a" \/ n = "b" -> kept_whole env n)
      by (intros n [-> | ->]; apply short_name_kept; simpl; lia).
    intros x. rewrite in_map_iff. split.
    + intros (t & <- & Ht). apply Hin in Ht.
      destruct (Forall2_chosen_r _ _ _ _ Hall Ht) as (n & Hn & Hc).
      assert (Hn' : n = "a" \/ n = "b")
        by (destruct Hn as [<-|[<-|[]]]; auto).
      rewrite (chosen_name env _ n t Hc (Hshort n Hn')). exact Hn'.
    + intros Hx.
      assert (Hn : In x ["a"; "b"]) by (destruct Hx as [-> | ->]; simpl; auto).
      destruct (Forall2_chosen_l _ _ _ _ Hall Hn) as (t & Ht & Hc).
      exists t. split; [apply (chosen_name env _ x t Hc (Hshort x Hx))|].
      apply Hin. exact Ht.
Qed.

(** ** A tag named twice (C10) *)

Lemma item_tags_none s i :
  Race.tags_of_item s i = [] -> item_tags s i = [].
Proof.
  intros H. destruct (item_tags s i) as [|t l] eqn:E; [reflexivity|].
  exfalso. assert (Hin : In (Tag.id t) (Race.tags_of_item s i)).
  { apply item_tags_ids. rewrite E. left. reflexivity. }
  rewrite H in Hin. exact Hin.
Qed.

(** the first pass over a name, for an item that has no tags yet: the
    collection holds the one row of the name afterwards *)
Lemma get_or_create_tag_first env uid i n w :
  String.length n <= 100 ->
  Race.tags_of_item (db w) i = [] ->
  List.length (Race.rows_of (db w) uid n) <= 1 ->
  let w' := snd (get_or_create_tag env uid i n Expired w) in
  exists t,
    fst (get_or_create_tag env uid i n Expired w)
    = inr (Loaded [] [Tag.id t])
    /\ Race.rows_of (db w') uid n = [t]
    /\ knowledge_item_tags (db w') = knowledge_item_tags (db w).
Proof.
  intros Hn Hnone Hone. cbv zeta.
  destruct (get_or_create_tag_tables env uid i n Expired w)
    as (_ & _ & _ & _ & _ & _ & H).
  cbv zeta in H. rewrite tag_by_name_rows in H.
  destruct (Race.rows_of (db w) uid n) as [|t [|t' l]] eqn:E;
    simpl in Hone; try lia; cbn [hd_error] in H.
  - (* no row yet *)
    destruct H as (_ & H). rewrite (short_name_stored env n Hn) in H.
    destruct H as (Ht & Hr & Hres). simpl in Hr. rewrite app_nil_r in Hr.
    exists (new_tag uid n w). rewrite Hres, Hr. split; [|split; [|reflexivity]].
    + rewrite item_tags_none; [reflexivity|].
      unfold Race.tags_of_item. rewrite Hr. exact Hnone.
    + unfold Race.rows_of in *. rewrite Ht, filter_app, E. simpl.
      rewrite String.eqb_refl, Nat.eqb_refl. reflexivity.
  - destruct H as (Hres & Hdb & _). exists t. rewrite Hres, Hdb.
    split; [|split; [exact E|reflexivity]].
    unfold append, access. rewrite item_tags_none by exact Hnone.
    reflexivity.
Qed.

(** a later pass over a name that has a row *)
Lemma get_or_create_tag_again env uid i n o a w t l :
  Race.rows_of (db w) uid n = t :: l ->
  get_or_create_tag env uid i n (Loaded o a) w
  = (inr (Loaded o (a ++ [Tag.id t])), snd (log (EvQuery TTags) w)).
Proof.
  intros E. unfold get_or_create_tag. unmonad. simpl.
  rewrite tag_by_name_rows, E. reflexivity.
Qed.

Lemma attach_same_name_twice env uid i n w :
  String.length n <= 100 ->
  Race.tags_of_item (db w) i = [] ->
  List.length (Race.rows_of (db w) uid n) <= 1 ->
  let A := attach_all env uid i [n; n] w in
  fst A = inr tt
  /\ exists t,
      Race.rows_of (db (snd A)) uid n = [t]
      /\ Race.tags_of_item (db (snd A)) i = [Tag.id t; Tag.id t].
Proof.
  intros Hn Hnone Hone. cbv zeta.
  pose proof (attach_all_run env uid i [n; n] w) as HA. cbv zeta in HA.
  destruct (get_or_create_tag_first env uid i n w Hn Hnone Hone)
    as (t & H1 & Hrows & Hr).
  cbv zeta in *. simpl for_each in HA.
  rewrite try_bind_run, H1 in HA.
  rewrite try_bind_run, (get_or_create_tag_again env uid i n [] _ _ t [])
    in HA by exact Hrows.
  cbn [fst snd ret] in HA.
  destruct HA as (Hok & Ht' & Hr' & _).
  split; [exact Hok|]. exists t. split.
  - unfold Race.rows_of in *. rewrite Ht'. exact Hrows.
  - unfold Race.tags_of_item in *. rewrite Hr'. cbn [log snd db].
    rewrite Hr, filter_app, map_app, Hnone. simpl.
    rewrite Nat.eqb_refl. reflexivity.
Qed.

Lemma two_members {A} (l : list A) (a b : A) :
  In a l -> In b l -> a <> b -> 2 <= List.length l.
Proof.
  destruct l as [|x [|y l]]; simpl; intros Ha Hb Hab.
  - contradiction.
  - destruct Ha as [<-|[]], Hb as [<-|[]]. contradiction.
  - lia.
Qed.

(** a completed creation never answers with a name twice when the user
    has a single row of that name *)
Lemma created_names_once env w u item_data r n l1 l2 l3 :
  wf w ->
  fst (create_knowledge_item env item_data u w) = inr r ->
  ItemDict.tags r = Some (l1 ++ n :: l2 ++ n :: l3) ->
  2 <= List.length
         (Race.rows_of (db (snd (create_knowledge_item env item_data u w)))
                       (User.id u) n).
Proof.
  intros Hwf Hr Htags.
  destruct (create_knowledge_item_tags env item_data u w r Hwf Hr)
    as (_ & Hl & chosen & Hall & Hin & Hch).
  cbv zeta in *. rewrite Hl in Htags. injection Htags as Htags.
  pose proof (item_tags_NoDup
                (db (snd (create_knowledge_item env item_data u w)))
                (uuid_supply w)) as Hnd.
  apply map_eq_app in Htags. destruct Htags as (La & Lb & EL & _ & Hb).
  apply map_eq_cons in Hb. destruct Hb as (t1 & Lb' & -> & Hn1 & Hb).
  apply map_eq_app in Hb. destruct Hb as (Lc & Ld & -> & _ & Hd).
  apply map_eq_cons in Hd. destruct Hd as (t2 & Le & -> & Hn2 & _).
  rewrite EL in Hnd.
  assert (Hne : t1 <> t2).
  { intros <-. rewrite map_app in Hnd. apply NoDup_app_remove_l in Hnd.
    simpl in Hnd. inversion Hnd as [|? ? Hnot _]. apply Hnot.
    rewrite map_app. apply in_or_app. right. left. reflexivity. }
  assert (Hmem : forall t, In t [t1; t2] ->
                 In t (Race.rows_of
                         (db (snd (create_knowledge_item env item_data u w)))
                         (User.id u) n)).
  { intros t Ht.
    assert (Hl' : In t (item_tags
                          (db (snd (create_knowledge_item env item_data u w)))
                          (uuid_supply w))).
    { rewrite EL. apply in_or_app. right.
      destruct Ht as [<-|[<-|[]]]; [left; reflexivity|].
      right. apply in_or_app. right. left. reflexivity. }
    apply Hch in Hl'.
    destruct (Forall2_chosen_r _ _ _ _ Hall Hl') as (m & _ & Hu & _).
    unfold Race.rows_of. apply filter_In. split; [apply Hin; exact Hl'|].
    rewrite Hu, Nat.eqb_refl, andb_true_r. apply String.eqb_eq.
    destruct Ht as [<-|[<-|[]]]; assumption. }
  apply (two_members _ t1 t2); [apply Hmem|apply Hmem|exact Hne]; simpl; auto.
Qed.

(** C10, as stated, fails: no completed creation answers with the same
    name twice in its tag list while the user has one Tag row of that
    name. *)
Lemma repeated_name_is_serialized_once :
  ~ (exists env w u item_data r n l1 l2 l3,
        wf w
        /\ fst (create_knowledge_item env item_data u w) = inr r
        /\ ItemDict.tags r = Some (l1 ++ n :: l2 ++ n :: l3)
        /\ List.length
             (Race.rows_of
                (db (snd (create_knowledge_item env item_data u w)))
                (User.id u) n) = 1).
Proof.
  intros (env & w & u & item_data & r & n & l1 & l2 & l3
          & Hwf & Hr & Htags & Hone).
  pose proof (created_names_once env w u item_data r n l1 l2 l3 Hwf Hr Htags).
  lia.
Qed.

(** C10, amended: when the request names the same tag twice, as in
    ["a", "a"], the loop appends the tag once per occurrence and nothing
    removes the repetition: the association rows of the item hold the
    id of the single Tag row of (user, "a") twice.  The serialized tag
    list is read from the reloaded collection and shows the name once,
    in the response and when the item is fetched. *)
Theorem repeated_tag_is_attached_twice (env : Env) (w : World) (u : User.t)
  (item_data : KnowledgeItemCreate.t) :
  wf w ->
  KnowledgeItemCreate.tags item_data = Some ["a"; "a"] ->
  List.length (Race.rows_of (db w) (User.id u) "a") <= 1 ->
  varchar env 50 (KnowledgeItemCreate.type item_data) <> None ->
  let w' := snd (create_knowledge_item env item_data u w) in
  exists r,
    fst (create_knowledge_item env item_data u w) = inr r
    /\ ItemDict.tags r = Some ["a"]
    /\ fst (get_knowledge_item env (ItemDict.id r) u w') = inr r
    /\ exists t,
        Race.rows_of (db w') (User.id u) "a" = [t]
        /\ Race.tags_of_item (db w') (ItemDict.id r) = [Tag.id t; Tag.id t].
Proof.
  intros Hwf Htags Hone Htype. cbv zeta.
  destruct (create_knowledge_item_succeeds env item_data u w Htype)
    as (r & Hr).
  { unfold requested_tags. rewrite Htags. intros n [<-|[<-|[]]]; discriminate. }
  exists r. split; [exact Hr|].
  destruct (create_knowledge_item_tags env item_data u w r Hwf Hr)
    as (Hid & Hl & chosen & Hall & Hin & Hch).
  cbv zeta in *.
  pose proof (create_knowledge_item_stages env item_data u w) as H.
  cbv zeta in H.
  destruct (varchar env 50 (KnowledgeItemCreate.type item_data)) as [kept|];
    [|contradiction].
  destruct H as (Hdb & _).
  unfold requested_tags in Hdb, Hall. rewrite Htags in Hdb, Hall.
  destruct (backfill_summary_frame env item_data w) as (Hdb1 & _ & Hs1 & _).
  match type of Hdb with
  | context [attach_all env ?a ?b ?names ?w0] =>
      destruct (attach_same_name_twice env a b "a" w0)
        as (_ & t & Hrows & Hassoc)
  end.
  { simpl. lia. }
  { cbn [committed db]. rewrite Hdb1.
    destruct (Race.tags_of_item {| users := _ |} _) as [|x l] eqn:E;
      [reflexivity|exfalso].
    assert (Hx : In x (Race.tags_of_item
                         {| users := users (db w);
                            knowledge_items := knowledge_items (db w) ++ _;
                            tags := tags (db w);
                            knowledge_item_tags := knowledge_item_tags (db w);
                            conversations := conversations (db w);
                            chat_messages := chat_messages (db w) |}
                         (uuid_supply w)))
      by (rewrite E; left; reflexivity).
    apply tags_of_item_In in Hx. simpl in Hx.
    destruct Hwf as (_ & _ & _ & Hrs). destruct (Hrs _ Hx) as [Hlt _].
    simpl in Hlt. lia. }
  { unfold Race.rows_of in *. cbn [committed db tags]. rewrite Hdb1.
    exact Hone. }
  cbv zeta in Hrows, Hassoc. rewrite <- Hdb in Hrows, Hassoc.
  split; [|split; [apply create_then_get; assumption|]].
  - rewrite Hl. f_equal.
    assert (Hfwd : forall x,
      In x (item_tags (db (snd (create_knowledge_item env item_data u w)))
                      (uuid_supply w)) -> x = t /\ Tag.name x = "a").
    { intros x Hx. apply Hch in Hx.
      destruct (Forall2_chosen_r _ _ _ _ Hall Hx) as (n & Hn & Hc).
      assert (Hname : Tag.name x = "a").
      { assert (n = "a") by (destruct Hn as [<-|[<-|[]]]; reflexivity).
        subst n. apply (chosen_name env _ _ _ Hc).
        apply short_name_kept. simpl. lia. }
      split; [|exact Hname].
      assert (Hrow : In x (Race.rows_of
                             (db (snd (create_knowledge_item env item_data
                                                             u w)))
                             (User.id u) "a")).
      { unfold Race.rows_of. apply filter_In.
        split; [apply Hin; exact Hx|].
        destruct Hc as (-> & _). rewrite Hname, Nat.eqb_refl. reflexivity. }
      rewrite Hrows in Hrow. destruct Hrow as [<-|[]]. reflexivity. }
    inversion Hall as [|n c1 ? ? _ _]; subst.
    assert (Hc1 : In c1 (item_tags
                           (db (snd (create_knowledge_item env item_data u w)))
                           (uuid_supply w)))
      by (apply Hch; left; reflexivity).
    destruct (Hfwd c1 Hc1) as [-> Hname].
    rewrite (singleton_by_id _ t).
    + simpl. rewrite Hname. reflexivity.
    + apply item_tags_NoDup.
    + intros x. split; [apply Hfwd|intros ->; exact Hc1].
  - exists t. rewrite Hid. split; assumption.
Qed.

(** ** The loop body and the sessions of the race

    The three round trips of a session, taken without interruption,
    leave the store as the loop and its commit do for a single name,
    on an item that has no tags yet. *)

Lemma run_alone_is_loop_body (env : Env) (th : Race.Session) (w : World) :
  Race.at_pc th = Race.AtQuery ->
  String.length (Race.tag_name th) <= 100 ->
  Race.tags_of_item (db w) (Race.item th) = [] ->
  db (snd (Race.run_alone th w))
  = db (snd (attach_all env (Race.user th) (Race.item th)
                        [Race.tag_name th] w))
  /\ Race.at_pc (fst (Race.run_alone th w)) = Race.Done.
Proof.
  destruct th as [u i n p]; cbn [Race.at_pc Race.user Race.item Race.tag_name].
  intros -> Hn Hnone.
  unfold Race.run_alone, Race.step, attach_all, for_each, try_bind,
    get_or_create_tag, raise, flush, bind, log, get_store,
    uuid4, now, add_tag, commit, append_tag, put_store, ret, Race.goto;
    simpl.
  rewrite (short_name_stored env n Hn).
  destruct (tag_by_name (db w) n u) as [t|]; simpl.
  - rewrite (item_tags_none _ _ Hnone). simpl. split; reflexivity.
  - rewrite item_tags_none.
    + simpl. rewrite app_nil_r. split; reflexivity.
    + unfold Race.tags_of_item in *. simpl. rewrite app_nil_r. exact Hnone.
Qed.

(** ** The invariant is kept *)

Lemma wf_ext w w' :
  wf w -> db w' = db w -> uuid_supply w' = uuid_supply w -> wf w'.
Proof. intros H Hdb Hs. apply (wf_supply w); auto. lia. Qed.

Lemma attach_all_wf env uid i names w :
  attached w i Expired [] -> wf (snd (attach_all env uid i names w)).
Proof.
  intros H. pose proof (attach_all_attached env uid i names w H) as HA.
  cbv zeta in HA. destruct (fst (attach_all env uid i names w)).
  - exact HA.
  - destruct HA as (chosen & Hatt & _). apply Hatt.
Qed.

Lemma wf_after_create env item_data u w :
  wf w -> wf (snd (create_knowledge_item env item_data u w)).
Proof.
  intros Hwf.
  pose proof (create_knowledge_item_stages env item_data u w) as H.
  cbv zeta in H.
  destruct (backfill_summary_frame env item_data w) as (Hdb1 & _ & Hs1 & _).
  destruct (varchar env 50 (KnowledgeItemCreate.type item_data)).
  - destruct H as (Hdb & Hs & _).
    eapply wf_ext; [|exact Hdb|exact Hs].
    apply attach_all_wf. apply (committed_attached w); auto.
  - rewrite H. cbn [snd uuid4].
    apply (wf_supply w); auto. simpl. lia.
Qed.

Lemma wf_after_upload env file u w :
  wf w -> wf (snd (upload_file env file u w)).
Proof.
  intros Hwf.
  pose proof (upload_file_stages env file u w) as H. cbv zeta in H.
  destruct (opens env (uuid_supply w) file).
  - destruct H as (-> & _).
    destruct (analyse_upload_frame env file (read_text env file)
                (stored env file w)) as (Hdb & _ & Hs & _).
    apply attach_all_wf.
    apply (committed_attached (stored env file w)); auto.
    apply (wf_supply w); auto. simpl. lia.
  - rewrite H. cbn [snd uuid4]. apply (wf_supply w); auto. simpl. lia.
Qed.


(** ** The properties on the sample inputs *)

Ltac wf_of_empty_tables :=
  unfold wf; simpl;
  split; [constructor|split; [intros ? []|split; intros ? []]].

Lemma wf_fresh_world : wf Sample.fresh_world.
Proof. wf_of_empty_tables. Qed.

Lemma created_item_is_processed_witness :
  exists r,
    fst (upload_file Sample.env_raising Sample.text_file Sample.alice
                     Sample.fresh_world) = inr r
    /\ ItemDict.isProcessed r = true.
Proof.
  destruct (fst (upload_file Sample.env_raising Sample.text_file
                             Sample.alice Sample.fresh_world))
    as [e|r] eqn:E.
  - vm_compute in E. discriminate E.
  - exists r. split; [reflexivity|].
    exact (proj1 (proj1 (created_item_is_processed Sample.env_raising
                           Sample.alice Sample.fresh_world)
                        Sample.text_file r E)).
Defined.

Lemma failed_enrichment_falls_back_witness :
  wf Sample.fresh_world
  /\ enrichment_fails Sample.env_raising Sample.fresh_world
       (process_prompt Sample.text_file
          (read_text Sample.env_raising Sample.text_file)) = true
  /\ opens Sample.env_raising (uuid_supply Sample.fresh_world)
           Sample.text_file = true
  /\ exists r,
      fst (upload_file Sample.env_raising Sample.text_file Sample.alice
                       Sample.fresh_world) = inr r
      /\ ItemDict.title r = "a.txt"
      /\ ItemDict.tags r = Some ["uploaded"].
Proof.
  assert (Hwf : wf Sample.fresh_world).
  { wf_of_empty_tables. }
  split; [exact Hwf|]. split; [reflexivity|]. split; [reflexivity|].
  destruct (failed_enrichment_falls_back Sample.env_raising Sample.alice
              Sample.fresh_world Sample.text_file Hwf eq_refl eq_refl)
    as (r & Hr & Ht & _ & Htags & _).
  exists r. split; [exact Hr|]. split; [exact Ht|exact Htags].
Defined.

Lemma sources_are_own_items_at_most_five_witness :
  ChatRequest.use_knowledge_base (Sample.question true) = true
  /\ List.length
       (ChatResponse.sources
          (fst (chat Sample.env_answering (Sample.question true)
                     Sample.alice Sample.small_world))) <= 5.
Proof.
  split; [reflexivity|].
  apply (sources_are_own_items_at_most_five Sample.env_answering
           Sample.small_world Sample.alice (Sample.question true)).
  reflexivity.
Defined.

Lemma chat_without_knowledge_base_witness :
  ChatRequest.use_knowledge_base (Sample.question false) = false
  /\ ChatResponse.sources
       (fst (chat Sample.env_answering (Sample.question false)
                  Sample.alice Sample.small_world)) = [].
Proof.
  split; [reflexivity|].
  apply (chat_without_knowledge_base Sample.env_answering
           Sample.small_world Sample.alice (Sample.question false)).
  reflexivity.
Defined.

Lemma created_tags_round_trip_witness :
  exists r d l,
    fst (create_knowledge_item Sample.env_answering
           (Sample.note_request ["a"; "b"]) Sample.alice
           Sample.fresh_world) = inr r
    /\ fst (get_knowledge_item Sample.env_answering (ItemDict.id r)
              Sample.alice
              (snd (create_knowledge_item Sample.env_answering
                      (Sample.note_request ["a"; "b"]) Sample.alice
                      Sample.fresh_world))) = inr d
    /\ ItemDict.tags d = Some l
    /\ forall x, In x l <-> x = "a" \/ x = "b".
Proof.
  assert (Hwf : wf Sample.fresh_world).
  { wf_of_empty_tables. }
  destruct (created_tags_round_trip Sample.env_answering Sample.fresh_world
              Sample.alice (Sample.note_request ["a"; "b"]) Hwf eq_refl)
    as [Hcompletes Hround].
  destruct Hcompletes as (r & Hr); [simpl; discriminate|].
  destruct (Hround r Hr) as (d & l & Hd & Hl & Hmem).
  exists r, d, l. split; [exact Hr|]. split; [exact Hd|].
  split; [exact Hl|exact Hmem].
Defined.

Lemma repeated_tag_is_attached_twice_witness :
  exists r,
    fst (create_knowledge_item Sample.env_answering
           (Sample.note_request ["a"; "a"]) Sample.alice
           Sample.fresh_world) = inr r
    /\ ItemDict.tags r = Some ["a"]
    /\ exists t,
        Race.rows_of
          (db (snd (create_knowledge_item Sample.env_answering
                      (Sample.note_request ["a"; "a"]) Sample.alice
                      Sample.fresh_world))) 1 "a" = [t]
        /\ Race.tags_of_item
             (db (snd (create_knowledge_item Sample.env_answering
                         (Sample.note_request ["a"; "a"]) Sample.alice
                         Sample.fresh_world)))
             (ItemDict.id r)
           = [Tag.id t; Tag.id t].
Proof.
  assert (Hwf : wf Sample.fresh_world).
  { wf_of_empty_tables. }
  destruct (repeated_tag_is_attached_twice Sample.env_answering
              Sample.fresh_world Sample.alice
              (Sample.note_request ["a"; "a"]) Hwf eq_refl)
    as (r & Hr & Htags & _ & Hrows).
  - simpl. lia.
  - simpl. discriminate.
  - exists r. split; [exact Hr|]. split; [exact Htags|exact Hrows].
Defined.

(** the same runs, evaluated *)

Example upload_with_raising_agents :
  shown (fst (upload_file Sample.env_raising Sample.text_file Sample.alice
                          Sample.fresh_world))
  = inr ("a.txt", Some "File uploaded successfully", Some ["uploaded"], true).
Proof. vm_compute. reflexivity. Qed.

Example upload_with_answering_agents :
  shown (fst (upload_file Sample.env_answering Sample.text_file
                          Sample.alice Sample.fresh_world))
  = inr ("Notes", Some "short", Some ["x"; "y"], true).
Proof. vm_compute. reflexivity. Qed.

(** a name with a directory in it: the directory does not exist, the
    file cannot be opened, nothing is stored and no agent is called *)
Example upload_into_a_missing_directory :
  upload_file Sample.env_raising Sample.nested_file Sample.alice
              Sample.fresh_world
  = (inl (OSError "/tmp/uploads/3_sub/a.txt"), snd (uuid4 Sample.fresh_world)).
Proof. vm_compute. reflexivity. Qed.

(** a name that ends in a slash is a single part *)
Example upload_path_of_a_trailing_slash :
  upload_path Sample.env_raising 3 (UploadFile.mk "a/" None []) 
  = "/tmp/uploads/3_a".
Proof. vm_compute. reflexivity. Qed.

(** the same name twice, and the same name around a new one *)
Example create_with_a_repeated_tag :
  let r := create_knowledge_item Sample.env_answering
             (Sample.note_request ["a"; "a"]) Sample.alice
             Sample.fresh_world in
  (shown (fst r), knowledge_item_tags (db (snd r)))
  = (inr ("note", Some "short", Some ["a"], true), [(3, 4); (3, 4)]).
Proof. vm_compute. reflexivity. Qed.

Example create_with_a_tag_around_a_new_one :
  let r := create_knowledge_item Sample.env_answering
             (Sample.note_request ["a"; "b"; "a"]) Sample.alice
             Sample.fresh_world in
  (shown (fst r), knowledge_item_tags (db (snd r)))
  = (inr ("note", Some "short", Some ["a"; "b"], true), [(3, 4); (3, 5)]).
Proof. vm_compute. reflexivity. Qed.

(** a tag name of 101 characters: PostgreSQL refuses the row, the item
    that was committed before stays, without tags *)
Example create_with_a_long_tag :
  let r := create_knowledge_item Sample.env_answering
             (Sample.note_request ["a"; Sample.long_name]) Sample.alice
             Sample.fresh_world in
  (shown (fst r), map KnowledgeItem.id (knowledge_items (db (snd r))),
   map Tag.name (tags (db (snd r))), knowledge_item_tags (db (snd r)))
  = (inl (DataError Sample.long_name), [3], ["a"], []).
Proof. vm_compute. reflexivity. Qed.

(** a name that fills the column, and the same name with a space after
    it: PostgreSQL cuts the second to the first, and the user has two
    Tag rows of one name *)
Example create_with_a_padded_tag :
  let full := Py.take 100 Sample.long_name in
  let r := create_knowledge_item Sample.env_answering
             (Sample.note_request [full; (full ++ " ")%string]) Sample.alice
             Sample.fresh_world in
  (map (fun t => (Tag.id t, String.eqb (Tag.name t) full)) (tags (db (snd r))),
   knowledge_item_tags (db (snd r)))
  = ([(4, true); (5, true)], [(3, 4); (3, 5)]).
Proof. vm_compute. reflexivity. Qed.

Example chat_sources_of_alice :
  map Source.id
      (ChatResponse.sources
         (fst (chat Sample.env_answering (Sample.question true)
                    Sample.alice Sample.small_world)))
  = [3].
Proof. vm_compute. reflexivity. Qed.

Example chat_trace_with_knowledge_base :
  map (fun e => match e with EvRun a _ => EvRun a "" | _ => e end)
      (trace (snd (chat Sample.env_answering (Sample.question true)
                        Sample.alice Sample.small_world)))
  = [EvCommit TConversations 6; EvRefresh TConversations 6;
     EvCommit TChatMessages 7; EvQuery TKnowledgeItems;
     EvRun "ConversationAgent" ""; EvCommit TChatMessages 8].
Proof. vm_compute. reflexivity. Qed.

Example wf_after_two_requests :
  wf (snd (upload_file Sample.env_answering Sample.text_file Sample.bob
             (snd (create_knowledge_item Sample.env_raising
                     (Sample.note_request ["x"; "x"]) Sample.alice
                     Sample.fresh_world)))).
Proof. apply wf_after_upload, wf_after_create, wf_fresh_world. Qed.


(** * More properties: listings, conversations, login, tables *)

(** ** ORDER BY *)

Lemma insert_by_perm {A} (before : A -> A -> bool) (x : A) (l : list A) :
  Permutation (x :: l) (insert_by before x l).
Proof.
  induction l as [|y l IH]; simpl; [apply Permutation_refl|].
  destruct (before x y); [apply Permutation_refl|].
  eapply Permutation_trans; [apply perm_swap|].
  apply perm_skip. exact IH.
Qed.

Lemma order_by_perm {A} (before : A -> A -> bool) (l : list A) :
  Permutation l (order_by before l).
Proof.
  induction l as [|x l IH]; simpl; [apply Permutation_refl|].
  eapply Permutation_trans; [|apply insert_by_perm].
  apply perm_skip. exact IH.
Qed.

Lemma order_by_In {A} (before : A -> A -> bool) (l : list A) (x : A) :
  In x (order_by before l) <-> In x l.
Proof.
  split; intros H.
  - eapply Permutation_in; [apply Permutation_sym, order_by_perm|exact H].
  - eapply Permutation_in; [apply order_by_perm|exact H].
Qed.

Lemma order_by_length {A} (before : A -> A -> bool) (l : list A) :
  List.length (order_by before l) = List.length l.
Proof. symmetry. apply Permutation_length, order_by_perm. Qed.

Lemma insert_desc_sorted {A} (key : A -> nat) (x : A) (l : list A) :
  newest_first key l -> newest_first key (insert_by (desc key) x l).
Proof.
  unfold newest_first. induction l as [|y l IH]; simpl; intros Hs.
  - constructor; constructor.
  - inversion Hs as [|? ? Hl Hy]; subst. unfold desc at 1.
    destruct (Nat.leb_spec (key y) (key x)) as [Hle|Hgt].
    + constructor; [exact Hs|]. constructor; [exact Hle|].
      rewrite Forall_forall in *. intros z Hz. specialize (Hy z Hz). lia.
    + constructor; [apply IH; exact Hl|].
      rewrite Forall_forall in *. intros z Hz.
      apply (Permutation_in _ (Permutation_sym (insert_by_perm _ x l))) in Hz.
      destruct Hz as [<-|Hz]; [lia|apply Hy; exact Hz].
Qed.

Lemma order_by_desc_sorted {A} (key : A -> nat) (l : list A) :
  newest_first key (order_by (desc key) l).
Proof.
  induction l as [|x l IH]; simpl; [constructor|].
  apply insert_desc_sorted. exact IH.
Qed.

Lemma newest_first_skipn {A} (key : A -> nat) (n : nat) (l : list A) :
  newest_first key l -> newest_first key (skipn n l).
Proof.
  revert l. induction n as [|n IH]; intros l Hs; simpl; [exact Hs|].
  destruct l as [|x l]; [constructor|].
  inversion Hs; subst. apply IH. assumption.
Qed.

Lemma newest_first_firstn {A} (key : A -> nat) (n : nat) (l : list A) :
  newest_first key l -> newest_first key (firstn n l).
Proof.
  revert l. induction n as [|n IH]; intros l Hs; simpl; [constructor|].
  destruct l as [|x l]; [constructor|].
  inversion Hs as [|? ? Hl Hx]; subst. constructor; [apply IH; exact Hl|].
  rewrite Forall_forall in *. intros z Hz. apply Hx.
  apply (firstn_subset n). exact Hz.
Qed.

Lemma newest_first_map {A B} (f : A -> B) (ka : A -> nat) (kb : B -> nat)
  (l : list A) :
  (forall a, kb (f a) = ka a) ->
  newest_first ka l -> newest_first kb (map f l).
Proof.
  intros Hk. unfold newest_first. induction 1 as [|x l Hl IH Hx]; simpl.
  - constructor.
  - constructor; [exact IH|]. rewrite Forall_forall in *.
    intros b Hb. apply in_map_iff in Hb. destruct Hb as (a & <- & Ha).
    rewrite !Hk. apply Hx. exact Ha.
Qed.

Lemma firstn_firstn_skipn {A} (a b : nat) (l : list A) :
  firstn a l ++ firstn b (skipn a l) = firstn (a + b) l.
Proof.
  revert l. induction a as [|a IH]; intros l; simpl; [reflexivity|].
  destruct l as [|x l]; simpl.
  - rewrite firstn_nil. reflexivity.
  - f_equal. apply IH.
Qed.

Lemma skipn_skipn_add {A} (a b : nat) (l : list A) :
  skipn a (skipn b l) = skipn (b + a) l.
Proof.
  revert l. induction b as [|b IH]; intros l; simpl; [reflexivity|].
  destruct l as [|x l]; simpl; [apply skipn_nil|apply IH].
Qed.

(** ** Listing the knowledge items *)

Lemma get_knowledge_items_run env limit offset u w :
  get_knowledge_items env limit offset u w
  = (map (fun item => serialize_knowledge_item (db w) item true)
         (page_of_items (db w) (User.id u) limit offset),
     snd (log (EvQuery TKnowledgeItems) w)).
Proof. reflexivity. Qed.

Lemma page_of_items_sound s uid limit offset it :
  In it (page_of_items s uid limit offset) ->
  In it (knowledge_items s) /\ KnowledgeItem.user_id it = uid.
Proof.
  unfold page_of_items. intros H.
  apply firstn_subset in H.
  assert (H' : In it (order_by (desc KnowledgeItem.created_at)
                        (filter (fun it0 => Nat.eqb (KnowledgeItem.user_id it0) uid)
                                (knowledge_items s)))).
  { rewrite <- (firstn_skipn offset). apply in_or_app. right. exact H. }
  apply order_by_In, filter_In in H'. destruct H' as [Hin Hu].
  apply Nat.eqb_eq in Hu. auto.
Qed.

(** X1: the listing shows only the caller's items, at most [limit] of
    them, newest first. *)
Theorem listing_is_own_bounded_newest_first (env : Env) (w : World)
  (u : User.t) (limit offset : nat) :
  let l := fst (get_knowledge_items env limit offset u w) in
  List.length l <= limit
  /\ (forall d, In d l ->
        exists it, In it (knowledge_items (db w))
                   /\ KnowledgeItem.user_id it = User.id u
                   /\ d = serialize_knowledge_item (db w) it true)
  /\ newest_first ItemDict.createdAt l.
Proof.
  cbv zeta. rewrite get_knowledge_items_run. cbn [fst].
  split; [|split].
  - rewrite length_map. unfold page_of_items. apply firstn_le_length.
  - intros d Hd. apply in_map_iff in Hd. destruct Hd as (it & <- & Hit).
    apply page_of_items_sound in Hit. destruct Hit as [Hin Hu].
    exists it. auto.
  - apply (newest_first_map _ KnowledgeItem.created_at); [reflexivity|].
    unfold page_of_items.
    apply newest_first_firstn, newest_first_skipn, order_by_desc_sorted.
Qed.

Lemma same_key_same_row {A} (key : A -> nat) (l : list A) (a b : A) :
  NoDup (map key l) -> In a l -> In b l -> key a = key b -> a = b.
Proof.
  induction l as [|x l IH]; simpl; intros Hnd Ha Hb E; [contradiction|].
  inversion Hnd as [|? ? Hnotin Hnd']; subst.
  destruct Ha as [->|Ha], Hb as [->|Hb]; auto.
  - exfalso. apply Hnotin. rewrite E. apply in_map. exact Hb.
  - exfalso. apply Hnotin. rewrite <- E. apply in_map. exact Ha.
Qed.

(** rows with different keys have one newest-first arrangement *)
Lemma newest_first_unique {A} (key : A -> nat) (l1 : list A) :
  forall l2,
    Permutation l1 l2 -> NoDup (map key l1) ->
    newest_first key l1 -> newest_first key l2 -> l1 = l2.
Proof.
  unfold newest_first.
  induction l1 as [|x l1 IH]; intros l2 Hp Hnd H1 H2.
  - apply Permutation_nil in Hp. symmetry. exact Hp.
  - destruct l2 as [|y l2];
      [apply Permutation_sym, Permutation_nil in Hp; discriminate|].
    inversion H1 as [|? ? Hs1 Hx]; subst.
    inversion H2 as [|? ? Hs2 Hy]; subst.
    rewrite Forall_forall in Hx, Hy.
    assert (Hyin : In y (x :: l1))
      by (apply (Permutation_in _ (Permutation_sym Hp)); left; reflexivity).
    assert (Hxin : In x (y :: l2))
      by (apply (Permutation_in _ Hp); left; reflexivity).
    assert (E : x = y).
    { apply (same_key_same_row key (x :: l1)); auto; [left; reflexivity|].
      apply Nat.le_antisymm.
      - destruct Hxin as [->|Hxin]; [lia|apply Hy; exact Hxin].
      - destruct Hyin as [->|Hyin]; [lia|apply Hx; exact Hyin]. }
    subst y. f_equal. apply IH; auto.
    + apply (Permutation_cons_inv Hp).
    + inversion Hnd; assumption.
Qed.

Lemma page_of_items_may_list s uid limit offset :
  may_list s uid limit offset (page_of_items s uid limit offset).
Proof.
  eexists. split; [apply Permutation_sym, order_by_perm|].
  split; [apply order_by_desc_sorted|reflexivity].
Qed.

(** X2: when no two items of the caller were created at the same time,
    two consecutive pages are the page of their joint size, whatever
    the database answers; the answer of [get_knowledge_items] is one
    of the answers it may give, and the request leaves the store as it
    is. *)
Theorem pages_compose (env : Env) (w : World) (u : User.t)
  (limit1 limit2 offset : nat) :
  distinct_times (db w) (User.id u) ->
  (forall l1 l2 l12,
      may_answer (db w) (User.id u) limit1 offset l1 ->
      may_answer (db w) (User.id u) limit2 (offset + limit1) l2 ->
      may_answer (db w) (User.id u) (limit1 + limit2) offset l12 ->
      l1 ++ l2 = l12)
  /\ forall limit offset,
      may_answer (db w) (User.id u) limit offset
                 (fst (get_knowledge_items env limit offset u w))
      /\ db (snd (get_knowledge_items env limit offset u w)) = db w.
Proof.
  intros Hdistinct. split.
  - intros l1 l2 l12 (p1 & (a1 & Hp1 & Hs1 & ->) & ->)
                      (p2 & (a2 & Hp2 & Hs2 & ->) & ->)
                      (p12 & (a12 & Hp12 & Hs12 & ->) & ->).
    assert (Hnd : NoDup (map KnowledgeItem.created_at a1)).
    { apply (Permutation_NoDup
               (Permutation_map _ (Permutation_sym Hp1))). exact Hdistinct. }
    assert (E2 : a1 = a2).
    { apply (newest_first_unique KnowledgeItem.created_at); auto.
      eapply Permutation_trans; [exact Hp1|apply Permutation_sym, Hp2]. }
    assert (E12 : a1 = a12).
    { apply (newest_first_unique KnowledgeItem.created_at); auto.
      eapply Permutation_trans; [exact Hp1|apply Permutation_sym, Hp12]. }
    subst a2 a12. rewrite <- map_app. f_equal.
    rewrite <- skipn_skipn_add. apply firstn_firstn_skipn.
  - intros limit offset'. rewrite get_knowledge_items_run. cbn [fst].
    split; [|reflexivity].
    eexists. split; [apply page_of_items_may_list|reflexivity].
Qed.

(** X3: with no offset and room for every row, the listing is exactly
    the caller's items. *)
Theorem full_listing_is_complete (env : Env) (w : World) (u : User.t)
  (limit : nat) (d : ItemDict.t) :
  List.length (knowledge_items (db w)) <= limit ->
  (In d (fst (get_knowledge_items env limit 0 u w))
   <-> exists it, In it (knowledge_items (db w))
                  /\ KnowledgeItem.user_id it = User.id u
                  /\ d = serialize_knowledge_item (db w) it true).
Proof.
  intros Hlimit. rewrite get_knowledge_items_run. cbn [fst].
  rewrite in_map_iff. unfold page_of_items. rewrite skipn_O.
  rewrite firstn_all2.
  - split.
    + intros (it & <- & Hit). apply order_by_In, filter_In in Hit.
      destruct Hit as [Hin Hu]. apply Nat.eqb_eq in Hu. exists it. auto.
    + intros (it & Hin & Hu & ->). exists it. split; [reflexivity|].
      apply order_by_In, filter_In. split; [exact Hin|].
      apply Nat.eqb_eq. exact Hu.
  - rewrite order_by_length.
    eapply Nat.le_trans; [apply filter_length_le|exact Hlimit].
Qed.

(** ** Conversations *)

Lemma resolve_conversation_result env req u w :
  let cid := fst (resolve_conversation env req u w) in
  let w1 := snd (resolve_conversation env req u w) in
  match named_conversation req u w with
  | Some c => cid = Conversation.id c
              /\ conversations (db w1) = conversations (db w)
  | None => cid = uuid_supply w
            /\ conversations (db w1)
               = conversations (db w) ++ [opened_conversation env u w]
  end.
Proof.
  unfold named_conversation, resolve_conversation. unmonad.
  destruct (ChatRequest.conversation_id req) as [cid|]; simpl.
  - destruct (conversation_by_id (db w) cid (User.id u)); simpl; auto.
  - auto.
Qed.

Lemma chat_turns (env : Env) (w : World) (u : User.t) (req : ChatRequest.t) :
  let r := fst (chat env req u w) in
  let w' := snd (chat env req u w) in
  let cid := fst (resolve_conversation env req u w) in
  let w1 := snd (resolve_conversation env req u w) in
  exists um am,
    chat_messages (db w') = chat_messages (db w) ++ [um; am]
    /\ ChatResponse.conversation_id r = cid
    /\ conversations (db w') = conversations (db w1)
    /\ users (db w') = users (db w1)
    /\ ChatMessage.conversation_id um = cid
    /\ ChatMessage.conversation_id am = cid
    /\ ChatMessage.role um = "user"
    /\ ChatMessage.content um = ChatRequest.message req
    /\ ChatMessage.role am = "assistant"
    /\ ChatMessage.content am = ChatResponse.message r
    /\ ChatMessage.message_metadata am
       = Some (ChatResponse.sources r, "ConversationAgent")
    /\ clock w <= ChatMessage.created_at um
    /\ ChatMessage.created_at um < ChatMessage.created_at am.
Proof.
  cbv zeta. unfold chat.
  rewrite bind_run.
  destruct (resolve_conversation_effect env req u w)
    as (pre & Ht1 & Hpre & Hm1 & _ & Hc1).
  destruct (resolve_conversation env req u w) as [cid w1].
  cbn [fst snd] in *.
  do 6 (rewrite bind_run; cbn [fst snd]).
  match goal with
  | |- context [retrieve env req u ?w2] =>
      destruct (retrieve_effect env req u w2) as (Hd2 & Hc2 & Hs2 & Ht2);
      destruct (retrieve env req u w2) as [[srcs ctx] w3]
  end.
  cbn [fst snd] in *.
  rewrite bind_run.
  match goal with
  | |- context [generate env ?p w3] =>
      destruct (generate_effect env p w3)
        as (Hd3 & Hc3 & Hs3 & evg & Ht3 & Hg);
      destruct (generate env p w3) as [text w4]
  end.
  cbn [fst snd] in *.
  unmonad. simpl in *.
  do 2 eexists.
  rewrite Hd3, Hd2, Hc3, Hc2, Hm1. simpl.
  rewrite <- !app_assoc. simpl.
  split; [reflexivity|]. simpl.
  repeat (split; [first [reflexivity | lia]|]). lia.
Qed.

Lemma chat_conversation_owned (env : Env) (w : World)
  (u : User.t) (req : ChatRequest.t) :
  let r := fst (chat env req u w) in
  let w' := snd (chat env req u w) in
  exists c,
    In c (conversations (db w'))
    /\ Conversation.id c = ChatResponse.conversation_id r
    /\ Conversation.user_id c = User.id u.
Proof.
  cbv zeta.
  destruct (chat_turns env w u req) as (um & am & _ & Hcid & Hconv & _).
  rewrite Hcid, Hconv.
  pose proof (resolve_conversation_result env req u w) as Hres.
  cbv zeta in Hres.
  destruct (named_conversation req u w) as [c|] eqn:Hn.
  - destruct Hres as [-> ->]. exists c.
    unfold named_conversation in Hn.
    destruct (ChatRequest.conversation_id req) as [cid|]; [|discriminate].
    unfold conversation_by_id in Hn. apply find_some in Hn.
    destruct Hn as [Hin Hf]. apply andb_true_iff in Hf.
    destruct Hf as [_ Hu]. apply Nat.eqb_eq in Hu. auto.
  - destruct Hres as [-> ->]. exists (opened_conversation env u w).
    split; [apply in_or_app; right; left; reflexivity|]. split; reflexivity.
Qed.

(** X5: the conversation a chat request answers in is one of the
    caller's, whatever id the request carries. *)
Theorem chat_answers_in_own_conversation (env : Env) (w : World)
  (u : User.t) (req : ChatRequest.t) :
  let r := fst (chat env req u w) in
  let w' := snd (chat env req u w) in
  exists c,
    In c (conversations (db w'))
    /\ Conversation.id c = ChatResponse.conversation_id r
    /\ Conversation.user_id c = User.id u.
Proof. exact (chat_conversation_owned env w u req). Qed.

(** X6: an id that names no conversation of the caller (unknown, or
    somebody else's) is not reused: a new conversation of the caller is
    opened, the others stay as they are, and both turns go to the new
    one. *)
Theorem foreign_conversation_is_not_reused (env : Env) (w : World)
  (u : User.t) (req : ChatRequest.t) :
  (forall c, In c (conversations (db w)) ->
             Some (Conversation.id c) = ChatRequest.conversation_id req ->
             Conversation.user_id c <> User.id u) ->
  let r := fst (chat env req u w) in
  let w' := snd (chat env req u w) in
  ChatResponse.conversation_id r = uuid_supply w
  /\ conversations (db w')
     = conversations (db w) ++ [opened_conversation env u w]
  /\ exists um am,
      chat_messages (db w') = chat_messages (db w) ++ [um; am]
      /\ ChatMessage.conversation_id um = uuid_supply w
      /\ ChatMessage.conversation_id am = uuid_supply w.
Proof.
  intros Hforeign. cbv zeta.
  destruct (chat_turns env w u req)
    as (um & am & Hm & Hcid & Hconv & _ & Hu & Ha & _).
  pose proof (resolve_conversation_result env req u w) as Hres.
  cbv zeta in Hres.
  assert (Hn : named_conversation req u w = None).
  { unfold named_conversation.
    destruct (ChatRequest.conversation_id req) as [cid|] eqn:E;
      [|reflexivity].
    unfold conversation_by_id. apply find_all_false. intros c Hc.
    destruct (Nat.eqb_spec (Conversation.id c) cid) as [Hid|]; [|reflexivity].
    destruct (Nat.eqb_spec (Conversation.user_id c) (User.id u)) as [Hown|];
      [|reflexivity].
    exfalso. apply (Hforeign c Hc); [rewrite Hid; reflexivity|exact Hown]. }
  rewrite Hn in Hres. destruct Hres as [Hc Hcs].
  rewrite Hcid, Hconv, Hc, Hcs. split; [reflexivity|]. split; [reflexivity|].
  exists um, am. rewrite <- Hc. auto.
Qed.

(** X7: answering in an existing conversation of the caller leaves the
    conversation table untouched, [updated_at] included. *)
Theorem reused_conversation_is_not_updated (env : Env) (w : World)
  (u : User.t) (req : ChatRequest.t) (c : Conversation.t) :
  named_conversation req u w = Some c ->
  let r := fst (chat env req u w) in
  let w' := snd (chat env req u w) in
  ChatResponse.conversation_id r = Conversation.id c
  /\ conversations (db w') = conversations (db w).
Proof.
  intros Hn. cbv zeta.
  destruct (chat_turns env w u req) as (um & am & _ & Hcid & Hconv & _).
  pose proof (resolve_conversation_result env req u w) as Hres.
  cbv zeta in Hres. rewrite Hn in Hres. destruct Hres as [Hc Hcs].
  rewrite Hcid, Hconv. auto.
Qed.

(** ** Reading a conversation back *)

Lemma insert_by_app {A} (before : A -> A -> bool) (y x : A) (s tail : list A) :
  before y x = true ->
  insert_by before y (s ++ x :: tail) = insert_by before y s ++ x :: tail.
Proof.
  intros Hyx. induction s as [|z s IH]; simpl.
  - rewrite Hyx. reflexivity.
  - destruct (before y z); [reflexivity|]. rewrite IH. reflexivity.
Qed.

Lemma order_by_app_late {A} (before : A -> A -> bool) (l late : list A) :
  order_by before late = late ->
  (forall y x, In y l -> In x late -> before y x = true) ->
  order_by before (l ++ late) = order_by before l ++ late.
Proof.
  intros Hlate Hb. unfold order_by. rewrite fold_right_app.
  fold (order_by before late). rewrite Hlate.
  destruct late as [|x tail].
  - rewrite app_nil_r. reflexivity.
  - induction l as [|y l IH]; simpl; [reflexivity|].
    rewrite IH by (intros; apply Hb; [right|]; assumption).
    apply insert_by_app. apply Hb; left; reflexivity.
Qed.

Lemma get_conversation_messages_found env cid u w c :
  conversation_by_id (db w) cid (User.id u) = Some c ->
  fst (get_conversation_messages env cid u w)
  = inr (map serialize_chat_message
             (order_by (asc ChatMessage.created_at)
                       (conversation_messages (db w) cid))).
Proof.
  intros Hc. unfold get_conversation_messages.
  rewrite bind_run. cbn [fst snd]. rewrite bind_run.
  unfold get_store, log. cbn [fst snd db]. rewrite Hc.
  rewrite bind_run. reflexivity.
Qed.

(** X8: asked for the conversation it has just answered in, the history
    is what it was before followed by the two new turns, the user's and
    then the assistant's with the text of the response. *)
Theorem history_ends_with_the_new_turns (env : Env) (w : World) (u : User.t)
  (req : ChatRequest.t) :
  messages_in_the_past w ->
  let r := fst (chat env req u w) in
  let w' := snd (chat env req u w) in
  let cid := ChatResponse.conversation_id r in
  exists um am,
    fst (get_conversation_messages env cid u w')
    = inr (map serialize_chat_message
               (order_by (asc ChatMessage.created_at)
                         (conversation_messages (db w) cid))
           ++ [um; am])
    /\ MessageDict.role um = "user"
    /\ MessageDict.content um = ChatRequest.message req
    /\ MessageDict.role am = "assistant"
    /\ MessageDict.content am = ChatResponse.message r
    /\ MessageDict.metadata am
       = Some (ChatResponse.sources r, "ConversationAgent").
Proof.
  intros Hpast. cbv zeta.
  destruct (chat_conversation_owned env w u req)
    as (c & Hc & Hcid & Hown).
  destruct (chat_turns env w u req)
    as (um & am & Hm & Hr & _ & _ & Hum & Ham & Hru & Hcu & Hra & Hca & Hmeta
        & Ht1 & Ht2).
  set (r := fst (chat env req u w)) in *.
  set (w' := snd (chat env req u w)) in *.
  set (cid := ChatResponse.conversation_id r) in *.
  assert (Hfound : exists c', conversation_by_id (db w') cid (User.id u)
                              = Some c').
  { unfold conversation_by_id.
    destruct (find _ (conversations (db w'))) as [c'|] eqn:E;
      [exists c'; reflexivity|].
    exfalso. apply (find_none _ _ E) in Hc.
    rewrite Hcid, Hown, !Nat.eqb_refl in Hc. discriminate. }
  destruct Hfound as [c' Hc'].
  rewrite (get_conversation_messages_found env cid u w' c' Hc').
  exists (serialize_chat_message um), (serialize_chat_message am).
  split; [|repeat split; assumption].
  f_equal. unfold conversation_messages. rewrite Hm, filter_app. simpl.
  rewrite Hum, Ham, <- Hr. fold cid. rewrite Nat.eqb_refl.
  rewrite order_by_app_late.
  - rewrite map_app. reflexivity.
  - simpl. unfold asc.
    destruct (Nat.leb_spec (ChatMessage.created_at um)
                (ChatMessage.created_at am)); [reflexivity|lia].
  - intros y x Hy Hx. apply filter_In in Hy. destruct Hy as [Hy _].
    specialize (Hpast y Hy). unfold asc. apply Nat.leb_le.
    destruct Hx as [<-|[<-|[]]]; lia.
Qed.

(** X9: a conversation that does not exist and one that belongs to
    somebody else are refused alike, and no message is read. *)
Theorem foreign_conversation_history_is_missing (env : Env) (w : World)
  (u : User.t) (conversation_id : uuid) :
  (forall c, In c (conversations (db w)) ->
             Conversation.id c = conversation_id ->
             Conversation.user_id c <> User.id u) ->
  get_conversation_messages env conversation_id u w
  = (inl (HTTPException 404 "Conversation not found"),
     snd (log (EvQuery TConversations) w)).
Proof.
  intros H. unfold get_conversation_messages.
  rewrite bind_run. cbn [fst snd]. rewrite bind_run.
  unfold get_store, log. cbn [fst snd db].
  replace (conversation_by_id (db w) conversation_id (User.id u))
    with (@None Conversation.t); [reflexivity|].
  symmetry. apply find_all_false. intros c Hc.
  destruct (Nat.eqb_spec (Conversation.id c) conversation_id) as [Hid|];
    [|reflexivity].
  destruct (Nat.eqb_spec (Conversation.user_id c) (User.id u)) as [Hown|];
    [|reflexivity].
  exfalso. exact (H c Hc Hid Hown).
Qed.

(** ** Listing the conversations *)

Lemma get_conversations_run env u w :
  get_conversations env u w
  = (map (fun conv => serialize_conversation (db w) conv true)
         (order_by (desc Conversation.updated_at)
            (filter (fun c => Nat.eqb (Conversation.user_id c) (User.id u))
                    (conversations (db w)))),
     snd (log (EvQuery TConversations) w)).
Proof. reflexivity. Qed.

(** X10: after a chat request the caller's conversation list holds the
    conversation answered in, and its message count has grown by two. *)
Theorem chat_adds_two_to_the_message_count (env : Env) (w : World)
  (u : User.t) (req : ChatRequest.t) :
  let r := fst (chat env req u w) in
  let w' := snd (chat env req u w) in
  let cid := ChatResponse.conversation_id r in
  exists d,
    In d (fst (get_conversations env u w'))
    /\ ConversationDict.id d = cid
    /\ ConversationDict.message_count d
       = Some (List.length (conversation_messages (db w) cid) + 2).
Proof.
  cbv zeta.
  destruct (chat_conversation_owned env w u req)
    as (c & Hc & Hcid & Hown).
  destruct (chat_turns env w u req)
    as (um & am & Hm & Hr & _ & _ & Hum & Ham & _).
  set (r := fst (chat env req u w)) in *.
  set (w' := snd (chat env req u w)) in *.
  exists (serialize_conversation (db w') c true).
  rewrite get_conversations_run. cbn [fst]. split; [|split].
  - apply (in_map (fun conv => serialize_conversation (db w') conv true)).
    apply order_by_In, filter_In. split; [exact Hc|].
    apply Nat.eqb_eq. exact Hown.
  - exact Hcid.
  - cbn [serialize_conversation ConversationDict.message_count]. f_equal.
    rewrite Hcid. unfold conversation_messages.
    rewrite Hm, filter_app, length_app. simpl.
    rewrite Hum, Ham, <- Hr, Nat.eqb_refl. reflexivity.
Qed.

(** ** Login and bearer tokens *)

Section Tokens.

Context {token : Type} (j : Jose token) (env : Env).

Lemma create_access_token_run data delta w :
  create_access_token j env data delta w
  = (jwt_encode j
       (mkPayload (sub data)
          (Some (match delta with
                 | Some (S d) => clock w + S d
                 | _ => clock w + minutes j 15
                 end)))
       (secret_key (settings env)) (algorithm (settings env)),
     w).
Proof. reflexivity. Qed.

(** X11: outside development [login] refuses every request and touches
    nothing: no user is looked up or created, no token is made. *)
Theorem login_refused_outside_development (email password : string)
  (w : World) :
  environment (settings env) <> "development" ->
  login j env email password w
  = (inl (HTTPException
            403 "Password/OAuth authentication required in production"),
     w).
Proof.
  intros Hprod. unfold login.
  destruct (String.eqb_spec (environment (settings env)) "development");
    [contradiction|reflexivity].
Qed.

Lemma login_run email password w :
  environment (settings env) = "development" ->
  let r := fst (login j env email password w) in
  let w' := snd (login j env email password w) in
  let user := demo_user email w in
  r = inr (LoginDict.mk token
             (jwt_encode j
                (mkPayload (Some (SubjectId (User.id user)))
                           (Some (clock w' + minutes j 15)))
                (secret_key (settings env)) (algorithm (settings env)))
             "bearer" (serialize_user user))
  /\ users (db w')
     = match user_by_email (db w) email with
       | Some _ => users (db w)
       | None => users (db w) ++ [user]
       end
  /\ user_by_email (db w') email = Some user
  /\ clock w <= clock w'.
Proof.
  intros Hdev. cbv zeta. unfold login, demo_user. rewrite Hdev.
  change (negb (String.eqb "development" "development")) with false.
  cbv iota. unfold create_access_token, add_user. unmonad. cbn [fst snd db].
  destruct (user_by_email (db w) email) as [user|] eqn:E; cbn.
  - repeat split; auto.
  - repeat split; auto. unfold user_by_email in *. cbn.
    apply find_last.
    + intros y Hy. exact (find_none _ _ E y Hy).
    + cbn. apply String.eqb_refl.
Qed.

(** X12: a second development login with the same address answers with
    the same user and adds no row. *)
Theorem login_twice_same_user (email password password' : string)
  (w : World) :
  environment (settings env) = "development" ->
  let first := login j env email password w in
  let second := login j env email password' (snd first) in
  exists d1 d2,
    fst first = inr d1 /\ fst second = inr d2
    /\ LoginDict.user d2 = LoginDict.user d1
    /\ users (db (snd second)) = users (db (snd first)).
Proof.
  intros Hdev. cbv zeta.
  destruct (login_run email password w Hdev) as (Hr1 & _ & Hfound & _).
  destruct (login_run email password' (snd (login j env email password w))
              Hdev) as (Hr2 & Hu2 & _).
  cbv zeta in *. unfold demo_user in Hr2 at 1 2. rewrite Hfound in Hr2, Hu2.
  do 2 eexists. split; [exact Hr1|]. split; [exact Hr2|].
  split; [reflexivity|exact Hu2].
Qed.

Lemma verify_token_run tok w :
  verify_token j env tok w
  = (jwt_decode j tok (secret_key (settings env))
                [algorithm (settings env)] (clock w), w).
Proof. reflexivity. Qed.

(** X13: whatever the token, [get_current_user] either fails with a 401 or
    returns a stored user whose key is the subject of the decoded
    token. *)
Theorem get_current_user_sound (credentials : token) (w : World) :
  match fst (get_current_user j env credentials w) with
  | inr user =>
      In user (users (db w))
      /\ exists p,
          jwt_decode j credentials (secret_key (settings env))
                     [algorithm (settings env)] (clock w) = Some p
          /\ sub p = Some (SubjectId (User.id user))
  | inl e => exists detail, e = HTTPException 401 detail
  end.
Proof.
  unfold get_current_user. rewrite bind_run, verify_token_run.
  cbn [fst snd].
  destruct (jwt_decode j credentials _ _ _) as [[s e]|];
    [|eexists; reflexivity].
  destruct s as [[uid|[|c txt]]|]; destruct e as [e|]; cbn [sub];
    try (eexists; reflexivity);
    rewrite bind_run; cbn [fst snd]; rewrite bind_run;
    unfold get_store, log; cbn [fst snd db ret];
    try (eexists; reflexivity);
    (unfold user_by_id;
     destruct (find _ (users (db w))) as [user|] eqn:E; cbn [fst ret];
     [|eexists; reflexivity];
     apply find_some in E; destruct E as [Hin Hid];
     apply Nat.eqb_eq in Hid; split; [exact Hin|];
     eexists; split; [reflexivity|]; cbn [sub]; rewrite Hid; reflexivity).
Qed.

Hypothesis sound : jose_sound j.

(** X14: the token of a development login authenticates as the user of
    the response for fifteen minutes of the clock, as long as the user
    table is not changed. *)
Theorem login_token_authenticates (email password : string) (w w2 : World) :
  environment (settings env) = "development" ->
  let first := login j env email password w in
  users (db w2) = users (db (snd first)) ->
  clock w2 <= clock (snd first) + minutes j 15 ->
  exists d user,
    fst first = inr d
    /\ fst (get_current_user j env (LoginDict.access_token d) w2) = inr user
    /\ User.id user = UserDict.id (LoginDict.user d).
Proof.
  intros Hdev. cbv zeta. intros Husers Hclock.
  destruct (login_run email password w Hdev) as (Hr1 & Hu1 & Hfound & _).
  cbv zeta in *.
  set (w1 := snd (login j env email password w)) in *.
  set (who := demo_user email w) in *.
  assert (Hauth : exists user,
    fst (get_current_user j env
           (jwt_encode j
              (mkPayload (Some (SubjectId (User.id who)))
                         (Some (clock w1 + minutes j 15)))
              (secret_key (settings env)) (algorithm (settings env))) w2)
    = inr user /\ User.id user = User.id who).
  { unfold get_current_user. rewrite bind_run, verify_token_run.
    rewrite (sound (mkPayload _ _) _ _ _ (clock w1 + minutes j 15) eq_refl).
    destruct (Nat.leb_spec (clock w2) (clock w1 + minutes j 15)); [|lia].
    cbn [fst snd sub]. rewrite bind_run. cbn [fst snd]. rewrite bind_run.
    unfold get_store, log. cbn [fst snd db].
    unfold user_by_id. rewrite Husers.
    unfold user_by_email in Hfound. apply find_some in Hfound.
    destruct Hfound as [Hin _].
    destruct (find (fun u => Nat.eqb (User.id u) (User.id who))
                (users (db w1))) as [user|] eqn:E.
    - apply find_some in E. destruct E as [_ Hid]. apply Nat.eqb_eq in Hid.
      exists user. split; [reflexivity|exact Hid].
    - exfalso. apply (find_none _ _ E) in Hin.
      rewrite Nat.eqb_refl in Hin. discriminate. }
  destruct Hauth as (user & Hget & Hid).
  eexists. exists user. split; [exact Hr1|].
  cbn [LoginDict.access_token LoginDict.user]. split; [exact Hget|exact Hid].
Qed.

(** X15: once more than fifteen minutes of the clock have passed, the
    token of a login is refused; [access_token_expire_minutes] plays no
    part. *)
Theorem login_token_expires (email password : string) (w w2 : World) :
  environment (settings env) = "development" ->
  let first := login j env email password w in
  clock (snd first) + minutes j 15 < clock w2 ->
  exists d,
    fst first = inr d
    /\ fst (get_current_user j env (LoginDict.access_token d) w2)
       = inl credentials_exception.
Proof.
  intros Hdev. cbv zeta. intros Hclock.
  destruct (login_run email password w Hdev) as (Hr1 & _).
  cbv zeta in *. eexists. split; [exact Hr1|].
  cbn [LoginDict.access_token].
  unfold get_current_user. rewrite bind_run, verify_token_run.
  rewrite (sound (mkPayload _ _) _ _ _
             (clock (snd (login j env email password w)) + minutes j 15)
             eq_refl).
  destruct (Nat.leb_spec (clock w2)
              (clock (snd (login j env email password w)) + minutes j 15));
    [lia|reflexivity].
Qed.

End Tokens.

(** ** What a request adds to the tables *)

Lemma create_grows env item_data u w :
  let w' := snd (create_knowledge_item env item_data u w) in
  exists news added items,
    tags (db w') = tags (db w) ++ news
    /\ knowledge_item_tags (db w') = knowledge_item_tags (db w) ++ added
    /\ knowledge_items (db w') = knowledge_items (db w) ++ items
    /\ users (db w') = users (db w)
    /\ Forall (fun t => Tag.user_id t = User.id u
                        /\ uuid_supply w <= Tag.id t) news
    /\ Forall (fun row => uuid_supply w <= fst row) added
    /\ Forall (fun it => KnowledgeItem.user_id it = User.id u) items.
Proof.
  cbv zeta.
  pose proof (create_knowledge_item_stages env item_data u w) as H.
  cbv zeta in H.
  destruct (backfill_summary_frame env item_data w) as (Hdb1 & _ & Hs1 & _).
  destruct (varchar env 50 (KnowledgeItemCreate.type item_data)).
  - destruct H as (-> & _).
    match goal with
    | |- context [attach_all env ?a ?b ?names ?w0] =>
        destruct (attach_all_grow env a b names w0)
          as (news & added & Ht & Hr & Hn & Ha & Hk & Hu & _)
    end.
    cbv zeta in *. rewrite Ht, Hr, Hk, Hu.
    cbn [committed db tags knowledge_item_tags knowledge_items users
                   uuid_supply] in *.
    rewrite Hdb1. rewrite Hs1 in Hn.
    eexists news, added, [_]. repeat split; auto.
    + revert Hn. apply Forall_impl. intros t [? ?]. split; [auto|lia].
    + revert Ha. apply Forall_impl. intros row ->. lia.
  - rewrite H. cbn [snd uuid4 db]. rewrite Hdb1.
    exists [], [], []. rewrite !app_nil_r. repeat split; auto.
Qed.

Lemma upload_grows env file u w :
  let w' := snd (upload_file env file u w) in
  exists news added items,
    tags (db w') = tags (db w) ++ news
    /\ knowledge_item_tags (db w') = knowledge_item_tags (db w) ++ added
    /\ knowledge_items (db w') = knowledge_items (db w) ++ items
    /\ users (db w') = users (db w)
    /\ Forall (fun t => Tag.user_id t = User.id u
                        /\ uuid_supply w <= Tag.id t) news
    /\ Forall (fun row => uuid_supply w <= fst row) added
    /\ Forall (fun it => KnowledgeItem.user_id it = User.id u) items.
Proof.
  cbv zeta.
  pose proof (upload_file_stages env file u w) as H. cbv zeta in H.
  destruct (opens env (uuid_supply w) file).
  - destruct H as (-> & _).
    destruct (analyse_upload_frame env file (read_text env file)
                (stored env file w)) as (Hdb & _ & Hs & _).
    match goal with
    | |- context [attach_all env ?a ?b ?names ?w0] =>
        destruct (attach_all_grow env a b names w0)
          as (news & added & Ht & Hr & Hn & Ha & Hk & Hu & _)
    end.
    cbv zeta in *. rewrite Ht, Hr, Hk, Hu.
    cbn [committed db tags knowledge_item_tags knowledge_items users
                   uuid_supply] in *.
    rewrite Hdb. rewrite Hs in Hn. cbn [stored db snd write_file uuid4
      uuid_supply] in *.
    eexists news, added, [_]. repeat split; auto.
    + revert Hn. apply Forall_impl. intros t [? ?]. split; [auto|lia].
    + revert Ha. apply Forall_impl. intros row ->. lia.
  - rewrite H. cbn [snd uuid4 db].
    exists [], [], []. rewrite !app_nil_r. repeat split; auto.
Qed.

Lemma join_tags_grown tgs rows news added n0 j :
  (forall row, In row rows -> snd row < n0) ->
  Forall (fun t => n0 <= Tag.id t) news ->
  Forall (fun row => n0 <= fst row) added ->
  j < n0 ->
  join_tags (tgs ++ news) (rows ++ added) j = join_tags tgs rows j.
Proof.
  intros Hrows Hnews Hadded Hj. unfold join_tags.
  rewrite flat_map_app.
  replace (flat_map _ added) with (@nil Tag.t).
  - rewrite app_nil_r.
    induction rows as [|row rows IH]; [reflexivity|].
    simpl. rewrite IH by (intros r Hr; apply Hrows; right; exact Hr).
    f_equal. destruct (Nat.eqb (fst row) j); [|reflexivity].
    rewrite filter_app.
    replace (filter _ news) with (@nil Tag.t); [apply app_nil_r|].
    symmetry. specialize (Hrows row (or_introl eq_refl)).
    clear IH. induction Hnews as [|t news Ht _ IH]; [reflexivity|].
    simpl. destruct (Nat.eqb_spec (Tag.id t) (snd row)); [lia|exact IH].
  - symmetry. induction Hadded as [|row added Hrow _ IH]; [reflexivity|].
    simpl. rewrite IH. destruct (Nat.eqb_spec (fst row) j); [lia|reflexivity].
Qed.

(** the tags of the items that were there before read as before *)
Lemma item_tags_grown s s' news added n0 j :
  tags s' = tags s ++ news ->
  knowledge_item_tags s' = knowledge_item_tags s ++ added ->
  (forall row, In row (knowledge_item_tags s) -> snd row < n0) ->
  Forall (fun t => n0 <= Tag.id t) news ->
  Forall (fun row => n0 <= fst row) added ->
  j < n0 ->
  item_tags s' j = item_tags s j.
Proof.
  intros Ht Hr Hrows Hnews Hadded Hj. unfold item_tags.
  rewrite Ht, Hr. f_equal. eapply join_tags_grown; eauto.
Qed.

(** what both ingestion handlers have in common, seen from another user *)
Lemma grown_tag_list env (s s' : World) (other : User.t) news uid :
  tags (db s') = tags (db s) ++ news ->
  Forall (fun t => Tag.user_id t = uid) news ->
  User.id other <> uid ->
  fst (get_tags env other s') = fst (get_tags env other s).
Proof.
  intros Ht Hnews Hother. unfold get_tags. rewrite !bind_run.
  cbn [fst snd log get_store ret db]. f_equal.
  rewrite Ht, filter_app. clear Ht.
  replace (filter _ news) with (@nil Tag.t); [apply app_nil_r|].
  symmetry. induction Hnews as [|t news Ht' _ IH]; [reflexivity|].
  simpl. rewrite Ht'.
  destruct (Nat.eqb_spec uid (User.id other)) as [E|_];
    [congruence|exact IH].
Qed.


Lemma get_tags_run env u w :
  get_tags env u w
  = (map (fun tag => TagDict.mk (Tag.id tag) (Tag.name tag)
                                (Tag.color tag) (Tag.created_at tag))
         (filter (fun t => Nat.eqb (Tag.user_id t) (User.id u))
                 (tags (db w))),
     snd (log (EvQuery TTags) w)).
Proof. reflexivity. Qed.

(** ** What an upload records *)

(** what a completed upload leaves in the tables *)
Lemma upload_file_tags env file u w r :
  wf w ->
  fst (upload_file env file u w) = inr r ->
  let w' := snd (upload_file env file u w) in
  let a := fst (analyse_upload env file (read_text env file)
                               (stored env file w)) in
  ItemDict.id r = S (uuid_supply w)
  /\ ItemDict.title r = fst (fst a)
  /\ ItemDict.content r = Some (read_text env file)
  /\ ItemDict.tags r
     = Some (map Tag.name (item_tags (db w') (S (uuid_supply w))))
  /\ exists chosen,
      Forall2 (chosen_for env (User.id u)) (suggested_tags env file w) chosen
      /\ (forall t, In t chosen -> In t (tags (db w')))
      /\ forall t, In t (item_tags (db w') (S (uuid_supply w)))
                   <-> In t chosen.
Proof.
  intros Hwf Hr. cbv zeta.
  pose proof (upload_file_stages env file u w) as H. cbv zeta in H.
  destruct (opens env (uuid_supply w) file);
    [|rewrite H in Hr; discriminate].
  destruct H as (Hw & Hf). rewrite Hf in Hr. rewrite Hw.
  destruct (analyse_upload_frame env file (read_text env file)
              (stored env file w)) as (Hdb & _ & Hs & _).
  match type of Hr with
  | context [attach_all env ?a ?b ?names (committed ?it ?w1)] =>
      assert (Hatt : attached (committed it w1) (S (uuid_supply w))
                              Expired []);
      [ apply (committed_attached (stored env file w)); auto;
        apply (wf_supply w); auto; simpl; lia
      | pose proof (attach_all_tags env a b names _ Hatt) as Ht;
        destruct (fst (attach_all env a b names (committed it w1)))
          as [e|[]]; [discriminate|] ]
  end.
  injection Hr as <-. cbv zeta in Ht.
  destruct (Ht eq_refl) as (_ & chosen & Hall & Hin & Htags).
  split; [reflexivity|]. split; [reflexivity|]. split; [reflexivity|].
  split; [reflexivity|].
  exists chosen. auto.
Qed.

(** X22: only files whose declared type starts with [text/] have their
    bytes read as text; for every other upload that is answered the
    content stored is the empty string. *)
Theorem only_text_uploads_have_content (env : Env) (w : World) (u : User.t)
  (file : UploadFile.t) (r : ItemDict.t) :
  fst (upload_file env file u w) = inr r ->
  ItemDict.content r
  = Some (match UploadFile.content_type file with
          | Some ct => if Py.startswith "text/" ct
                       then decode_utf8 env (UploadFile.data file)
                       else ""
          | None => ""
          end).
Proof.
  intros Hr.
  pose proof (upload_file_stages env file u w) as H. cbv zeta in H.
  destruct (opens env (uuid_supply w) file);
    [|rewrite H in Hr; discriminate].
  destruct H as (_ & Hf). rewrite Hf in Hr.
  match type of Hr with
  | context [attach_all env ?a ?b ?names ?w0] =>
      destruct (fst (attach_all env a b names w0)); [discriminate|]
  end.
  injection Hr as <-.
  cbn [ItemDict.content serialize_knowledge_item KnowledgeItem.content].
  unfold read_text. destruct (UploadFile.content_type file) as [ct|];
    [|reflexivity].
  destruct ct as [|c ct]; reflexivity.
Qed.

(** ** What the agent's answer can and cannot do to an upload *)

Lemma analyse_upload_answer env file fc w :
  fst (analyse_upload env file fc w)
  = match fst (get_agents env w) with
    | None => (UploadFile.filename file, "File uploaded successfully",
               ["uploaded"])
    | Some a =>
        match document_processor a (process_prompt file fc) with
        | None => (UploadFile.filename file, "File uploaded successfully",
                   ["uploaded"])
        | Some response =>
            parse_processing_response (UploadFile.filename file) response
        end
    end.
Proof.
  unfold analyse_upload. rewrite bind_run.
  destruct (fst (get_agents env w)) as [a|]; [|reflexivity].
  rewrite bind_run. cbn [fst snd].
  destruct (document_processor a _); reflexivity.
Qed.

Lemma analysed_names_nonempty env file fc w :
  let a := fst (analyse_upload env file fc w) in
  Forall (fun n => n <> "") (snd a)
  /\ (UploadFile.filename file <> "" -> fst (fst a) <> "").
Proof.
  cbv zeta. rewrite analyse_upload_answer.
  assert (Hfallback :
    Forall (fun n => n <> "") ["uploaded"]).
  { repeat constructor. discriminate. }
  destruct (fst (get_agents env w)) as [a|]; [|split; auto].
  destruct (document_processor a _) as [response|]; [|split; auto].
  unfold parse_processing_response. cbn [fst snd]. split.
  - destruct (Py.contains "Tags:" response); [|exact Hfallback].
    apply Forall_forall. intros n Hn. apply filter_In in Hn.
    destruct Hn as [_ Hn]. destruct n; [discriminate|discriminate].
  - intros Hname. destruct (Py.contains "Title:" response); [|exact Hname].
    destruct (after_label "Title:" response); [exact Hname|discriminate].
Qed.

Lemma varchar_nonempty env n s k :
  0 < n -> s <> "" -> varchar env n s = Some k -> k <> "".
Proof.
  intros Hn Hs. unfold varchar.
  destruct (Nat.leb (String.length s) n); [congruence|].
  destruct (overlong env n s); [discriminate| |congruence].
  intros E. injection E as <-.
  destruct n as [|n]; [lia|]. destruct s; [contradiction|discriminate].
Qed.

(** X23: whatever the agent answers, an answered upload never gets a tag
    with an empty name, and its title is empty only if the file name
    is. *)
Theorem upload_names_are_not_empty (env : Env) (w : World) (u : User.t)
  (file : UploadFile.t) (r : ItemDict.t) :
  wf w ->
  fst (upload_file env file u w) = inr r ->
  (exists names, ItemDict.tags r = Some names
                 /\ Forall (fun n => n <> "") names)
  /\ (UploadFile.filename file <> "" -> ItemDict.title r <> "").
Proof.
  intros Hwf Hr.
  destruct (upload_file_tags env file u w r Hwf Hr)
    as (_ & Htitle & _ & Htags & chosen & Hall & _ & Hin).
  cbv zeta in *.
  destruct (analysed_names_nonempty env file (read_text env file)
              (stored env file w)) as (Hnames & Hfile).
  cbv zeta in *. split.
  - eexists. split; [exact Htags|].
    apply Forall_forall. intros x Hx. apply in_map_iff in Hx.
    destruct Hx as (t & <- & Ht). apply Hin in Ht.
    destruct (Forall2_chosen_r _ _ _ _ Hall Ht) as (n & Hn & _ & Hc).
    rewrite Forall_forall in Hnames. specialize (Hnames n Hn).
    destruct Hc as [->|Hc]; [exact Hnames|].
    apply (varchar_nonempty env 100 n); [lia|exact Hnames|exact Hc].
  - intros Hname. rewrite Htitle. apply Hfile. exact Hname.
Qed.

(** ** The summary of a created item *)

Lemma backfill_summary_answer env item_data w :
  fst (backfill_summary env item_data w)
  = let given := KnowledgeItemCreate.summary item_data in
    if Py.truthy (KnowledgeItemCreate.content item_data)
    then match fst (get_agents env w) with
         | None => given
         | Some a =>
             match document_processor a (analysis_prompt item_data) with
             | None => given
             | Some response =>
                 if Py.contains "Summary:" response
                 then if negb (Py.truthy given)
                      then Some (after_label "Summary:" response)
                      else given
                 else given
             end
         end
    else given.
Proof.
  unfold backfill_summary. cbv zeta.
  destruct (Py.truthy (KnowledgeItemCreate.content item_data));
    [|reflexivity].
  rewrite bind_run. destruct (fst (get_agents env w)) as [a|]; [|reflexivity].
  rewrite bind_run. cbn [fst snd].
  destruct (document_processor a _) as [response|]; [|reflexivity].
  destruct (Py.contains "Summary:" response); [|reflexivity].
  destruct (negb _); reflexivity.
Qed.

Lemma create_knowledge_item_summary env item_data u w r :
  fst (create_knowledge_item env item_data u w) = inr r ->
  ItemDict.summary r = fst (backfill_summary env item_data w).
Proof.
  intros Hr.
  pose proof (create_knowledge_item_stages env item_data u w) as H.
  cbv zeta in H.
  destruct (varchar env 50 (KnowledgeItemCreate.type item_data));
    [|rewrite H in Hr; discriminate].
  destruct H as (_ & _ & _ & _ & _ & Hf). rewrite Hf in Hr.
  match type of Hr with
  | context [attach_all env ?a ?b ?names ?w0] =>
      destruct (fst (attach_all env a b names w0)); [discriminate|]
  end.
  injection Hr as <-. reflexivity.
Qed.

(** X25: a summary supplied with the request is the summary stored and
    returned, whatever the agent suggests. *)
Theorem supplied_summary_wins (env : Env) (w : World) (u : User.t)
  (item_data : KnowledgeItemCreate.t) (r : ItemDict.t) :
  Py.truthy (KnowledgeItemCreate.summary item_data) = true ->
  fst (create_knowledge_item env item_data u w) = inr r ->
  ItemDict.summary r = KnowledgeItemCreate.summary item_data.
Proof.
  intros Hgiven Hr.
  rewrite (create_knowledge_item_summary env item_data u w r Hr),
    backfill_summary_answer. cbv zeta. rewrite Hgiven. cbn [negb].
  destruct (Py.truthy (KnowledgeItemCreate.content item_data));
    [|reflexivity].
  destruct (fst (get_agents env w)) as [a|]; [|reflexivity].
  destruct (document_processor a _) as [response|]; [|reflexivity].
  destruct (Py.contains "Summary:" response); reflexivity.
Qed.

(** X26: a request without content, or with an empty one, is stored as it
    is: the agents are not initialised, no agent is called, and the
    summary of the response is the one supplied. *)
Theorem no_content_no_agent_call (env : Env) (w : World) (u : User.t)
  (item_data : KnowledgeItemCreate.t) :
  Py.truthy (KnowledgeItemCreate.content item_data) = false ->
  let w' := snd (create_knowledge_item env item_data u w) in
  (forall r, fst (create_knowledge_item env item_data u w) = inr r ->
             ItemDict.summary r = KnowledgeItemCreate.summary item_data)
  /\ agents w' = agents w
  /\ exists evs, trace w' = trace w ++ evs
                 /\ forallb (fun e => negb (is_run e)) evs = true.
Proof.
  intros Hc. cbv zeta. split.
  - intros r Hr.
    rewrite (create_knowledge_item_summary env item_data u w r Hr),
      backfill_summary_answer.
    cbv zeta. rewrite Hc. reflexivity.
  - assert (Hw1 : snd (backfill_summary env item_data w) = w)
      by (unfold backfill_summary; rewrite Hc; reflexivity).
    pose proof (create_knowledge_item_stages env item_data u w) as H.
    cbv zeta in H. rewrite Hw1 in H.
    destruct (varchar env 50 (KnowledgeItemCreate.type item_data)).
    + destruct H as (_ & _ & Ha & _ & (evs & Ht & Hevs) & _).
      split; [exact Ha|]. rewrite Ht. cbn [committed trace].
      rewrite <- app_assoc. eexists. split; [reflexivity|].
      simpl. exact Hevs.
    + rewrite H. cbn [snd uuid4 agents trace]. split; [reflexivity|].
      exists []. rewrite app_nil_r. auto.
Qed.

(** ** Chat when generation fails, and what the search reads *)

Lemma generate_answer env prompt w :
  fst (generate env prompt w)
  = match fst (get_agents env w) with
    | None => apology
    | Some a => match conversation_agent a prompt with
                | Some content => content
                | None => apology
                end
    end.
Proof.
  unfold generate. rewrite bind_run.
  destruct (fst (get_agents env w)) as [a|]; [|reflexivity].
  rewrite bind_run. cbn [fst snd].
  destruct (conversation_agent a prompt); reflexivity.
Qed.

Lemma get_agents_only_reads_agents env w1 w2 :
  agents w1 = agents w2 ->
  fst (get_agents env w1) = fst (get_agents env w2).
Proof. intros H. rewrite !get_agents_answer, H. reflexivity. Qed.

Lemma chat_message_text env req u w :
  exists prompt,
    ChatResponse.message (fst (chat env req u w))
    = match fst (get_agents env w) with
      | None => apology
      | Some a => match conversation_agent a prompt with
                  | Some content => content
                  | None => apology
                  end
      end.
Proof.
  unfold chat. rewrite bind_run.
  assert (Ha1 : agents (snd (resolve_conversation env req u w)) = agents w).
  { unfold resolve_conversation. unmonad.
    destruct (ChatRequest.conversation_id req) as [cid|]; simpl;
      [destruct (conversation_by_id (db w) cid (User.id u))|]; reflexivity. }
  destruct (resolve_conversation env req u w) as [cid w1].
  cbn [fst snd] in *.
  do 6 (rewrite bind_run; cbn [fst snd]).
  match goal with
  | |- context [retrieve env req u ?w2] =>
      assert (Ha2 : agents (snd (retrieve env req u w2)) = agents w);
      [unfold retrieve; unmonad;
       destruct (ChatRequest.use_knowledge_base req); simpl; exact Ha1|];
      destruct (retrieve env req u w2) as [[srcs ctx] w3]
  end.
  cbn [fst snd] in *.
  rewrite bind_run.
  eexists. rewrite <- (get_agents_only_reads_agents env w3 w Ha2).
  rewrite <- generate_answer.
  repeat (rewrite bind_run; cbn [fst snd]). reflexivity.
Qed.

(** X27: when no agents can be had, or the conversation agent raises on
    every prompt, the answer of [chat] is the fixed apology. *)
Theorem failed_generation_apologises (env : Env) (w : World) (u : User.t)
  (req : ChatRequest.t) :
  match fst (get_agents env w) with
  | None => True
  | Some a => forall prompt, conversation_agent a prompt = None
  end ->
  ChatResponse.message (fst (chat env req u w)) = apology.
Proof.
  intros Hfail. destruct (chat_message_text env req u w) as (prompt & ->).
  destruct (fst (get_agents env w)) as [a|]; [|reflexivity].
  rewrite Hfail. reflexivity.
Qed.

(** X28: the search reads only the first fifty characters of the message:
    two requests whose messages agree on them get the same sources. *)
Theorem search_reads_fifty_characters (env : Env) (w : World) (u : User.t)
  (req1 req2 : ChatRequest.t) :
  Py.take 50 (ChatRequest.message req1) = Py.take 50 (ChatRequest.message req2) ->
  ChatRequest.use_knowledge_base req1 = ChatRequest.use_knowledge_base req2 ->
  ChatResponse.sources (fst (chat env req1 u w))
  = ChatResponse.sources (fst (chat env req2 u w)).
Proof.
  intros Hm Hkb. rewrite !chat_sources, Hkb.
  unfold matching_items. rewrite Hm. reflexivity.
Qed.

(** ** The agent global, once set *)

(** X29: asking for the agents twice gives the same answer, and the
    second call changes nothing. *)
Theorem get_agents_twice (env : Env) (w : World) :
  let first := get_agents env w in
  get_agents env (snd first) = (fst first, snd first).
Proof.
  cbv zeta. unfold get_agents, get_global_agents, bind, set_agents, ret.
  simpl. destruct (agents w) as [a|] eqn:E; simpl.
  - rewrite E. reflexivity.
  - destruct (Py.nonempty _) eqn:K; simpl.
    + destruct (KnowledgeVaultAgents_init env) eqn:I; simpl;
        rewrite ?K, ?I; reflexivity.
    + rewrite ?E, ?K. reflexivity.
Qed.

(** X21: the direct document endpoint never writes to the store; it
    answers with a fixed text when no agents can be had and turns an
    agent failure into a 500, where the ingestion handlers recover. *)
Theorem agent_process_document_behaviour (env : Env) (show : json -> string)
  (raised : string -> string) (content : list (string * json))
  (u : User.t) (w : World) :
  let r := fst (agent_process_document env show raised content u w) in
  let w' := snd (agent_process_document env show raised content u w) in
  db w' = db w
  /\ match fst (get_agents env w) with
     | None =>
         r = inr (AgentDict.mk "AI processing unavailable" "DocumentProcessor")
     | Some a =>
         match document_processor a
                 ("Process this content: "
                  ++ text_of_content show content)%string
         with
         | Some response => r = inr (AgentDict.mk response "DocumentProcessor")
         | None => exists detail, r = inl (HTTPException 500 detail)
         end
     end.
Proof.
  cbv zeta. unfold agent_process_document. rewrite bind_run.
  destruct (get_agents_frame env w) as (Hdb & _).
  destruct (fst (get_agents env w)) as [a|]; cbn [fst snd ret];
    [|auto].
  rewrite bind_run. cbn [fst snd].
  destruct (document_processor a _); cbn [fst snd ret];
    unfold log; cbn [snd db]; split; auto.
  eexists; reflexivity.
Qed.

(** ** Both ingestion handlers and the tables they share *)

(** X16: run one after the other, requests keep the tag names of a user
    unique, as long as the database stores the names they attach as
    they are, or not at all: if no (user, name) pair has two Tag rows
    before such a creation or upload, none has afterwards. *)
Theorem ingestion_keeps_tag_names_unique (env : Env) (w : World)
  (u : User.t) :
  names_unique (db w) ->
  (forall item_data,
      Forall (kept_whole env) (requested_tags item_data) ->
      names_unique (db (snd (create_knowledge_item env item_data u w))))
  /\ (forall file,
      Forall (kept_whole env) (suggested_tags env file w) ->
      names_unique (db (snd (upload_file env file u w)))).
Proof.
  intros Hu. split.
  - intros item_data Hkept.
    pose proof (create_knowledge_item_stages env item_data u w) as H.
    cbv zeta in H.
    destruct (backfill_summary_frame env item_data w) as (Hdb1 & _).
    destruct (varchar env 50 (KnowledgeItemCreate.type item_data)).
    + destruct H as (-> & _). apply attach_all_unique; [exact Hkept|].
      apply (names_unique_tags (db w)); [|exact Hu].
      cbn [committed db tags]. rewrite Hdb1. reflexivity.
    + rewrite H. cbn [snd uuid4 db]. rewrite Hdb1. exact Hu.
  - intros file Hkept.
    pose proof (upload_file_stages env file u w) as H. cbv zeta in H.
    destruct (opens env (uuid_supply w) file).
    + destruct H as (-> & _).
      destruct (analyse_upload_frame env file (read_text env file)
                  (stored env file w)) as (Hdb & _).
      apply attach_all_unique; [exact Hkept|].
      apply (names_unique_tags (db w)); [|exact Hu].
      cbn [committed db tags]. rewrite Hdb. reflexivity.
    + rewrite H. exact Hu.
Qed.

(** X17: the tags attached to a created item are rows of the tag table
    that belong to the user who created it. *)
Theorem created_item_has_own_tags (env : Env) (w : World) (u : User.t)
  (item_data : KnowledgeItemCreate.t) (r : ItemDict.t) :
  wf w ->
  fst (create_knowledge_item env item_data u w) = inr r ->
  let w' := snd (create_knowledge_item env item_data u w) in
  forall t, In t (item_tags (db w') (ItemDict.id r)) ->
            Tag.user_id t = User.id u /\ In t (tags (db w')).
Proof.
  intros Hwf Hr. cbv zeta. intros t Ht.
  destruct (create_knowledge_item_tags env item_data u w r Hwf Hr)
    as (Hid & _ & chosen & Hall & Hin & Hch).
  cbv zeta in *. rewrite Hid in Ht. apply Hch in Ht.
  destruct (Forall2_chosen_r _ _ _ _ Hall Ht) as (n & _ & Hown & _).
  split; [exact Hown|apply Hin; exact Ht].
Qed.

(** X18: every tag name of a completed creation that the database stores
    as it is appears in the tag list of its author afterwards. *)
Theorem requested_tags_are_listed (env : Env) (w : World) (u : User.t)
  (item_data : KnowledgeItemCreate.t) (r : ItemDict.t) (n : string) :
  wf w ->
  fst (create_knowledge_item env item_data u w) = inr r ->
  In n (requested_tags item_data) ->
  kept_whole env n ->
  let w' := snd (create_knowledge_item env item_data u w) in
  exists d, In d (fst (get_tags env u w')) /\ TagDict.name d = n.
Proof.
  intros Hwf Hr Hn Hkept. cbv zeta.
  destruct (create_knowledge_item_tags env item_data u w r Hwf Hr)
    as (_ & _ & chosen & Hall & Hin & _).
  cbv zeta in *.
  destruct (Forall2_chosen_l _ _ _ _ Hall Hn) as (t & Ht & Hc).
  exists (TagDict.mk (Tag.id t) (Tag.name t) (Tag.color t) (Tag.created_at t)).
  rewrite get_tags_run. cbn [fst].
  split; [|exact (chosen_name env _ n t Hc Hkept)].
  apply (in_map (fun tag => TagDict.mk (Tag.id tag) (Tag.name tag)
                                       (Tag.color tag) (Tag.created_at tag))).
  apply filter_In. split; [apply Hin; exact Ht|].
  apply Nat.eqb_eq. apply Hc.
Qed.

(** X19: a creation or an upload changes nothing in the tag list of any
    other user. *)
Theorem ingestion_leaves_other_tag_lists (env : Env) (w : World)
  (u other : User.t) :
  User.id other <> User.id u ->
  (forall item_data,
      fst (get_tags env other (snd (create_knowledge_item env item_data u w)))
      = fst (get_tags env other w))
  /\ (forall file,
      fst (get_tags env other (snd (upload_file env file u w)))
      = fst (get_tags env other w)).
Proof.
  intros Hother. split.
  - intros item_data.
    destruct (create_grows env item_data u w)
      as (news & _ & _ & Ht & _ & _ & _ & Hn & _).
    apply (grown_tag_list env w _ other news (User.id u)); auto.
    revert Hn. apply Forall_impl. tauto.
  - intros file.
    destruct (upload_grows env file u w)
      as (news & _ & _ & Ht & _ & _ & _ & Hn & _).
    apply (grown_tag_list env w _ other news (User.id u)); auto.
    revert Hn. apply Forall_impl. tauto.
Qed.

Lemma grown_item_list env (w w' : World) (other : User.t) news added items
  uid limit offset :
  wf w ->
  tags (db w') = tags (db w) ++ news ->
  knowledge_item_tags (db w') = knowledge_item_tags (db w) ++ added ->
  knowledge_items (db w') = knowledge_items (db w) ++ items ->
  Forall (fun t => Tag.user_id t = uid /\ uuid_supply w <= Tag.id t) news ->
  Forall (fun row => uuid_supply w <= fst row) added ->
  Forall (fun it => KnowledgeItem.user_id it = uid) items ->
  User.id other <> uid ->
  fst (get_knowledge_items env limit offset other w')
  = fst (get_knowledge_items env limit offset other w).
Proof.
  intros Hwf Ht Hr Hk Hnews Hadded Hitems Hother.
  rewrite !get_knowledge_items_run. cbn [fst].
  assert (Hpage : page_of_items (db w') (User.id other) limit offset
                  = page_of_items (db w) (User.id other) limit offset).
  { unfold page_of_items. rewrite Hk, filter_app.
    replace (filter _ items) with (@nil KnowledgeItem.t);
      [rewrite app_nil_r; reflexivity|].
    symmetry. clear Hk. induction Hitems as [|it items Hit _ IH];
      [reflexivity|].
    simpl. rewrite Hit.
    destruct (Nat.eqb_spec uid (User.id other)); [congruence|exact IH]. }
  rewrite Hpage. apply map_ext_in. intros it Hit.
  apply page_of_items_sound in Hit. destruct Hit as [Hin _].
  destruct Hwf as (_ & _ & His & Hrs). specialize (His it Hin).
  unfold serialize_knowledge_item. f_equal. f_equal. f_equal.
  apply (item_tags_grown (db w) (db w') news added (uuid_supply w)); auto.
  - intros row Hrow. apply Hrs. exact Hrow.
  - revert Hnews. apply Forall_impl. tauto.
Qed.

(** X20: a creation or an upload changes nothing in the item list of
    any other user: the same rows with the same tags, page by page. *)
Theorem ingestion_leaves_other_item_lists (env : Env) (w : World)
  (u other : User.t) (limit offset : nat) :
  wf w ->
  User.id other <> User.id u ->
  (forall item_data,
      fst (get_knowledge_items env limit offset other
             (snd (create_knowledge_item env item_data u w)))
      = fst (get_knowledge_items env limit offset other w))
  /\ (forall file,
      fst (get_knowledge_items env limit offset other
             (snd (upload_file env file u w)))
      = fst (get_knowledge_items env limit offset other w)).
Proof.
  intros Hwf Hother. split.
  - intros item_data.
    destruct (create_grows env item_data u w)
      as (news & added & items & Ht & Hr & Hk & _ & Hn & Ha & Hi).
    apply (grown_item_list env w _ other news added items (User.id u));
      auto.
  - intros file.
    destruct (upload_grows env file u w)
      as (news & added & items & Ht & Hr & Hk & _ & Hn & Ha & Hi).
    apply (grown_item_list env w _ other news added items (User.id u));
      auto.
Qed.

(** X4: the item of a completed creation is in the full listing of its
    author. *)
Theorem created_item_is_listed (env : Env) (w : World) (u : User.t)
  (item_data : KnowledgeItemCreate.t) (limit : nat) (r : ItemDict.t) :
  fst (create_knowledge_item env item_data u w) = inr r ->
  let w' := snd (create_knowledge_item env item_data u w) in
  List.length (knowledge_items (db w')) <= limit ->
  In r (fst (get_knowledge_items env limit 0 u w')).
Proof.
  intros Hr. cbv zeta. intros Hlimit.
  pose proof (create_knowledge_item_stages env item_data u w) as H.
  cbv zeta in H.
  destruct (varchar env 50 (KnowledgeItemCreate.type item_data));
    [|rewrite H in Hr; discriminate].
  destruct H as (Hdb & _ & _ & _ & _ & Hf). rewrite Hf in Hr.
  match type of Hr with
  | context [attach_all env ?a ?b ?names ?w0] =>
      destruct (attach_all_grow env a b names w0)
        as (_ & _ & _ & _ & _ & _ & Hk & _);
      destruct (fst (attach_all env a b names w0)); [discriminate|]
  end.
  cbv zeta in Hk. rewrite <- Hdb in Hk, Hr. injection Hr as <-.
  rewrite get_knowledge_items_run. cbn [fst].
  apply (in_map (fun it => serialize_knowledge_item _ it true)).
  unfold page_of_items. rewrite skipn_O, firstn_all2.
  - apply order_by_In, filter_In. split.
    + rewrite Hk. cbn [committed db knowledge_items].
      apply in_or_app. right. left. reflexivity.
    + apply Nat.eqb_eq. reflexivity.
  - rewrite order_by_length.
    eapply Nat.le_trans; [apply filter_length_le|exact Hlimit].
Qed.

(** ** Extracted fields are single lines *)

Lemma single_line_cons c s :
  single_line (String c s)
  <-> Ascii.eqb (ascii_of_nat 10) c = false /\ single_line s.
Proof.
  unfold single_line.
  change (Py.contains Py.nl (String c s))
    with ((Ascii.eqb (ascii_of_nat 10) c && true) || Py.contains Py.nl s).
  rewrite andb_true_r, orb_false_iff. reflexivity.
Qed.

Lemma single_line_snoc cur c :
  single_line cur -> Ascii.eqb (ascii_of_nat 10) c = false ->
  single_line (cur ++ String c "").
Proof.
  intros Hcur Hc. induction cur as [|x cur IH]; simpl.
  - apply single_line_cons. split; [exact Hc|reflexivity].
  - apply single_line_cons in Hcur. destruct Hcur as [Hx Hcur].
    apply single_line_cons. split; [exact Hx|apply IH; exact Hcur].
Qed.

Lemma first_line_single s : forall cur,
  single_line cur -> single_line (Py.index (Py.split_aux Py.nl 0 cur s) 0).
Proof.
  induction s as [|c s IH]; intros cur Hcur; [exact Hcur|].
  change (Py.split_aux Py.nl 0 cur (String c s))
    with (if Ascii.eqb (ascii_of_nat 10) c && true
          then cur :: Py.split_aux Py.nl 0 "" s
          else Py.split_aux Py.nl 0 (cur ++ String c "") s).
  rewrite andb_true_r.
  destruct (Ascii.eqb (ascii_of_nat 10) c) eqn:E.
  - exact Hcur.
  - apply IH. apply single_line_snoc; assumption.
Qed.

Lemma lstrip_single s : single_line s -> single_line (Py.lstrip s).
Proof.
  induction s as [|c s IH]; simpl; intros H; [exact H|].
  destruct (Py.isspace c); [|exact H].
  apply IH. apply single_line_cons in H. apply H.
Qed.

Lemma rstrip_single s : single_line s -> single_line (Py.rstrip s).
Proof.
  induction s as [|c s IH]; simpl; intros H; [exact H|].
  apply single_line_cons in H. destruct H as [Hc Hs].
  specialize (IH Hs).
  destruct (Py.rstrip s) as [|d r].
  - destruct (Py.isspace c); [reflexivity|].
    apply single_line_cons. split; [exact Hc|reflexivity].
  - apply single_line_cons. split; [exact Hc|exact IH].
Qed.

Lemma after_label_single label response :
  single_line (after_label label response).
Proof.
  unfold after_label, Py.strip, Py.split.
  apply rstrip_single, lstrip_single, first_line_single. reflexivity.
Qed.

(** X24: the title and the summary read out of an agent's answer never
    hold a line break, as long as the file name holds none. *)
Theorem parsed_fields_are_single_lines (filename response : string) :
  single_line filename ->
  let '(title, summary, _) := parse_processing_response filename response in
  single_line title /\ single_line summary.
Proof.
  intros Hname. unfold parse_processing_response. split.
  - destruct (Py.contains "Title:" response); [|exact Hname].
    pose proof (after_label_single "Title:" response) as H.
    destruct (after_label "Title:" response); [exact Hname|exact H].
  - destruct (Py.contains "Summary:" response);
      [apply after_label_single|reflexivity].
Qed.

(** ** The further properties on the sample inputs *)

Lemma plain_jose_sound : jose_sound Demo.plain_jose.
Proof.
  intros p key alg t e He. simpl.
  rewrite !String.eqb_refl, He. simpl.
  destruct (Nat.leb t e); reflexivity.
Qed.

Lemma full_listing_is_complete_witness :
  In (serialize_knowledge_item (db Sample.small_world)
        (Sample.note 4 1 "python code") true)
     (fst (get_knowledge_items Sample.env_answering 10 0 Sample.alice
             Sample.small_world)).
Proof.
  apply (full_listing_is_complete Sample.env_answering Sample.small_world
           Sample.alice 10).
  - simpl. lia.
  - exists (Sample.note 4 1 "python code"). simpl. auto.
Defined.

Lemma pages_compose_witness :
  fst (get_knowledge_items Sample.env_answering 1 0 Sample.alice
         Demo.dated_world)
  ++ fst (get_knowledge_items Sample.env_answering 2 1 Sample.alice
            Demo.dated_world)
  = fst (get_knowledge_items Sample.env_answering 3 0 Sample.alice
           Demo.dated_world).
Proof.
  assert (Hdistinct : distinct_times (db Demo.dated_world)
                                     (User.id Sample.alice)).
  { unfold distinct_times. simpl. repeat constructor; simpl; intuition lia. }
  destruct (pages_compose Sample.env_answering Demo.dated_world Sample.alice
              1 2 0 Hdistinct) as [Hcompose Hanswer].
  apply Hcompose; apply Hanswer.
Defined.

Lemma created_item_is_listed_witness :
  exists r,
    fst (create_knowledge_item Sample.env_answering
           (Sample.note_request ["a"]) Sample.alice Sample.small_world)
    = inr r
    /\ In r (fst (get_knowledge_items Sample.env_answering 10 0 Sample.alice
                    (snd (create_knowledge_item Sample.env_answering
                            (Sample.note_request ["a"]) Sample.alice
                            Sample.small_world)))).
Proof.
  destruct (fst (create_knowledge_item Sample.env_answering
                   (Sample.note_request ["a"]) Sample.alice
                   Sample.small_world)) as [e|r] eqn:E.
  - vm_compute in E. discriminate E.
  - exists r. split; [reflexivity|].
    apply (created_item_is_listed Sample.env_answering Sample.small_world
             Sample.alice (Sample.note_request ["a"]) 10 r E).
    vm_compute. lia.
Defined.

Lemma foreign_conversation_is_not_reused_witness :
  ChatResponse.conversation_id
    (fst (chat Sample.env_answering (Demo.ask (Some 7)) Sample.alice
               Demo.talk_world)) = 10.
Proof.
  assert (Hforeign : forall c,
    In c (conversations (db Demo.talk_world)) ->
    Some (Conversation.id c) = ChatRequest.conversation_id (Demo.ask (Some 7)) ->
    Conversation.user_id c <> User.id Sample.alice).
  { simpl. intros c [<-|[<-|[]]] Hid; simpl in *; congruence. }
  exact (proj1 (foreign_conversation_is_not_reused Sample.env_answering
                  Demo.talk_world Sample.alice (Demo.ask (Some 7)) Hforeign)).
Defined.

Lemma reused_conversation_is_not_updated_witness :
  ChatResponse.conversation_id
    (fst (chat Sample.env_answering (Demo.ask (Some 6)) Sample.alice
               Demo.talk_world)) = 6
  /\ conversations
       (db (snd (chat Sample.env_answering (Demo.ask (Some 6)) Sample.alice
                      Demo.talk_world)))
     = conversations (db Demo.talk_world).
Proof.
  exact (reused_conversation_is_not_updated Sample.env_answering
           Demo.talk_world Sample.alice (Demo.ask (Some 6)) (Demo.talk 6 1)
           eq_refl).
Defined.

Lemma history_ends_with_the_new_turns_witness :
  exists um am,
    fst (get_conversation_messages Sample.env_answering 6 Sample.alice
           (snd (chat Sample.env_answering (Demo.ask (Some 6)) Sample.alice
                      Demo.talk_world)))
    = inr (map serialize_chat_message
               [Demo.turn 8 6 "user" "hello" 1;
                Demo.turn 9 6 "assistant" "hi" 2]
           ++ [um; am])
    /\ MessageDict.role um = "user"
    /\ MessageDict.role am = "assistant".
Proof.
  destruct (history_ends_with_the_new_turns Sample.env_answering
              Demo.talk_world Sample.alice (Demo.ask (Some 6)))
    as (um & am & H & Hu & _ & Ha & _).
  - intros m Hm. simpl in Hm.
    destruct Hm as [<-|[<-|[]]]; simpl; lia.
  - exists um, am. split; [exact H|]. split; assumption.
Defined.

Lemma foreign_conversation_history_is_missing_witness :
  fst (get_conversation_messages Sample.env_answering 7 Sample.alice
         Demo.talk_world)
  = inl (HTTPException 404 "Conversation not found").
Proof.
  rewrite (foreign_conversation_history_is_missing Sample.env_answering
             Demo.talk_world Sample.alice 7); [reflexivity|].
  simpl. intros c [<-|[<-|[]]] Hid; simpl in *; congruence.
Defined.

Lemma login_refused_outside_development_witness :
  login Demo.plain_jose Demo.env_production "demo@example.com" "secret"
        Sample.fresh_world
  = (inl (HTTPException
            403 "Password/OAuth authentication required in production"),
     Sample.fresh_world).
Proof.
  apply (login_refused_outside_development Demo.plain_jose
           Demo.env_production "demo@example.com" "secret"
           Sample.fresh_world).
  simpl. discriminate.
Defined.

Lemma login_twice_same_user_witness :
  exists d1 d2,
    fst (login Demo.plain_jose Sample.env_answering "demo@example.com" "x"
               Sample.fresh_world) = inr d1
    /\ fst (login Demo.plain_jose Sample.env_answering "demo@example.com" "y"
                  (snd (login Demo.plain_jose Sample.env_answering
                              "demo@example.com" "x" Sample.fresh_world)))
       = inr d2
    /\ LoginDict.user d2 = LoginDict.user d1.
Proof.
  destruct (login_twice_same_user Demo.plain_jose Sample.env_answering
              "demo@example.com" "x" "y" Sample.fresh_world eq_refl)
    as (d1 & d2 & H1 & H2 & Hu & _).
  exists d1, d2. auto.
Defined.

Lemma login_token_authenticates_witness :
  exists d user,
    fst (login Demo.plain_jose Sample.env_answering "demo@example.com" "x"
               Sample.fresh_world) = inr d
    /\ fst (get_current_user Demo.plain_jose Sample.env_answering
              (LoginDict.access_token d)
              (snd (login Demo.plain_jose Sample.env_answering
                          "demo@example.com" "x" Sample.fresh_world)))
       = inr user
    /\ User.id user = UserDict.id (LoginDict.user d).
Proof.
  apply (login_token_authenticates Demo.plain_jose Sample.env_answering
           plain_jose_sound "demo@example.com" "x" Sample.fresh_world).
  - reflexivity.
  - reflexivity.
  - simpl. lia.
Defined.

Lemma login_token_expires_witness :
  exists d,
    fst (login Demo.plain_jose Sample.env_answering "demo@example.com" "x"
               Sample.fresh_world) = inr d
    /\ fst (get_current_user Demo.plain_jose Sample.env_answering
              (LoginDict.access_token d)
              (mkWorld (db Sample.fresh_world) [] 4 2000 None []))
       = inl credentials_exception.
Proof.
  apply (login_token_expires Demo.plain_jose Sample.env_answering
           plain_jose_sound "demo@example.com" "x" Sample.fresh_world).
  - reflexivity.
  - simpl. lia.
Defined.

Lemma names_unique_fresh_world : names_unique (db Sample.fresh_world).
Proof. intros uid n. simpl. lia. Qed.

Lemma ingestion_keeps_tag_names_unique_witness :
  names_unique
    (db (snd (create_knowledge_item Sample.env_answering
                (Sample.note_request ["a"; "a"]) Sample.alice
                Sample.fresh_world))).
Proof.
  assert (Hu : names_unique (db Sample.fresh_world))
    by (intros uid n; simpl; lia).
  destruct (ingestion_keeps_tag_names_unique Sample.env_answering
              Sample.fresh_world Sample.alice Hu) as [Hcreate _].
  apply (Hcreate (Sample.note_request ["a"; "a"])).
  repeat constructor; apply short_name_kept; simpl; lia.
Defined.

Lemma created_item_has_own_tags_witness :
  wf Sample.fresh_world
  /\ exists r,
      fst (create_knowledge_item Sample.env_answering
             (Sample.note_request ["a"; "b"]) Sample.alice
             Sample.fresh_world) = inr r
      /\ List.length
           (item_tags
              (db (snd (create_knowledge_item Sample.env_answering
                          (Sample.note_request ["a"; "b"]) Sample.alice
                          Sample.fresh_world))) 3) = 2
      /\ Forall (fun t => Tag.user_id t = 1)
           (item_tags
              (db (snd (create_knowledge_item Sample.env_answering
                          (Sample.note_request ["a"; "b"]) Sample.alice
                          Sample.fresh_world))) 3).
Proof.
  assert (Hwf : wf Sample.fresh_world) by wf_of_empty_tables.
  split; [exact Hwf|].
  destruct (fst (create_knowledge_item Sample.env_answering
                   (Sample.note_request ["a"; "b"]) Sample.alice
                   Sample.fresh_world)) as [e|r] eqn:E.
  - vm_compute in E. discriminate E.
  - exists r. split; [reflexivity|]. split; [reflexivity|].
    assert (Hid : ItemDict.id r = 3).
    { pose proof E as E'. vm_compute in E'. injection E' as <-.
      reflexivity. }
    apply Forall_forall. intros t Ht. rewrite <- Hid in Ht.
    exact (proj1 (created_item_has_own_tags Sample.env_answering
                    Sample.fresh_world Sample.alice
                    (Sample.note_request ["a"; "b"]) r Hwf E t Ht)).
Defined.

Lemma requested_tags_are_listed_witness :
  exists r d,
    fst (create_knowledge_item Sample.env_answering
           (Sample.note_request ["a"; "b"]) Sample.alice
           Sample.fresh_world) = inr r
    /\ In d (fst (get_tags Sample.env_answering Sample.alice
                    (snd (create_knowledge_item Sample.env_answering
                            (Sample.note_request ["a"; "b"]) Sample.alice
                            Sample.fresh_world))))
    /\ TagDict.name d = "b".
Proof.
  assert (Hwf : wf Sample.fresh_world) by wf_of_empty_tables.
  destruct (fst (create_knowledge_item Sample.env_answering
                   (Sample.note_request ["a"; "b"]) Sample.alice
                   Sample.fresh_world)) as [e|r] eqn:E.
  - vm_compute in E. discriminate E.
  - destruct (requested_tags_are_listed Sample.env_answering
                Sample.fresh_world Sample.alice
                (Sample.note_request ["a"; "b"]) r "b" Hwf E)
      as (d & Hd & Hname).
    + simpl. auto.
    + apply short_name_kept. simpl. lia.
    + exists r, d. split; [reflexivity|]. split; [exact Hd|exact Hname].
Defined.

Lemma ingestion_leaves_other_tag_lists_witness :
  fst (get_tags Sample.env_answering Sample.bob
         (snd (upload_file Sample.env_answering Sample.text_file Sample.alice
                           Sample.fresh_world)))
  = fst (get_tags Sample.env_answering Sample.bob Sample.fresh_world).
Proof.
  assert (Hother : User.id Sample.bob <> User.id Sample.alice)
    by (simpl; lia).
  destruct (ingestion_leaves_other_tag_lists Sample.env_answering
              Sample.fresh_world Sample.alice Sample.bob Hother)
    as [_ Hupload].
  exact (Hupload Sample.text_file).
Defined.

Lemma wf_small_world : wf Sample.small_world.
Proof.
  unfold wf. simpl.
  split; [constructor|split; [intros ? []|split; [|intros ? []]]].
  intros it [<-|[<-|[<-|[]]]]; simpl; lia.
Qed.

Lemma ingestion_leaves_other_item_lists_witness :
  fst (get_knowledge_items Sample.env_answering 50 0 Sample.bob
         (snd (create_knowledge_item Sample.env_answering
                 (Sample.note_request ["a"]) Sample.alice
                 Sample.small_world)))
  = fst (get_knowledge_items Sample.env_answering 50 0 Sample.bob
           Sample.small_world).
Proof.
  assert (Hwf : wf Sample.small_world).
  { unfold wf. simpl.
    split; [constructor|split; [intros ? []|split; [|intros ? []]]].
    intros it [<-|[<-|[<-|[]]]]; simpl; lia. }
  assert (Hother : User.id Sample.bob <> User.id Sample.alice)
    by (simpl; lia).
  destruct (ingestion_leaves_other_item_lists Sample.env_answering
              Sample.small_world Sample.alice Sample.bob 50 0 Hwf Hother)
    as [Hcreate _].
  exact (Hcreate (Sample.note_request ["a"])).
Defined.

Lemma only_text_uploads_have_content_witness :
  exists r,
    fst (upload_file Sample.env_answering Sample.text_file Sample.alice
                     Sample.fresh_world) = inr r
    /\ ItemDict.content r = Some "hello".
Proof.
  destruct (fst (upload_file Sample.env_answering Sample.text_file
                             Sample.alice Sample.fresh_world))
    as [e|r] eqn:E.
  - vm_compute in E. discriminate E.
  - exists r. split; [reflexivity|].
    exact (only_text_uploads_have_content Sample.env_answering
             Sample.fresh_world Sample.alice Sample.text_file r E).
Defined.

Lemma upload_names_are_not_empty_witness :
  exists r names,
    fst (upload_file Sample.env_answering Sample.text_file Sample.alice
                     Sample.fresh_world) = inr r
    /\ ItemDict.tags r = Some names
    /\ Forall (fun n => n <> "") names.
Proof.
  assert (Hwf : wf Sample.fresh_world) by wf_of_empty_tables.
  destruct (fst (upload_file Sample.env_answering Sample.text_file
                             Sample.alice Sample.fresh_world))
    as [e|r] eqn:E.
  - vm_compute in E. discriminate E.
  - destruct (upload_names_are_not_empty Sample.env_answering
                Sample.fresh_world Sample.alice Sample.text_file r Hwf E)
      as ((names & Htags & Hnames) & _).
    exists r, names. split; [reflexivity|]. split; [exact Htags|exact Hnames].
Defined.

Lemma parsed_fields_are_single_lines_witness :
  single_line "Notes" /\ single_line "short".
Proof.
  exact (parsed_fields_are_single_lines "a.txt"
           ("Title: Notes" ++ Py.nl ++ "Summary: short" ++ Py.nl
            ++ "Tags: x, y" ++ Py.nl)%string eq_refl).
Defined.

Lemma supplied_summary_wins_witness :
  exists r,
    fst (create_knowledge_item Sample.env_answering Demo.summarised_request
           Sample.alice Sample.fresh_world) = inr r
    /\ ItemDict.summary r = Some "my own summary".
Proof.
  destruct (fst (create_knowledge_item Sample.env_answering
                   Demo.summarised_request Sample.alice Sample.fresh_world))
    as [e|r] eqn:E.
  - vm_compute in E. discriminate E.
  - exists r. split; [reflexivity|].
    exact (supplied_summary_wins Sample.env_answering Sample.fresh_world
             Sample.alice Demo.summarised_request r eq_refl E).
Defined.

Lemma no_content_no_agent_call_witness :
  agents (snd (create_knowledge_item Sample.env_answering Demo.empty_request
                 Sample.alice Sample.fresh_world))
  = None.
Proof.
  destruct (no_content_no_agent_call Sample.env_answering
              Sample.fresh_world Sample.alice Demo.empty_request eq_refl)
    as (_ & Hagents & _).
  exact Hagents.
Defined.

Lemma failed_generation_apologises_witness :
  ChatResponse.message
    (fst (chat Sample.env_raising (Sample.question true) Sample.alice
               Sample.small_world))
  = apology.
Proof.
  apply (failed_generation_apologises Sample.env_raising Sample.small_world
           Sample.alice (Sample.question true)).
  intros prompt. reflexivity.
Defined.

Lemma search_reads_fifty_characters_witness :
  ChatResponse.sources
    (fst (chat Sample.env_answering (Demo.long_question "first") Sample.alice
               Sample.small_world))
  = ChatResponse.sources
      (fst (chat Sample.env_answering (Demo.long_question "second")
                 Sample.alice Sample.small_world)).
Proof.
  exact (search_reads_fifty_characters Sample.env_answering
           Sample.small_world Sample.alice (Demo.long_question "first")
           (Demo.long_question "second") eq_refl eq_refl).
Defined.

(** the further handlers, evaluated *)

Example listing_of_alice :
  map ItemDict.id
      (fst (get_knowledge_items Sample.env_answering 50 0 Sample.alice
              Sample.small_world))
  = [3; 4].
Proof. vm_compute. reflexivity. Qed.

Example history_of_conversation_six :
  fst (get_conversation_messages Sample.env_answering 6 Sample.alice
         Demo.talk_world)
  = inr [MessageDict.mk 8 "user" "hello" None 1;
         MessageDict.mk 9 "assistant" "hi" None 2].
Proof. vm_compute. reflexivity. Qed.

Example conversations_of_alice :
  fst (get_conversations Sample.env_answering Sample.alice Demo.talk_world)
  = [ConversationDict.mk 6 "Chat 2024-01-01 00:00" 0 0 (Some 2)].
Proof. vm_compute. reflexivity. Qed.

Example order_by_newest :
  order_by (desc (fun n => n)) [2; 5; 1; 5; 3] = [5; 5; 3; 2; 1].
Proof. reflexivity. Qed.

Example text_of_missing_keys :
  text_of_content (fun _ => "?") [("title", JStr "x")] = "".
Proof. reflexivity. Qed.
